(* ===== verification/_CoqProject ===== *)
-Q . S2P
Prelude.v
GeminiStream.v
GeminiConfig.v
AgentTree.v
AgentGraph.v
SampleTools.v
Session.v
Artifacts.v
Runner.v
Cli.v
Agents.v
ToolLoop.v
JsString.v
AgentTool.v
WebTest.v
WebServer.v
WebSuite.v
