(* ===== verification/Prelude.v ===== *)
(** * A verification development of paean-ai/adk-js

    adk-js is a runtime for trees of "agents": a leaf agent that calls a
    model and tools, and Sequential, Parallel and Loop agents that compose
    sub-agents.  It records every step as an append-only event log whose
    state deltas fold into the session state.  The code under [src/] is
    the part of the repository that surrounds the orchestration core:

    - [src/dev/test/server/agent_graph_test.ts]: the test of the graph
      renderer, followed by two revisions of the Gemini model adapter
      ([google_llm.ts]).  Revision 1 is lines 187-692; revision 2 is lines
      693-1482.  Both have the Gemini 3 "thought signature" handling,
      the constructor's endpoint routing and the live client; they differ
      in the adapter field [cachedThoughtSignature] and the code around
      it, which only revision 2 has;
    - [src/dev/src/server/agent_graph.ts]: the Graphviz rendering of an
      agent tree, used by the dev server;
    - [src/dev/src/cli/cli_run.ts]: the command-line front end that feeds
      queries to a Runner and prints the events;
    - [src/unnamed/part_001] and [src/dev/samples/loop_agent.ts]: the
      sample agent trees and their function tools (dice, primality,
      temperature); [loop_agent.ts] continues with the test suite of the
      dev web server ([MockHttpClient], a [TestAgent], the session,
      artifact and [run_sse] tests);
    - [src/unnamed/part_000]: the vitest configuration (not modelled:
      build configuration).

    The orchestration core (Runner, agents, session service, tool loop)
    is not under [src/].  It is modelled from [spec.md] §3-§5, and the
    manifest marks it [spec_modelled].  The front end and the samples
    reach it through interfaces (typeclasses), so their theorems hold for
    every implementation that satisfies the laws.

    ** Files, in dependency order

    - [Prelude] (this file): the [adk_scope] notations; JavaScript
      truthiness of optional strings ([js_truthy], [js_or], [?||]);
      exceptions as values ([result] with [Ok]/[Throw] and its [;;] bind);
      the [adk] and [adk_rw] hint databases; string and list lemmas
      ([update_first] models the adapter's "first part such that ...;
      break" loops).
    - [GeminiStream]: the response side of [Gemini.generateContentAsync].
      Parts, contents and responses are records with the SDK's optional
      fields.  One iteration of the streaming loop is a step function on
      an explicit accumulator record (the locals [thoughtText],
      [thoughtSignature], [text], [usageMetadata], [lastResponse]).  The
      adapter field [cachedThoughtSignature] outlives a call and is
      threaded as explicit state ([Adapter]); a generator's yields are
      the output list.  Theorems C1-C4: revision 2 refines revision 1 on
      every model that is not a Gemini 3 preview; conservation of the
      streamed text; the signature invariant for function calls, streamed
      and not.  Library lemmas show that the cache survives across calls,
      against the field's comment, and what a thought-plus-call chunk
      clears (findings of the manifest).
    - [GeminiConfig]: the [Gemini] constructor (model, endpoint, Vertex
      mode, API key, project and location from the parameters and the
      environment, a record [Env]); the memoised getters [apiClient],
      [apiBackend], [liveApiVersion] and [liveApiClient], with the memo
      fields as state; [preprocessRequest]; [connect].  The Section
      variables [isGemini3PreviewModel] and [trackingHeaders] stand for
      helpers that are not under [src/].  Theorems C7-C11: credentials
      of the chosen mode, Gemini 3 routing, [vertexai: false] ignored,
      getters agreeing with their reference values in any call order
      (a memo invariant preserved by every getter), the request
      stripping.
    - [AgentTree]: the agent tree as a nested inductive ([Agent], with
      [AgentKind] the class of the agent: LlmAgent with its tools,
      Sequential, Parallel, Loop with [maxIterations], custom), with its
      induction principle.
    - [AgentGraph]: [buildGraph], [buildCluster], [drawNode], [drawEdge]
      and [getAgentGraph] of [agent_graph.ts], producing the list of the
      graph-building calls, with a thrown [TypeError] as a value; the
      attribute objects of the calls ([op_item], with the colour
      constants) and [getAgentGraphAsDot], with the [toDot] printer of
      [ts-graphviz] as a parameter.  Theorems C5-C6: exactly when
      rendering throws; the node count of nested clusters (2^d, the
      double traversal).  The captions are the literals of the source,
      whose bytes are not the UTF-8 emoji the tests expect (a finding).
    - [SampleTools]: [check_prime] (its trial-division loop against
      [Znumtheory.prime]) and the random tools with [Math.random()] as a
      rational in [[0,1)].  Theorems C12-C14: the primes [check_prime]
      reports; the exact range of [roll_dice] for at least one side, and
      for no or a negative number of sides, where it is not a face.
    - [Session] (spec): [Event], [State] as [gmap string Value],
      [applyDelta] and its fold ([fold_from], [replay]); the
      [SessionService] class (create with an optional id, get, append,
      delete, list) with its laws ([SessionServiceLaws]) and the
      in-memory implementation ([InMemory], with fresh session ids and a
      store invariant kept by every operation).  Incremental folding
      equals replay.
    - [Artifacts] (spec): the [ArtifactService] class (save, load, list
      keys, list versions, delete) with its contract as a refinement of a
      view, the versions of each artifact ([ArtifactServiceLaws]), and
      the in-memory implementation; versions are immutable and saves
      number them consecutively, under any lawful service.
    - [Runner] (spec): the [Runner] class and [SpecRunner]: fail fast on
      an unknown session, append the user event, then append and forward
      every event of the agent (an error event ends a failed run), all
      under one invocation id.  [runAsync] is also a generator
      ([spec_run_gen], [gen_next]) pulled by a caller that may stop
      early ([consume]): what it reads is exactly what was appended, and
      the drained generator is [spec_run].  [spec_run_gen] computes the
      whole event list first, so the model of cancellation holds by
      construction, and no claim rests on it.
    - [Cli]: [cli_run.ts] over any [SessionService] and [Runner] as a
      state-and-exception monad [CliM] on a [World] record (service
      state, stdin lines, stdout lines, clock, input files, saved
      sessions).  It covers [getUserInput], [runInteractively] (recursion
      on the stdin lines), [runFromInputFile], the resume path
      ([replay_loaded]), [saveSession] and [runAgent].  Theorems C15-C18: the session a
      file run creates, the interactive batch, resume as replay, and the
      session never saved when stdin ends without [exit].  [getUserInput]
      reads one line of a shared stdin buffer.  The code opens a fresh
      [readline] interface for each question, and on piped stdin that
      can swallow lines the previous interface had buffered; the model
      does not cover this.
    - [Agents] (spec): [InvocationContext] and branch derivation; [exec],
      one structural recursion over the tree.  A leaf (section variable
      [leaf]) runs the LlmAgent or custom agent; Sequential stops at the
      first escalation and threads the folded state; Loop runs rounds up
      to [maxIterations] ([unbounded] rounds when absent); Parallel hands
      its branches to a scheduler [sched], and [interleaving] says what a
      fair scheduler may produce.  It also holds the sample trees of
      [part_001] and [loop_agent.ts] and the [TestAgent] of the
      web-server test in [loop_agent.ts].  Theorems C19-C20: the spec's
      loop and parallel properties (§8) on the real sample trees.
    - [ToolLoop] (spec): the tool-invocation loop of a leaf (§4.5) as a
      state machine ([AwaitingModel], [ExecutingTools], [Finished]).  It
      is given three ways that agree: an executable [step_fn], an
      inductive [step] relation closed into traces ([steps]), and a
      fuelled [run].  The [FunctionTool]s of the samples are wired to
      [SampleTools].  Theorems C21-C24: results in call order, the
      convergence of §8, the missing turn limit, tool failures as data.
    - [JsString]: [String.prototype.split] with a string separator
      ([js_split]), by well-founded recursion on the length (Equations),
      with the lemmas that splitting undoes joining.
    - [AgentTool] (spec): the agent-as-tool adapter of §4.3, which drains
      the wrapped agent's tool loop and returns the text of its events,
      and the [AgentTool] sample of [part_001].  Theorem C25: the
      delegation returns the summary agent's text.  The instruction of
      the sample names a tool [summarize] that the agent does not have
      (a finding).
    - [WebTest]: the test harness of the web server that follows the
      loop sample in [loop_agent.ts].  [MockHttpClient.sendMockRequest]
      is state passing over the mock response's calls, with a
      settle-once promise.  The file also has the try/catch shape of the
      error-status tests, and the SSE parsing and the expectations of the
      [run_sse] test.  Theorems C26-C28: what the status tests really
      check, the SSE parsing round trip and where it breaks, and the
      [run_sse] test passing on the [TestAgent] run through the Runner.
      The model assumes that the application makes its response calls
      synchronously.  With an async handler, a [TypeError] thrown after
      [sendMockRequest] returns leaves the promise pending; that case is
      not modelled.
    - [WebServer] (spec): the session and artifact routes of
      [AdkWebServer], which is not in the repository, modelled from the
      URLs the tests request and the service interfaces: Express route
      matching over [js_split], handlers over [SessionService] and
      [ArtifactService], and [request], the mock client on the services
      the test shares with the server.  This server is a reference
      implementation chosen to fit the tests.  Nothing in the repository
      checks it, so no property of the manifest rests on it.
    - [WebSuite]: the thirteen [Sessions] and [Artifacts] tests of
      [loop_agent.ts] as functions of the [beforeEach] state.  A library theorem
      shows that every one passes against the reference server over any
      lawful services that start empty.  This holds by the choice of the
      server and says nothing about the real [AdkWebServer].

    ** Bounds and fuel

    - [ToolLoop.run] counts transitions.  The convergence theorem gives
      the exact fuel, [3 * k + 1] for [k] tool rounds (one transition for
      the turn, one per call, one to resume), and [run_finished_mono]
      makes any larger fuel give the same result.  The divergence theorem
      holds for every fuel.
    - The agent-as-tool adapter drains the wrapped agent with a fuel
      bound on its transitions, and fails the call when the fuel runs
      out; the delegation theorem holds for every fuel from 1, the
      transitions a tool-less agent needs.
    - [Agents.exec] is structural.  A Loop without [maxIterations] runs
      [unbounded] rounds, a parameter that stands for the consumer's
      cancellation; every theorem holds for every value of it.
    - The CLI's interactive loop recurses on the finite list of stdin
      lines.  A run that would wait for input that never comes is the
      outcome [Blocked], not a diverging function.
    - [js_split] recurses on the length of the rest of the string, which
      shrinks by at least the (non-empty) separator's length at every
      cut; closed splits compute by [vm_compute].
    - Integers are [Z] where the code uses integer-valued numbers;
      [Math.random()] is a rational in [[0,1)], and [Math.floor] is
      [Qfloor].

    ** Not modelled

    - The network I/O of the Google GenAI SDK: its responses are the
      models' inputs, and [createLlmResponse] is the identity on the
      chunk's response record.
    - The routes of [AdkWebServer] that the tests do not request (agent
      runs other than [run_sse], evaluation, debugging), the memory
      service (optional in §6 and called by no sample or test), the
      user-scoped artifact names and the key sorting of the in-memory
      artifact service.  [JSON.parse] and [JSON.stringify] are
      parameters.
    - The events an agent-as-tool without [skipSummarization] forwards
      are computed but not spliced into the outer loop (every sample
      sets the flag).
    - The vitest configuration ([part_000]): which files it selects
      depends on the defaults of the glob library, outside the
      repository.
    - Logging, which changes no state the code reads; floating-point
      rounding.
    - The tracking headers and model-name helpers, which are imported
      from outside [src/] and are section variables here. *)

From Stdlib Require Export String.
From stdpp Require Export base list strings.

Declare Scope adk_scope.
Delimit Scope adk_scope with adk.
Open Scope adk_scope.

(** ** JavaScript truthiness of optional strings

    A TypeScript [string | undefined] is [option string]; it is truthy when
    it is defined and not the empty string. *)

Definition js_truthy (o : option string) : bool :=
  match o with
  | Some s => negb (String.eqb s "")
  | None => false
  end.

(** [a || b] on [string | undefined]: the left operand when truthy. *)
Definition js_or (a b : option string) : option string :=
  if js_truthy a then a else b.

(** A defined optional boolean field ([p.thought]) used as a condition. *)
Definition js_bool (o : option bool) : bool :=
  match o with Some b => b | None => false end.

(** A string used as a condition ([if (text)]). *)
Definition str_truthy (s : string) : bool := negb (String.eqb s "").

Notation "a ?|| b" := (js_or a b) (at level 50, left associativity) : adk_scope.

Create HintDb adk discriminated.
Create Rewrite HintDb adk_rw.

Lemma js_or_truthy a b : js_truthy (a ?|| b) = js_truthy a || js_truthy b.
Proof. unfold js_or. destruct (js_truthy a) eqn:E; simpl; by rewrite ?E. Qed.

Lemma js_or_l a b : js_truthy a = true -> a ?|| b = a.
Proof. unfold js_or. by intros ->. Qed.

Lemma js_or_r a b : js_truthy a = false -> a ?|| b = b.
Proof. unfold js_or. by intros ->. Qed.

Lemma js_truthy_Some_inv o : js_truthy o = true -> exists s, o = Some s /\ s <> "".
Proof.
  destruct o as [s|]; simpl; [|discriminate].
  destruct (String.eqb_spec s "") as [->|Hne]; [discriminate|eauto].
Qed.

Lemma str_truthy_js s : js_truthy (Some s) = str_truthy s.
Proof. reflexivity. Qed.

Lemma str_truthy_empty : str_truthy "" = false.
Proof. reflexivity. Qed.

#[export] Hint Rewrite js_or_truthy str_truthy_js : adk_rw.
#[export] Hint Resolve js_or_l js_or_r : adk.

(** ** Strings

    [String.append] is [simpl never]; its two equations are stated once. *)

Lemma string_app_nil_l (s : string) : ("" ++ s)%string = s.
Proof. reflexivity. Qed.

Lemma string_app_cons c (s t : string) : (String c s ++ t)%string = String c (s ++ t).
Proof. reflexivity. Qed.

Lemma string_app_nil_r (s : string) : (s ++ "")%string = s.
Proof. induction s as [|c s IH]; [done|by rewrite string_app_cons, IH]. Qed.

Lemma string_app_assoc (a b c : string) : (a ++ (b ++ c))%string = ((a ++ b) ++ c)%string.
Proof. induction a as [|x a IH]; [done|by rewrite !string_app_cons, IH]. Qed.

Lemma string_app_eq_empty (a b : string) : (a ++ b)%string = "" -> a = "" /\ b = "".
Proof. destruct a; simpl; [done|discriminate]. Qed.

Lemma str_truthy_app (a b : string) : str_truthy (a ++ b) = str_truthy a || str_truthy b.
Proof. by destruct a. Qed.

#[export] Hint Rewrite string_app_nil_l string_app_cons string_app_nil_r str_truthy_app : adk_rw.

(** [strs.join('')] *)
Definition str_concat (l : list string) : string := foldr String.append "" l.

Lemma str_concat_cons s l : str_concat (s :: l) = (s ++ str_concat l)%string.
Proof. reflexivity. Qed.

Lemma str_concat_app l1 l2 : str_concat (l1 ++ l2) = (str_concat l1 ++ str_concat l2)%string.
Proof.
  induction l1 as [|s l IH]; simpl; [done|].
  by rewrite IH, string_app_assoc.
Qed.

(** ** Lists: the "first element satisfying" update used by the adapter's
    [for ... { if (cond) { ...; break; } }] loops. *)

Fixpoint update_first {A} (P : A -> bool) (f : A -> A) (l : list A) : list A :=
  match l with
  | [] => []
  | x :: l' => if P x then f x :: l' else x :: update_first P f l'
  end.

Lemma update_first_length {A} (P : A -> bool) f (l : list A) :
  length (update_first P f l) = length l.
Proof. induction l as [|x l IH]; simpl; [done|]. destruct (P x); simpl; by rewrite ?IH. Qed.

Lemma update_first_existsb {A} (P Q : A -> bool) f (l : list A) :
  (forall x, P x = true -> Q (f x) = true) ->
  existsb P l = true -> existsb Q (update_first P f l) = true.
Proof.
  intros Hf. induction l as [|x l IH]; simpl; [done|].
  destruct (P x) eqn:Hx; simpl.
  - by rewrite Hf.
  - intros H. apply orb_true_iff. by right; apply IH.
Qed.

Lemma update_first_none {A} (P : A -> bool) f (l : list A) :
  existsb P l = false -> update_first P f l = l.
Proof.
  induction l as [|x l IH]; simpl; [done|].
  destruct (P x); simpl; [discriminate|]. intros H. by rewrite IH.
Qed.

Lemma update_first_existsb_same {A} (P Q : A -> bool) f (l : list A) :
  (forall x, Q (f x) = Q x) -> existsb Q (update_first P f l) = existsb Q l.
Proof.
  intros Hf. induction l as [|x l IH]; simpl; [done|].
  destruct (P x); simpl; by rewrite ?Hf, ?IH.
Qed.

Lemma update_first_existsb_mono {A} (P Q : A -> bool) f (l : list A) :
  (forall x, Q x = true -> Q (f x) = true) ->
  existsb Q l = true -> existsb Q (update_first P f l) = true.
Proof.
  intros Hf. induction l as [|x l IH]; simpl; [done|].
  intros [Hx|Hl]%orb_true_iff; destruct (P x); simpl; apply orb_true_iff; auto.
Qed.

Lemma filter_length_zero {A} (P : A -> bool) (l : list A) :
  length (List.filter P l) = 0 <-> existsb P l = false.
Proof.
  induction l as [|x l IH]; simpl; [done|].
  destruct (P x); simpl; [done|]. exact IH.
Qed.

#[export] Hint Rewrite @update_first_length : adk_rw.

(** Split the hypotheses of the form [b1 || b2 = false] and [b1 && b2 = true]. *)
Ltac adk_bool :=
  repeat match goal with
  | H : (_ || _) = false |- _ => apply orb_false_iff in H as [? ?]
  | H : (_ && _) = true |- _ => apply andb_true_iff in H as [? ?]
  | H : negb _ = true |- _ => apply negb_true_iff in H
  | H : negb _ = false |- _ => apply negb_false_iff in H
  end.

(** ** JavaScript exceptions as values

    A call that throws is [Throw e]; the statements before the throw have
    no observable effect for the caller that awaits the rejected promise. *)

Inductive JsError := TypeError (msg : string) | Error (msg : string).

Inductive result (A : Type) := Ok (a : A) | Throw (e : JsError).
Arguments Ok {A} a.
Arguments Throw {A} e.

Definition result_bind {A B} (c : result A) (k : A -> result B) : result B :=
  match c with Ok a => k a | Throw e => Throw e end.

Notation "x <- c ;; k" := (result_bind c (fun x => k))
  (at level 100, c at next level, right associativity) : adk_scope.

Definition is_ok {A} (r : result A) : bool := match r with Ok _ => true | Throw _ => false end.

Lemma result_bind_Ok {A B} (a : A) (k : A -> result B) : result_bind (Ok a) k = k a.
Proof. done. Qed.

Lemma result_bind_Throw {A B} e (k : A -> result B) : result_bind (Throw e) k = Throw e.
Proof. done. Qed.

Lemma result_bind_is_ok {A B} (c : result A) (k : A -> result B) :
  is_ok (result_bind c k) = true -> exists a, c = Ok a /\ is_ok (k a) = true.
Proof. destruct c; simpl; [eauto|discriminate]. Qed.

#[export] Hint Rewrite @result_bind_Ok @result_bind_Throw : adk_rw.

(** [Array.prototype.includes] on a pair. *)
Definition pair_includes (p : string * string) (x : string) : bool :=
  String.eqb p.1 x || String.eqb p.2 x.

(** A string from its UTF-8 bytes (the source files' non-ASCII literals). *)
Definition bytes_string (l : list nat) : string :=
  foldr (fun n s => String (Ascii.ascii_of_nat n) s) "" l.
