(* ===== verification/GeminiStream.v ===== *)
(** * The response side of [Gemini.generateContentAsync]

    Source: [src/dev/test/server/agent_graph_test.ts], which carries two
    revisions of [core/src/models/google_llm.ts]: revision 1 at lines
    187-692 and revision 2 at lines 693-1482.

    The SDK objects the adapter reads and writes ([Part], [Content], the
    [LlmResponse] built by [createLlmResponse]) are records of optional
    fields.  The streaming branch is a loop over chunks: its [let]
    variables form the record [StreamAcc], one iteration is
    [stream_step_v1] / [stream_step_v2], and the generator's yields are
    the output lists.  Revision 2 also reads and writes the adapter field
    [cachedThoughtSignature], threaded through [Adapter]. *)

From S2P Require Import Prelude.

(** ** Data of [@google/genai] used by the adapter *)

Record FunctionCall := mkFunctionCall { fc_name : option string }.

(** [Blob] and [FileData]: only [displayName] is read or written. *)
Record Blob := mkBlob { blob_displayName : option string; blob_mimeType : option string }.

Record Part := mkPart {
  p_text : option string;
  p_thought : option bool;
  p_thoughtSignature : option string;
  p_functionCall : option FunctionCall;
  p_inlineData : option Blob;
  p_fileData : option Blob
}.

Record Content := mkContent { c_role : option string; c_parts : option (list Part) }.

Record UsageMetadata := mkUsage { u_totalTokenCount : option nat }.

Record LlmResponse := mkLlmResponse {
  r_content : option Content;
  r_usageMetadata : option UsageMetadata;
  r_partial : option bool
}.

Inductive FinishReason := STOP | MAX_TOKENS | SAFETY | OTHER_REASON.

(** A streamed [GenerateContentResponse]: the [LlmResponse] that
    [createLlmResponse] makes of it and [candidates[0].finishReason]. *)
Record StreamChunk := mkChunk {
  ch_response : LlmResponse;
  ch_finishReason : option FinishReason
}.

(** ** Field access and update *)

Definition part_signed (p : Part) : bool := js_truthy (p_thoughtSignature p).
Definition part_has_fc (p : Part) : bool := bool_decide (is_Some (p_functionCall p)).

(** [part.thoughtSignature = sig] *)
Definition with_signature (sig : option string) (p : Part) : Part :=
  mkPart (p_text p) (p_thought p) sig (p_functionCall p) (p_inlineData p) (p_fileData p).

(** [llmResponse.content?.parts] *)
Definition resp_parts (r : LlmResponse) : option (list Part) :=
  r_content r ≫= c_parts.

(** [llmResponse.content?.parts?.[0]] *)
Definition first_part (r : LlmResponse) : option Part :=
  resp_parts r ≫= head.

(** [llmResponse.partial = true] *)
Definition set_partial (r : LlmResponse) : LlmResponse :=
  mkLlmResponse (r_content r) (r_usageMetadata r) (Some true).

(** [llmResponse.content.parts = parts] (content defined) *)
Definition set_parts (parts : list Part) (r : LlmResponse) : LlmResponse :=
  match r_content r with
  | Some c => mkLlmResponse (Some (mkContent (c_role c) (Some parts))) (r_usageMetadata r) (r_partial r)
  | None => r
  end.

(** [llmResponse.content?.parts?.some((part) => part.functionCall)] *)
Definition resp_has_fc (r : LlmResponse) : bool :=
  match resp_parts r with Some ps => existsb part_has_fc ps | None => false end.

Definition resp_has_signed (r : LlmResponse) : bool :=
  match resp_parts r with Some ps => existsb part_signed ps | None => false end.

(** [{text: thoughtText, thought: true}] with the signature when truthy. *)
Definition thought_part (txt : string) (sig : option string) : Part :=
  mkPart (Some txt) (Some true) (if js_truthy sig then sig else None) None None None.

(** [createPartFromText(text)] *)
Definition text_part (txt : string) : Part := mkPart (Some txt) None None None None None.

(** ** The loop variables of the streaming branch *)

Record StreamAcc := mkAcc {
  thoughtText : string;
  thoughtSignature : option string;
  text : string;
  usageMetadata : option UsageMetadata;
  lastResponse : option StreamChunk
}.

Definition acc_init : StreamAcc := mkAcc "" None "" None None.

(** [thoughtText = ''; thoughtSignature = undefined; text = '';] *)
Definition acc_reset (a : StreamAcc) : StreamAcc :=
  mkAcc "" None "" (usageMetadata a) (lastResponse a).

(** [lastResponse = response; usageMetadata = llmResponse.usageMetadata;] *)
Definition acc_see (a : StreamAcc) (ch : StreamChunk) : StreamAcc :=
  mkAcc (thoughtText a) (thoughtSignature a) (text a)
        (r_usageMetadata (ch_response ch)) (Some ch).

Definition acc_add_thought (a : StreamAcc) (t : string) : StreamAcc :=
  mkAcc (thoughtText a ++ t) (thoughtSignature a) (text a) (usageMetadata a) (lastResponse a).

Definition acc_add_text (a : StreamAcc) (t : string) : StreamAcc :=
  mkAcc (thoughtText a) (thoughtSignature a) (text a ++ t) (usageMetadata a) (lastResponse a).

Definition acc_set_sig (a : StreamAcc) (sig : option string) : StreamAcc :=
  mkAcc (thoughtText a) sig (text a) (usageMetadata a) (lastResponse a).

(** The flushed parts: the thought part when [thoughtText], then the text
    part when [text]. *)
Definition flush_parts (a : StreamAcc) : list Part :=
  (if str_truthy (thoughtText a) then [thought_part (thoughtText a) (thoughtSignature a)] else [])
  ++ (if str_truthy (text a) then [text_part (text a)] else []).

(** [yield {content: {role: 'model', parts}, usageMetadata}] *)
Definition flush_response (parts : list Part) (u : option UsageMetadata) : LlmResponse :=
  mkLlmResponse (Some (mkContent (Some "model") (Some parts))) u None.

Definition acc_pending (a : StreamAcc) : bool := str_truthy (thoughtText a) || str_truthy (text a).

(** [!firstPart || !firstPart.inlineData] *)
Definition no_inline (fp : option Part) : bool :=
  match fp with Some p => negb (bool_decide (is_Some (p_inlineData p))) | None => true end.

(** The text branch shared by both revisions: accumulate [firstPart.text]
    into [thoughtText] (keeping a truthy signature of a thought part) or
    into [text]. *)
Definition accumulate (a : StreamAcc) (fp : Part) : StreamAcc :=
  let t := default "" (p_text fp) in
  if js_bool (p_thought fp) then
    let a1 := acc_add_thought a t in
    if part_signed fp then acc_set_sig a1 (p_thoughtSignature fp) else a1
  else acc_add_text a t.

(** ** Revision 1 (lines 436-522) *)

Definition stream_step_v1 (a0 : StreamAcc) (ch : StreamChunk) : StreamAcc * list LlmResponse :=
  let r := ch_response ch in
  let a := acc_see a0 ch in
  let fp := first_part r in
  if js_truthy (fp ≫= p_text) then
    (accumulate a (default (text_part "") fp), [set_partial r])
  else if acc_pending a && no_inline fp then
    (acc_reset a, [flush_response (flush_parts a) (r_usageMetadata r); r])
  else (a, [r]).

Fixpoint stream_loop_v1 (a : StreamAcc) (chs : list StreamChunk) : StreamAcc * list LlmResponse :=
  match chs with
  | [] => (a, [])
  | ch :: rest =>
      let '(a1, out1) := stream_step_v1 a ch in
      let '(a2, out2) := stream_loop_v1 a1 rest in
      (a2, out1 ++ out2)
  end.

Definition last_is_stop (a : StreamAcc) : bool :=
  match lastResponse a ≫= ch_finishReason with Some STOP => true | _ => false end.

(** The flush after the loop: only when the last chunk finished with STOP. *)
Definition stream_final (a : StreamAcc) : list LlmResponse :=
  if acc_pending a && last_is_stop a then [flush_response (flush_parts a) (usageMetadata a)] else [].

Definition generateContentStream_v1 (chs : list StreamChunk) : list LlmResponse :=
  let '(a, out) := stream_loop_v1 acc_init chs in out ++ stream_final a.

(** ** Revision 2 (lines 945-1219): Gemini 3 thought signatures *)

(** The fields of the [Gemini] object that the response side reads or
    writes: [isGemini3Preview] (read only) and [cachedThoughtSignature]. *)
Record Adapter := mkAdapter {
  isGemini3Preview : bool;
  cachedThoughtSignature : option string
}.

Definition set_cached (self : Adapter) (sig : option string) : Adapter :=
  mkAdapter (isGemini3Preview self) sig.

(** The first truthy [thoughtSignature] of a list of parts. *)
Fixpoint first_signature (ps : list Part) : option string :=
  match ps with
  | [] => None
  | p :: ps' => if part_signed p then p_thoughtSignature p else first_signature ps'
  end.

(** [for (const part of parts) if (part.functionCall) { if (!part.thoughtSignature)
    part.thoughtSignature = sig; break-like flag }]: the first function-call
    part gets [sig] unless it is signed already. *)
Definition sign_first_fc_if_unsigned (sig : option string) (ps : list Part) : list Part :=
  update_first part_has_fc (fun p => if part_signed p then p else with_signature sig p) ps.

(** [for (const part of parts) if (part.functionCall) { part.thoughtSignature = sig; break; }] *)
Definition sign_first_fc (sig : option string) (ps : list Part) : list Part :=
  update_first part_has_fc (with_signature sig) ps.

(** [for (const part of parts) if (part.functionCall && !part.thoughtSignature)
    { part.thoughtSignature = sig; break; }] *)
Definition sign_first_unsigned_fc (sig : option string) (ps : list Part) : list Part :=
  update_first (fun p => part_has_fc p && negb (part_signed p)) (with_signature sig) ps.

(** Lines 975-989: capture a signature from any part when none is held. *)
Definition capture_signature (self : Adapter) (a : StreamAcc) (r : LlmResponse)
  : Adapter * StreamAcc :=
  match resp_parts r with
  | Some ps =>
      if isGemini3Preview self && negb (js_truthy (thoughtSignature a)) then
        match first_signature ps with
        | Some s => (set_cached self (Some s), acc_set_sig a (Some s))
        | None => (self, a)
        end
      else (self, a)
  | None => (self, a)
  end.

(** Lines 1076-1084: prepend the accumulated thought and text to the
    function-call response, the signature going on the first function call
    when there is no thought text. *)
Definition merge_thought (a : StreamAcc) (r : LlmResponse) : LlmResponse :=
  let ps := default [] (resp_parts r) in
  let ps' := if negb (str_truthy (thoughtText a)) && js_truthy (thoughtSignature a)
             then sign_first_fc_if_unsigned (thoughtSignature a) ps else ps in
  set_parts (flush_parts a ++ ps') r.

(** Lines 1123-1172: make sure a function call carries a signature. *)
Definition ensure_fc_signature (self : Adapter) (a : StreamAcc) (r : LlmResponse) : LlmResponse :=
  match resp_parts r with
  | Some ps =>
      let ps1 := if negb (existsb part_signed ps) && js_truthy (thoughtSignature a)
                 then sign_first_fc (thoughtSignature a) ps else ps in
      let use := thoughtSignature a ?|| cachedThoughtSignature self in
      let ps2 := if bool_decide (length (List.filter part_signed ps1) = 0) && js_truthy use
                 then sign_first_unsigned_fc use ps1 else ps1 in
      set_parts ps2 r
  | None => r
  end.

(** Lines 991-1121: the text branch, or the flush of the accumulated text
    (merged into a function-call response in Gemini 3 mode). *)
Definition text_or_flush_v2 (self : Adapter) (a : StreamAcc) (r0 : LlmResponse)
  : Adapter * StreamAcc * LlmResponse * list LlmResponse :=
  let g3 := isGemini3Preview self in
  let hasFC := resp_has_fc r0 in
  let fp := first_part r0 in
  if js_truthy (fp ≫= p_text) then
    let p := default (text_part "") fp in
    let a' := accumulate a p in
    let self' := if js_bool (p_thought p) && part_signed p
                 then set_cached self (p_thoughtSignature p) else self in
    let a'' := if g3 && hasFC then acc_reset a' else a' in
    (self', a'', set_partial r0, [])
  else if acc_pending a && no_inline fp then
    if g3 && hasFC && bool_decide (is_Some (r_content r0)) then
      (self, acc_reset a, merge_thought a r0, [])
    else (self, acc_reset a, r0, [flush_response (flush_parts a) (r_usageMetadata r0)])
  else (self, a, r0, []).

(** One iteration of the [for await] loop (lines 966-1194). *)
Definition stream_step_v2 (self0 : Adapter) (a0 : StreamAcc) (ch : StreamChunk)
  : Adapter * StreamAcc * list LlmResponse :=
  let r0 := ch_response ch in
  let '(self, a) := capture_signature self0 (acc_see a0 ch) r0 in
  let '(self1, a1, r1, flushed) := text_or_flush_v2 self a r0 in
  let r2 := if isGemini3Preview self0 && resp_has_fc r0
            then ensure_fc_signature self1 a1 r1 else r1 in
  (self1, a1, flushed ++ [r2]).

Fixpoint stream_loop_v2 (self : Adapter) (a : StreamAcc) (chs : list StreamChunk)
  : Adapter * StreamAcc * list LlmResponse :=
  match chs with
  | [] => (self, a, [])
  | ch :: rest =>
      let '(self1, a1, out1) := stream_step_v2 self a ch in
      let '(self2, a2, out2) := stream_loop_v2 self1 a1 rest in
      (self2, a2, out1 ++ out2)
  end.

(** The whole streaming call: the adapter after the call and the yields. *)
Definition generateContentStream_v2 (self : Adapter) (chs : list StreamChunk)
  : Adapter * list LlmResponse :=
  let '(self', a, out) := stream_loop_v2 self acc_init chs in (self', out ++ stream_final a).

(** ** The non-streaming branch *)

(** Revision 1 (lines 524-530): [yield createLlmResponse(response)]. *)
Definition generateContent_v1 (r : LlmResponse) : LlmResponse := r.

(** Revision 2 (lines 1221-1306). *)
Definition generateContent_v2 (self : Adapter) (r : LlmResponse) : Adapter * LlmResponse :=
  if isGemini3Preview self then
    match resp_parts r with
    | Some ps =>
        let found := find part_signed ps in
        let thoughtSig := found ≫= p_thoughtSignature in
        let hasThought := match found with Some p => js_bool (p_thought p) | None => false end in
        let self1 := if is_Some_dec found then set_cached self thoughtSig else self in
        let ps1 := if js_truthy thoughtSig && negb hasThought
                   then sign_first_fc_if_unsigned thoughtSig ps else ps in
        let cached := cachedThoughtSignature self1 in
        let ps2 := if existsb part_has_fc ps1
                      && bool_decide (length (List.filter part_signed ps1) = 0) && js_truthy cached
                   then sign_first_unsigned_fc cached ps1 else ps1 in
        (self1, set_parts ps2 r)
    | None => (self, r)
    end
  else (self, r).

(** ** Statement helpers *)

(** The text of a chunk whose first part is a non-thought text part. *)
Definition chunk_plain_text (ch : StreamChunk) : option string :=
  match first_part (ch_response ch) with
  | Some p => if js_truthy (p_text p) && negb (js_bool (p_thought p)) then p_text p else None
  | None => None
  end.

(** The aggregated response revision 1 yields for a plain text stream. *)
Definition stop_flush (chs : list StreamChunk) : list LlmResponse :=
  match last chs with
  | Some l =>
      match ch_finishReason l with
      | Some STOP =>
          [flush_response [text_part (str_concat (omap chunk_plain_text chs))]
                          (r_usageMetadata (ch_response l))]
      | _ => []
      end
  | None => []
  end.

(** Sample chunks: a thought chunk, and a final chunk whose first part is
    a thought and whose second part is a function call. *)
Definition thought_chunk (s : string) : StreamChunk :=
  mkChunk (mkLlmResponse (Some (mkContent (Some "model")
    (Some [mkPart (Some s) (Some true) None None None None]))) None None) None.

Definition thought_fc_chunk (s : string) (f : FunctionCall) : StreamChunk :=
  mkChunk (mkLlmResponse (Some (mkContent (Some "model")
    (Some [mkPart (Some s) (Some true) None None None None;
           mkPart None None None (Some f) None None]))) None None) (Some STOP).

Definition text_chunk (s : string) (fr : option FinishReason) : StreamChunk :=
  mkChunk (mkLlmResponse (Some (mkContent (Some "model") (Some [text_part s]))) None None) fr.

(** ** Lemmas on the data *)

Lemma resp_parts_set_parts ps r :
  is_Some (r_content r) -> resp_parts (set_parts ps r) = Some ps.
Proof. destruct r as [[c|] u pa]; simpl; intros H; [done|by destruct H]. Qed.

Lemma resp_parts_set_partial r : resp_parts (set_partial r) = resp_parts r.
Proof. done. Qed.

Lemma resp_parts_content r ps : resp_parts r = Some ps -> is_Some (r_content r).
Proof. destruct r as [[c|] u pa]; simpl; [eauto|discriminate]. Qed.

Lemma part_has_fc_with_signature sig p : part_has_fc (with_signature sig p) = part_has_fc p.
Proof. done. Qed.

Lemma part_signed_with_signature sig p : part_signed (with_signature sig p) = js_truthy sig.
Proof. done. Qed.

Lemma flush_parts_no_fc a : existsb part_has_fc (flush_parts a) = false.
Proof.
  unfold flush_parts. by destruct (str_truthy (thoughtText a)), (str_truthy (text a)).
Qed.

Lemma sign_first_fc_if_unsigned_fc sig ps :
  existsb part_has_fc (sign_first_fc_if_unsigned sig ps) = existsb part_has_fc ps.
Proof. apply update_first_existsb_same. intros p. by destruct (part_signed p). Qed.

Lemma sign_first_fc_fc sig ps :
  existsb part_has_fc (sign_first_fc sig ps) = existsb part_has_fc ps.
Proof. by apply update_first_existsb_same. Qed.

Lemma sign_first_unsigned_fc_fc sig ps :
  existsb part_has_fc (sign_first_unsigned_fc sig ps) = existsb part_has_fc ps.
Proof. by apply update_first_existsb_same. Qed.

#[export] Hint Rewrite resp_parts_set_partial part_has_fc_with_signature
  part_signed_with_signature flush_parts_no_fc sign_first_fc_if_unsigned_fc
  sign_first_fc_fc sign_first_unsigned_fc_fc : adk_rw.

(** A list with a function call and no signed part gets a signed part. *)
Lemma sign_first_unsigned_fc_signed sig ps :
  js_truthy sig = true -> existsb part_has_fc ps = true -> existsb part_signed ps = false ->
  existsb part_signed (sign_first_unsigned_fc sig ps) = true.
Proof.
  intros Hsig Hfc Hns. apply update_first_existsb; [by intros p _; rewrite part_signed_with_signature|].
  induction ps as [|p ps IH]; simpl in *; [done|]. adk_bool.
  rewrite H. destruct (part_has_fc p); simpl; [done|]. by apply IH.
Qed.

(** ** Revision 2 refines revision 1 outside Gemini 3 preview models *)

Lemma capture_signature_non_g3 self a r :
  isGemini3Preview self = false -> capture_signature self a r = (self, a).
Proof. unfold capture_signature. intros ->. by destruct (resp_parts r). Qed.

Lemma stream_step_v2_non_g3 self a ch :
  isGemini3Preview self = false ->
  let '(self', a', out) := stream_step_v2 self a ch in
  isGemini3Preview self' = false /\ (a', out) = stream_step_v1 a ch.
Proof.
  intros Hg. unfold stream_step_v2, stream_step_v1, text_or_flush_v2.
  rewrite capture_signature_non_g3 by done. rewrite Hg. simpl.
  destruct (js_truthy _); [|destruct (acc_pending _ && no_inline _)]; simpl.
  - destruct (js_bool _ && _); by rewrite ?andb_false_r.
  - done.
  - done.
Qed.

Lemma stream_loop_v2_non_g3 chs : forall self a,
  isGemini3Preview self = false ->
  let '(self', a', out) := stream_loop_v2 self a chs in
  isGemini3Preview self' = false /\ (a', out) = stream_loop_v1 a chs.
Proof.
  induction chs as [|ch chs IH]; intros self a Hg; simpl; [done|].
  pose proof (stream_step_v2_non_g3 self a ch Hg) as Hs.
  destruct (stream_step_v2 self a ch) as [[self1 a1] out1].
  destruct Hs as [Hg1 <-].
  specialize (IH self1 a1 Hg1).
  destruct (stream_loop_v2 self1 a1 chs) as [[self2 a2] out2].
  destruct IH as [Hg2 <-]. done.
Qed.

(** C1. On every model that is not a Gemini 3 preview model, the streaming
    branch of revision 2 yields exactly what revision 1 yields, for every
    sequence of streamed chunks and whatever signature the adapter caches:
    the Gemini 3 changes do not alter the behaviour for other models. *)
Theorem generateContentStream_v2_refines_v1 self chs :
  isGemini3Preview self = false ->
  snd (generateContentStream_v2 self chs) = generateContentStream_v1 chs.
Proof.
  intros Hg. unfold generateContentStream_v2, generateContentStream_v1.
  pose proof (stream_loop_v2_non_g3 chs self acc_init Hg) as H.
  destruct (stream_loop_v2 self acc_init chs) as [[self' a'] out].
  destruct H as [_ <-]. done.
Qed.

(** ** Revision 1 on a stream of plain text chunks *)

Lemma stream_step_v1_plain a ch s :
  chunk_plain_text ch = Some s ->
  stream_step_v1 a ch = (acc_add_text (acc_see a ch) s, [set_partial (ch_response ch)]).
Proof.
  unfold chunk_plain_text, stream_step_v1, accumulate.
  destruct (first_part (ch_response ch)) as [p|]; [|discriminate]. simpl.
  destruct (js_truthy (p_text p)) eqn:Ht, (js_bool (p_thought p)); simpl; try discriminate.
  intros Hs. by rewrite Hs.
Qed.

Lemma stream_loop_v1_plain chs : forall a,
  Forall (fun ch => is_Some (chunk_plain_text ch)) chs ->
  let '(a', out) := stream_loop_v1 a chs in
  out = map (set_partial ∘ ch_response) chs /\
  thoughtText a' = thoughtText a /\
  text a' = (text a ++ str_concat (omap chunk_plain_text chs))%string /\
  lastResponse a' = from_option Some (lastResponse a) (last chs) /\
  usageMetadata a' = from_option (fun l => r_usageMetadata (ch_response l)) (usageMetadata a) (last chs).
Proof.
  induction chs as [|ch chs IH]; intros a Hall; simpl.
  - by rewrite string_app_nil_r.
  - inversion Hall as [|? ? [s Hs] Hrest]; subst.
    rewrite (stream_step_v1_plain a ch s Hs).
    specialize (IH (acc_add_text (acc_see a ch) s) Hrest).
    destruct (stream_loop_v1 _ chs) as [a2 out2].
    destruct IH as (-> & Hth & Htx & Hl & Hu). rewrite Hs, last_cons. simpl.
    rewrite Hth, Htx, Hl, Hu, string_app_assoc. simpl.
    by destruct (last chs).
Qed.

Lemma str_concat_plain_truthy chs :
  Forall (fun ch => is_Some (chunk_plain_text ch)) chs -> chs <> [] ->
  str_truthy (str_concat (omap chunk_plain_text chs)) = true.
Proof.
  destruct chs as [|ch chs]; [done|]. intros Hall _.
  inversion Hall as [|? ? [s Hs] _]; subst. simpl. rewrite Hs. simpl.
  rewrite str_truthy_app. apply orb_true_iff. left.
  revert Hs. unfold chunk_plain_text.
  destruct (first_part _) as [p|]; [|discriminate].
  destruct (js_truthy (p_text p)) eqn:Ht; simpl; [|discriminate].
  destruct (js_bool _); simpl; [discriminate|]. intros Heq. by rewrite Heq in Ht.
Qed.

(** C2. Revision 1 on a stream whose chunks each start with a non-thought
    text part: every chunk is yielded once, in order, marked partial; after
    the loop one aggregated response carries the concatenation of all the
    chunk texts, and only when the last chunk finished with [STOP]: a stream
    cut by another finish reason never yields the aggregated text. *)
Theorem generateContentStream_v1_plain_text chs :
  Forall (fun ch => is_Some (chunk_plain_text ch)) chs ->
  generateContentStream_v1 chs = map (set_partial ∘ ch_response) chs ++ stop_flush chs.
Proof.
  intros Hall. unfold generateContentStream_v1.
  pose proof (stream_loop_v1_plain chs acc_init Hall) as H.
  destruct (stream_loop_v1 acc_init chs) as [a out].
  destruct H as (-> & Hth & Htx & Hl & Hu). f_equal.
  unfold stream_final, stop_flush, last_is_stop, acc_pending, flush_parts.
  rewrite Hth, Htx, Hl, Hu. cbn [acc_init thoughtText text usageMetadata lastResponse].
  rewrite string_app_nil_l, str_truthy_empty.
  destruct chs as [|ch chs]; [done|].
  rewrite (str_concat_plain_truthy _ Hall ltac:(done)).
  destruct (last (ch :: chs)) as [l|] eqn:El; [|by rewrite last_cons in El; destruct (last chs)].
  simpl. by destruct (ch_finishReason l) as [[]|].
Qed.

(** ** Gemini 3: every yielded function call carries a thought signature *)

Lemma first_signature_truthy ps s : first_signature ps = Some s -> js_truthy (Some s) = true.
Proof.
  induction ps as [|p ps IH]; cbn [first_signature]; [discriminate|].
  destruct (part_signed p) eqn:E; [|exact IH]. unfold part_signed in E. by intros <-.
Qed.

(** The adapter's cached signature, once truthy, stays truthy, and
    [isGemini3Preview] is read only. *)
Definition cache_kept (self self' : Adapter) : Prop :=
  isGemini3Preview self' = isGemini3Preview self /\
  (js_truthy (cachedThoughtSignature self) = true -> js_truthy (cachedThoughtSignature self') = true).

Lemma cache_kept_refl self : cache_kept self self.
Proof. by split. Qed.

Lemma cache_kept_trans s1 s2 s3 : cache_kept s1 s2 -> cache_kept s2 s3 -> cache_kept s1 s3.
Proof. intros [H1 H2] [H3 H4]. split; [congruence|auto]. Qed.

Lemma cache_kept_set self sig : js_truthy sig = true -> cache_kept self (set_cached self sig).
Proof. by split. Qed.

#[export] Hint Resolve cache_kept_refl cache_kept_set : adk.

Lemma capture_signature_kept self a r :
  cache_kept self (fst (capture_signature self a r)).
Proof.
  unfold capture_signature. destruct (resp_parts r) as [ps|]; [|auto with adk].
  destruct (_ && _); [|auto with adk].
  destruct (first_signature ps) as [s|] eqn:E; simpl; [|auto with adk].
  apply cache_kept_set. by apply (first_signature_truthy ps).
Qed.

Lemma ensure_fc_signature_signed self a r :
  resp_has_fc r = true -> js_truthy (cachedThoughtSignature self) = true ->
  resp_has_signed (ensure_fc_signature self a r) = true.
Proof.
  unfold resp_has_fc, resp_has_signed, ensure_fc_signature.
  destruct (resp_parts r) as [ps|] eqn:Hps; [|discriminate]. intros Hfc Hc.
  rewrite resp_parts_set_parts by (by eapply resp_parts_content).
  set (ps1 := if negb (existsb part_signed ps) && js_truthy (thoughtSignature a)
              then sign_first_fc (thoughtSignature a) ps else ps).
  assert (Hfc1 : existsb part_has_fc ps1 = true)
    by (subst ps1; destruct (_ && _); by autorewrite with adk_rw).
  destruct (existsb part_signed ps1) eqn:Hs1.
  - assert (Hl : length (List.filter part_signed ps1) <> 0)
      by (rewrite filter_length_zero; congruence).
    rewrite bool_decide_false by done. simpl. exact Hs1.
  - rewrite bool_decide_true by (by apply filter_length_zero). simpl.
    rewrite js_or_truthy, Hc, orb_true_r.
    apply sign_first_unsigned_fc_signed; [by rewrite js_or_truthy, Hc, orb_true_r|done|done].
Qed.

Lemma merge_thought_fc a r :
  is_Some (r_content r) -> resp_has_fc (merge_thought a r) = resp_has_fc r.
Proof.
  intros Hc. unfold merge_thought, resp_has_fc. rewrite resp_parts_set_parts by done.
  rewrite existsb_app, flush_parts_no_fc. simpl.
  destruct (resp_parts r) as [ps|]; simpl; destruct (_ && _); by autorewrite with adk_rw.
Qed.

Lemma flush_response_no_fc a u : resp_has_fc (flush_response (flush_parts a) u) = false.
Proof. apply flush_parts_no_fc. Qed.

(** One iteration of revision 2 keeps the cache and, in Gemini 3 mode with
    a truthy cached signature, yields no unsigned function call. *)
Lemma text_or_flush_v2_kept self a r0 :
  let '(self1, a1, r1, flushed) := text_or_flush_v2 self a r0 in
  cache_kept self self1 /\ resp_has_fc r1 = resp_has_fc r0 /\
  Forall (fun r => resp_has_fc r = false) flushed.
Proof.
  unfold text_or_flush_v2. destruct (js_truthy _).
  - split; [|by split].
    destruct (js_bool _ && part_signed _) eqn:E; [|auto with adk].
    apply cache_kept_set. adk_bool. by unfold part_signed in *.
  - destruct (acc_pending a && no_inline _); [|done].
    destruct (_ && _ && bool_decide _) eqn:E.
    + split; [auto with adk|]. adk_bool. split; [|done].
      apply merge_thought_fc. by apply bool_decide_eq_true in H0.
    + split; [auto with adk|]. split; [done|].
      constructor; [apply flush_response_no_fc|done].
Qed.

(** One iteration of revision 2 keeps the cache and, in Gemini 3 mode,
    yields no unsigned function call once the adapter holds a signature
    (cached before the chunk or captured from it). *)
Lemma stream_step_v2_signed self a ch :
  let '(self', a', out) := stream_step_v2 self a ch in
  cache_kept self self' /\
  (isGemini3Preview self = true -> js_truthy (cachedThoughtSignature self') = true ->
   Forall (fun r => resp_has_fc r = true -> resp_has_signed r = true) out).
Proof.
  unfold stream_step_v2.
  pose proof (capture_signature_kept self (acc_see a ch) (ch_response ch)) as Hk.
  destruct (capture_signature _ _ _) as [s1 a1]. simpl in Hk.
  pose proof (text_or_flush_v2_kept s1 a1 (ch_response ch)) as Hb.
  destruct (text_or_flush_v2 _ _ _) as [[[self1 a2] r1] flushed].
  destruct Hb as (Hk1 & Hfc & Hfl).
  split; [by eapply cache_kept_trans|]. intros Hg Hc.
  apply Forall_app. split.
  - eapply Forall_impl; [exact Hfl|]. intros r Hr Hr'. congruence.
  - constructor; [|done]. rewrite Hg.
    destruct (resp_has_fc (ch_response ch)) eqn:Hr0; simpl.
    + intros _. by apply ensure_fc_signature_signed; [congruence|].
    + congruence.
Qed.

Lemma stream_loop_v2_signed chs : forall self a,
  let '(self', a', out) := stream_loop_v2 self a chs in
  cache_kept self self' /\
  (isGemini3Preview self = true -> js_truthy (cachedThoughtSignature self) = true ->
   Forall (fun r => resp_has_fc r = true -> resp_has_signed r = true) out).
Proof.
  induction chs as [|ch chs IH]; intros self a; simpl; [auto with adk|].
  pose proof (stream_step_v2_signed self a ch) as Hs.
  destruct (stream_step_v2 self a ch) as [[self1 a1] out1].
  specialize (IH self1 a1).
  destruct (stream_loop_v2 self1 a1 chs) as [[self2 a2] out2].
  destruct Hs as [Hk1 Hs]. destruct IH as [Hk2 IH].
  split; [by eapply cache_kept_trans|]. intros Hg Hc.
  destruct Hk1 as [Hg1 Hc1].
  apply Forall_app. split; [by apply Hs, Hc1|]. apply IH; [congruence|auto].
Qed.

Lemma stream_final_no_fc a : Forall (fun r => resp_has_fc r = false) (stream_final a).
Proof.
  unfold stream_final. destruct (_ && _); [|done]. constructor; [apply flush_response_no_fc|done].
Qed.

(** C3. In Gemini 3 preview mode, once the adapter holds a thought
    signature, every response the streaming branch of revision 2 yields that
    carries a function call also carries a signed part (the API rejects the
    next request otherwise). *)
Theorem generateContentStream_v2_fc_signed self chs :
  isGemini3Preview self = true ->
  js_truthy (cachedThoughtSignature self) = true ->
  Forall (fun r => resp_has_fc r = true -> resp_has_signed r = true)
         (snd (generateContentStream_v2 self chs)).
Proof.
  intros Hg Hc. unfold generateContentStream_v2.
  pose proof (stream_loop_v2_signed chs self acc_init) as H.
  destruct (stream_loop_v2 self acc_init chs) as [[self' a'] out]. simpl.
  destruct H as [_ H].
  apply Forall_app. split; [by apply H|].
  eapply Forall_impl; [apply stream_final_no_fc|]. intros r Hr Hr'. congruence.
Qed.

(** The adapter's cached thought signature is never cleared: a call of
    the streaming branch that starts with a truthy cached signature ends
    with one, whatever the chunks.  The field's comment (lines 788-793) says
    it "is reset at the start of each new generateContentAsync call". *)
Theorem generateContentStream_v2_cache_persists self chs :
  js_truthy (cachedThoughtSignature self) = true ->
  js_truthy (cachedThoughtSignature (fst (generateContentStream_v2 self chs))) = true.
Proof.
  intros Hc. unfold generateContentStream_v2.
  pose proof (stream_loop_v2_signed chs self acc_init) as H.
  destruct (stream_loop_v2 self acc_init chs) as [[self' a'] out].
  destruct H as [[_ H] _]. by apply H.
Qed.

(** ** The non-streaming branch of revision 2 *)

Lemma sign_first_fc_if_unsigned_signed sig ps :
  existsb part_signed ps = true -> existsb part_signed (sign_first_fc_if_unsigned sig ps) = true.
Proof. apply update_first_existsb_mono. intros p Hp. by rewrite Hp. Qed.

(** C4. In Gemini 3 preview mode, a non-streamed response with a function
    call comes out of revision 2 with a signed part whenever a signature is
    available: in the response itself or cached by the adapter. *)
Theorem generateContent_v2_fc_signed self r :
  isGemini3Preview self = true -> resp_has_fc r = true ->
  js_truthy (cachedThoughtSignature self) || resp_has_signed r = true ->
  resp_has_signed (snd (generateContent_v2 self r)) = true.
Proof.
  unfold generateContent_v2, resp_has_fc, resp_has_signed. intros -> Hfc Hav.
  destruct (resp_parts r) as [ps|] eqn:Hps; [|discriminate]. simpl.
  rewrite resp_parts_set_parts by (by eapply resp_parts_content).
  destruct (find part_signed ps) as [p|] eqn:Hf; simpl.
  - apply find_some in Hf as [Hin Hp].
    assert (Hs1 : existsb part_signed
      (if js_truthy (p_thoughtSignature p) && negb (js_bool (p_thought p))
       then sign_first_fc_if_unsigned (p_thoughtSignature p) ps else ps) = true).
    { assert (existsb part_signed ps = true) by (apply existsb_exists; eauto).
      destruct (_ && _); [by apply sign_first_fc_if_unsigned_signed|done]. }
    rewrite (bool_decide_false (length _ = 0)) by (rewrite filter_length_zero; congruence).
    by rewrite andb_false_r, andb_false_l.
  - assert (Hns : existsb part_signed ps = false).
    { apply not_true_iff_false. intros [q [Hq Hq']]%existsb_exists.
      by pose proof (find_none _ _ Hf q Hq) as Hn; rewrite Hn in Hq'. }
    rewrite Hns, orb_false_r in Hav. rewrite Hfc, Hav.
    rewrite bool_decide_true by (by apply filter_length_zero). simpl.
    by apply sign_first_unsigned_fc_signed.
Qed.

(** ** Gemini 3 mode discards the accumulated thought *)

Lemma ensure_fc_signature_partial self a r : r_partial (ensure_fc_signature self a r) = r_partial r.
Proof.
  unfold ensure_fc_signature. destruct (resp_parts r); [|done].
  unfold set_parts. by destruct (r_content r).
Qed.

(** When a Gemini 3 preview stream carries a thought, then a chunk with
    more thought and a function call, revision 2 clears the accumulated
    thought (lines 1023-1025) and never yields it outside partial responses,
    whereas revision 1 ends with an aggregated, non-partial response holding
    the whole thought. *)
Theorem generateContentStream_v2_drops_thought c sA sB f :
  str_truthy sA = true -> str_truthy sB = true ->
  Forall (fun r => r_partial r = Some true)
    (snd (generateContentStream_v2 (mkAdapter true c) [thought_chunk sA; thought_fc_chunk sB f]))
  /\ last (generateContentStream_v1 [thought_chunk sA; thought_fc_chunk sB f])
     = Some (flush_response [thought_part (sA ++ sB) None] None).
Proof.
  destruct sA as [|a sA]; [discriminate|]. destruct sB as [|b sB]; [discriminate|].
  intros _ _. split.
  - vm_compute. repeat constructor.
  - reflexivity.
Qed.

(** ** Witnesses: the theorems at concrete streams *)

Lemma generateContentStream_v2_refines_v1_witness :
  isGemini3Preview (mkAdapter false (Some "sig")) = false /\
  snd (generateContentStream_v2 (mkAdapter false (Some "sig"))
         [thought_chunk "plan"; thought_fc_chunk "call" (mkFunctionCall (Some "roll_dice"))])
  = generateContentStream_v1
      [thought_chunk "plan"; thought_fc_chunk "call" (mkFunctionCall (Some "roll_dice"))].
Proof. split; [reflexivity|]. apply generateContentStream_v2_refines_v1. reflexivity. Defined.

Lemma generateContentStream_v1_plain_text_witness :
  Forall (fun ch => is_Some (chunk_plain_text ch)) [text_chunk "Hel" None; text_chunk "lo" (Some STOP)] /\
  generateContentStream_v1 [text_chunk "Hel" None; text_chunk "lo" (Some STOP)]
  = map (set_partial ∘ ch_response) [text_chunk "Hel" None; text_chunk "lo" (Some STOP)]
    ++ [flush_response [text_part "Hello"] None].
Proof.
  assert (H : Forall (fun ch => is_Some (chunk_plain_text ch))
                [text_chunk "Hel" None; text_chunk "lo" (Some STOP)])
    by (repeat constructor; vm_compute; eexists; reflexivity).
  split; [exact H|]. rewrite (generateContentStream_v1_plain_text _ H). reflexivity.
Defined.

Lemma generateContentStream_v2_fc_signed_witness :
  isGemini3Preview (mkAdapter true (Some "sig")) = true /\
  js_truthy (cachedThoughtSignature (mkAdapter true (Some "sig"))) = true /\
  Forall (fun r => resp_has_fc r = true -> resp_has_signed r = true)
    (snd (generateContentStream_v2 (mkAdapter true (Some "sig"))
            [thought_chunk "plan"; thought_fc_chunk "call" (mkFunctionCall (Some "roll_dice"))])).
Proof.
  split; [reflexivity|]. split; [reflexivity|].
  apply generateContentStream_v2_fc_signed; reflexivity.
Defined.

Lemma generateContentStream_v2_cache_persists_witness :
  js_truthy (cachedThoughtSignature (mkAdapter true (Some "sig"))) = true /\
  js_truthy (cachedThoughtSignature
    (fst (generateContentStream_v2 (mkAdapter true (Some "sig")) [text_chunk "hi" (Some STOP)]))) = true.
Proof. split; [reflexivity|]. apply generateContentStream_v2_cache_persists. reflexivity. Defined.

Lemma generateContent_v2_fc_signed_witness :
  let r := ch_response (thought_fc_chunk "call" (mkFunctionCall (Some "roll_dice"))) in
  isGemini3Preview (mkAdapter true (Some "sig")) = true /\ resp_has_fc r = true /\
  js_truthy (cachedThoughtSignature (mkAdapter true (Some "sig"))) || resp_has_signed r = true /\
  resp_has_signed (snd (generateContent_v2 (mkAdapter true (Some "sig")) r)) = true.
Proof.
  intros r. split; [reflexivity|]. split; [reflexivity|]. split; [reflexivity|].
  apply generateContent_v2_fc_signed; reflexivity.
Defined.

Lemma generateContentStream_v2_drops_thought_witness :
  str_truthy "I will roll" = true /\ str_truthy " a die" = true /\
  Forall (fun r => r_partial r = Some true)
    (snd (generateContentStream_v2 (mkAdapter true None)
       [thought_chunk "I will roll"; thought_fc_chunk " a die" (mkFunctionCall (Some "roll_dice"))])).
Proof.
  split; [reflexivity|]. split; [reflexivity|].
  apply (generateContentStream_v2_drops_thought None "I will roll" " a die"
           (mkFunctionCall (Some "roll_dice"))); reflexivity.
Defined.
