(* ===== verification/GeminiConfig.v ===== *)
(** * The configuration side of the [Gemini] adapter

    Source: [src/dev/test/server/agent_graph_test.ts], revision 2 of
    [google_llm.ts] (lines 693-1482; revision 1 has the same code at lines
    187-692 without [cachedThoughtSignature]).

    The [Gemini] instance is the record [Gemini]: the [readonly] fields the
    constructor resolves from its parameters and the environment, the
    memo fields [_apiClient], [_apiBackend], [_liveApiVersion],
    [_liveApiClient] that the getters fill on first use, and the
    [GeminiStream.Adapter] (the fields [isGemini3Preview] and
    [cachedThoughtSignature]) that the response side reads and writes.
    The constructor is [constructor], a [result] (its [throw new
    Error(..)] is [Throw]); a getter is a function from the instance to its
    value and the instance with the memo field set; the request methods
    take and return the [LlmRequest] they mutate.

    [isGemini3PreviewModel] ([utils/model_name.js], not under [src/]) and
    the [trackingHeaders] of [BaseLlm] are variables of the section: every
    theorem holds for any classifier and any header set. *)

From S2P Require Import Prelude GeminiStream.

(** ** Data *)

(** A [Record<string, string>] in insertion order. *)
Definition Headers := list (string * string).

(** Assignment [h[k] = v]: an existing key keeps its position. *)
Fixpoint hdr_set (h : Headers) (k v : string) : Headers :=
  match h with
  | [] => [(k, v)]
  | (k', v') :: h' => if String.eqb k k' then (k, v) :: h' else (k', v') :: hdr_set h' k v
  end.

(** The object spread [{...a, ...b}] (and [Object.assign(a, b)]). *)
Definition hdr_merge (a b : Headers) : Headers :=
  fold_left (fun h kv => hdr_set h kv.1 kv.2) b a.

(** [process.env] and whether it can be read ([typeof process === 'object']). *)
Record Env := mkEnv { canReadEnv : bool; getenv : string -> option string }.

Record GeminiParams := mkParams {
  gp_model : option string;
  gp_apiKey : option string;
  gp_vertexai : option bool;
  gp_project : option string;
  gp_location : option string;
  gp_headers : option Headers;
  gp_apiEndpoint : option string
}.

(** The [httpOptions] object passed to the SDK client. *)
Record HttpOptions := mkHttp {
  ho_headers : option Headers;
  ho_baseUrl : option string;
  ho_apiVersion : option string
}.

(** The options of [new GoogleGenAI({...})]; [vertexai] is [None] where
    the code does not pass it. *)
Record GoogleGenAI := mkClient {
  gg_vertexai : option bool;
  gg_apiKey : option string;
  gg_project : option string;
  gg_location : option string;
  gg_httpOptions : HttpOptions
}.

Inductive GoogleLLMVariant := VERTEX_AI | GEMINI_API.

#[global] Instance GoogleLLMVariant_eq_dec : EqDecision GoogleLLMVariant.
Proof. solve_decision. Defined.

Record Gemini := mkGemini {
  model : string;
  apiKey : option string;
  vertexai : bool;
  project : option string;
  location : option string;
  headers : option Headers;
  apiEndpoint : option string;
  adapter : Adapter;
  _apiClient : option GoogleGenAI;
  _apiBackend : option GoogleLLMVariant;
  _liveApiVersion : option string;
  _liveApiClient : option GoogleGenAI
}.

(** [toLowerCase] on the ASCII letters.  The only use compares the result
    with ["true"], and no other character lowers to one of its letters. *)
Definition ascii_lower (c : Ascii.ascii) : Ascii.ascii :=
  let n := Ascii.nat_of_ascii c in
  if (65 <=? n) && (n <=? 90) then Ascii.ascii_of_nat (n + 32) else c.

Fixpoint toLowerCase (s : string) : string :=
  match s with
  | EmptyString => EmptyString
  | String c s' => String (ascii_lower c) (toLowerCase s')
  end.

Definition GEMINI3_PREVIEW_API_ENDPOINT : string :=
  "https://aiplatform.googleapis.com/v1/publishers/google".

Definition DEFAULT_MODEL : string := "gemini-2.5-flash".

(** The parts of [LlmRequest] the adapter reads or writes: [config]
    ([GenerateContentConfig]: [labels], [systemInstruction] as the string
    the code casts it to, [tools], [httpOptions]) and [liveConnectConfig]. *)
Record GenerateContentConfig := mkConfig {
  cfg_labels : option Headers;
  cfg_systemInstruction : option string;
  cfg_tools : option (list string);
  cfg_httpOptions : option HttpOptions
}.

Record LiveConnectConfig := mkLive {
  lc_httpOptions : option HttpOptions;
  lc_systemInstruction : option Content;
  lc_tools : option (list string)
}.

Record LlmRequest := mkRequest {
  rq_model : option string;
  rq_contents : option (list Content);
  rq_config : option GenerateContentConfig;
  rq_liveConnectConfig : option LiveConnectConfig
}.

(** The arguments of [this.liveApiClient.live.connect({...})]. *)
Record LiveConnectArgs := mkLiveArgs {
  lca_client : GoogleGenAI;
  lca_model : string;
  lca_config : LiveConnectConfig
}.

(** [removeDisplayNameIfPresent] (lines 1475-1482). *)
Definition removeDisplayNameIfPresent (d : option Blob) : option Blob :=
  match d with
  | Some b => if js_truthy (blob_displayName b) then Some (mkBlob None (blob_mimeType b)) else d
  | None => None
  end.

(** The inner loop of [preprocessRequest] on one part and one content. *)
Definition strip_part (p : Part) : Part :=
  mkPart (p_text p) (p_thought p) (p_thoughtSignature p) (p_functionCall p)
    (removeDisplayNameIfPresent (p_inlineData p)) (removeDisplayNameIfPresent (p_fileData p)).

Definition strip_content (c : Content) : Content :=
  match c_parts c with
  | None => c
  | Some ps => mkContent (c_role c) (Some (map strip_part ps))
  end.

Definition TypeError_set (field : string) : JsError :=
  TypeError ("Cannot set properties of undefined (setting '" ++ field ++ "')").

(** ** Sample inputs

    A classifier that agrees with [core/test/models/google_llm_test.ts]
    on the names it lists, and environments. *)
Definition sample_isGemini3PreviewModel (m : string) : bool :=
  String.eqb m "gemini-3-flash-preview" || String.eqb m "gemini-3-pro-preview" ||
  String.eqb m "gemini-3-pro-image-preview".

Definition env_of (l : list (string * string)) : Env :=
  mkEnv true (fun k => snd <$> List.find (fun kv => String.eqb kv.1 k) l).

Definition params_of (m key : option string) (vx : option bool) (proj loc : option string) : GeminiParams :=
  mkParams m key vx proj loc None None.

(** Whether a request has no [labels] and no truthy [displayName]. *)
Definition blob_clean (d : option Blob) : bool :=
  match d with Some b => negb (js_truthy (blob_displayName b)) | None => true end.
Definition part_clean (p : Part) : bool := blob_clean (p_inlineData p) && blob_clean (p_fileData p).
Definition request_clean (rq : LlmRequest) : bool :=
  match rq_config rq with Some c => bool_decide (cfg_labels c = None) | None => true end &&
  forallb (fun c => forallb part_clean (default [] (c_parts c))) (default [] (rq_contents rq)).

(** The texts of a request's parts, content by content. *)
Definition request_texts (rq : LlmRequest) : option (list (option (list (option string)))) :=
  map (fun c => map p_text <$> c_parts c) <$> rq_contents rq.

Section GeminiConfig.

Variable isGemini3PreviewModel : string -> bool.
Variable trackingHeaders : Headers.

(** ** The constructor *)

(** [if (!model) model = 'gemini-2.5-flash'] *)
Definition resolve_model (m : option string) : string :=
  match m with
  | Some s => if str_truthy s then s else DEFAULT_MODEL
  | None => DEFAULT_MODEL
  end.

(** [process.env['GOOGLE_GENAI_API_KEY'] || process.env['GEMINI_API_KEY']] *)
Definition env_api_key (env : Env) : option string :=
  getenv env "GOOGLE_GENAI_API_KEY" ?|| getenv env "GEMINI_API_KEY".

(** Lines 823-831. *)
Definition resolve_apiEndpoint (g3 : bool) (ep : option string) (env : Env) : option string :=
  let ep1 := if negb (js_truthy ep) && canReadEnv env
             then getenv env "GEMINI_API_ENDPOINT" else ep in
  if negb (js_truthy ep1) && g3 then Some GEMINI3_PREVIEW_API_ENDPOINT else ep1.

(** Lines 834-841. *)
Definition resolve_useVertexAI (vx : option bool) (env : Env) : bool :=
  let use := js_bool vx in
  if negb use && canReadEnv env then
    match getenv env "GOOGLE_GENAI_USE_VERTEXAI" with
    | Some v =>
        if str_truthy v
        then String.eqb (toLowerCase v) "true" || String.eqb v "1"
        else use
    | None => use
    end
  else use.

(** Lines 847-866: a Gemini 3 preview model leaves Vertex AI mode when an
    API key is available; the result is [useVertexAI] and [this.apiKey]. *)
Definition gemini3_switch (g3 use : bool) (key : option string) (env : Env)
    : bool * option string :=
  if g3 && use then
    let available := key ?|| (if canReadEnv env then env_api_key env else None) in
    if js_truthy available then (false, available) else (use, key)
  else (use, key).

(** Lines 888-891: [if (!this.apiKey && canReadEnv) this.apiKey = ...]. *)
Definition resolve_apiKey (key : option string) (env : Env) : option string :=
  if negb (js_truthy key) && canReadEnv env then env_api_key env else key.

(** Lines 870-897: the credentials of the chosen mode, or the error. *)
Definition check_credentials (vx : bool) (proj loc key : option string) (env : Env)
    : result (option string * option string * option string) :=
  if vx then
    let proj' := if canReadEnv env && negb (js_truthy proj)
                 then getenv env "GOOGLE_CLOUD_PROJECT" else proj in
    let loc' := if canReadEnv env && negb (js_truthy loc)
                then getenv env "GOOGLE_CLOUD_LOCATION" else loc in
    if negb (js_truthy proj') then
      Throw (Error "VertexAI project must be provided via constructor or GOOGLE_CLOUD_PROJECT environment variable.")
    else if negb (js_truthy loc') then
      Throw (Error "VertexAI location must be provided via constructor or GOOGLE_CLOUD_LOCATION environment variable.")
    else Ok (proj', loc', key)
  else
    let key' := resolve_apiKey key env in
    if negb (js_truthy key') then
      Throw (Error "API key must be provided via constructor or GOOGLE_GENAI_API_KEY or GEMINI_API_KEY environment variable.")
    else Ok (proj, loc, key').

(** [new Gemini(params)], lines 799-898. *)
Definition constructor (p : GeminiParams) (env : Env) : result Gemini :=
  let m := resolve_model (gp_model p) in
  let g3 := isGemini3PreviewModel m in
  let ep := resolve_apiEndpoint g3 (gp_apiEndpoint p) env in
  let '(vx, key) := gemini3_switch g3 (resolve_useVertexAI (gp_vertexai p) env)
                                   (gp_apiKey p) env in
  creds <- check_credentials vx (gp_project p) (gp_location p) key env ;;
  let '(proj, loc, key') := creds in
  Ok (mkGemini m key' vx proj loc (gp_headers p) ep
       (mkAdapter g3 None) None None None None).

(** ** The memoised getters (lines 1315-1404)

    Each getter returns its value and the instance with its memo field
    set; [set_*] write one memo field. *)

Definition set_apiClient (g : Gemini) (c : GoogleGenAI) : Gemini :=
  mkGemini (model g) (apiKey g) (vertexai g) (project g) (location g) (headers g)
    (apiEndpoint g) (adapter g) (Some c) (_apiBackend g) (_liveApiVersion g)
    (_liveApiClient g).
Definition set_apiBackend (g : Gemini) (b : GoogleLLMVariant) : Gemini :=
  mkGemini (model g) (apiKey g) (vertexai g) (project g) (location g) (headers g)
    (apiEndpoint g) (adapter g) (_apiClient g) (Some b) (_liveApiVersion g)
    (_liveApiClient g).
Definition set_liveApiVersion (g : Gemini) (v : string) : Gemini :=
  mkGemini (model g) (apiKey g) (vertexai g) (project g) (location g) (headers g)
    (apiEndpoint g) (adapter g) (_apiClient g) (_apiBackend g) (Some v)
    (_liveApiClient g).
Definition set_liveApiClient (g : Gemini) (c : GoogleGenAI) : Gemini :=
  mkGemini (model g) (apiKey g) (vertexai g) (project g) (location g) (headers g)
    (apiEndpoint g) (adapter g) (_apiClient g) (_apiBackend g) (_liveApiVersion g)
    (Some c).

(** The client [get apiClient()] builds when its memo is empty
    (lines 1320-1360). *)
Definition build_apiClient (g : Gemini) : GoogleGenAI :=
  let combinedHeaders := hdr_merge trackingHeaders (default [] (headers g)) in
  if vertexai g then
    mkClient (Some (vertexai g)) None (project g) (location g)
      (mkHttp (Some combinedHeaders) None None)
  else
    let httpOptions :=
      if js_truthy (apiEndpoint g) then
        mkHttp (Some combinedHeaders) (apiEndpoint g)
          (if isGemini3Preview (adapter g) then Some "" else None)
      else mkHttp (Some combinedHeaders) None None in
    mkClient (Some false) (apiKey g) None None httpOptions.

Definition apiClient (g : Gemini) : GoogleGenAI * Gemini :=
  match _apiClient g with
  | Some c => (c, g)
  | None => let c := build_apiClient g in (c, set_apiClient g c)
  end.

(** [this.apiClient.vertexai]: the SDK keeps the flag it is given. *)
Definition client_vertexai (c : GoogleGenAI) : bool := js_bool (gg_vertexai c).

Definition apiBackend (g : Gemini) : GoogleLLMVariant * Gemini :=
  match _apiBackend g with
  | Some b => (b, g)
  | None =>
      let '(c, g1) := apiClient g in
      let b := if client_vertexai c then VERTEX_AI else GEMINI_API in
      (b, set_apiBackend g1 b)
  end.

(** The body of [if (!this._liveApiVersion) {...}]. *)
Definition compute_liveApiVersion (g : Gemini) : string * Gemini :=
  let '(b, g1) := apiBackend g in
  let v := if decide (b = VERTEX_AI) then "v1beta1" else "v1alpha" in
  (v, set_liveApiVersion g1 v).

Definition liveApiVersion (g : Gemini) : string * Gemini :=
  match _liveApiVersion g with
  | Some v => if str_truthy v then (v, g) else compute_liveApiVersion g
  | None => compute_liveApiVersion g
  end.

(** The live client: no [vertexai], [project] or [location] is passed
    (lines 1384-1401). *)
Definition build_liveApiClient (g : Gemini) (ver : string) : GoogleGenAI :=
  let httpOptions :=
    if js_truthy (apiEndpoint g) then
      mkHttp (Some trackingHeaders) (apiEndpoint g)
        (if isGemini3Preview (adapter g) then Some "" else Some ver)
    else mkHttp (Some trackingHeaders) None (Some ver) in
  mkClient None (apiKey g) None None httpOptions.

Definition liveApiClient (g : Gemini) : GoogleGenAI * Gemini :=
  match _liveApiClient g with
  | Some c => (c, g)
  | None =>
      let '(ver, g1) := liveApiVersion g in
      let c := build_liveApiClient g1 ver in
      (c, set_liveApiClient g1 c)
  end.

(** The values the getters stand for, computed from the [readonly] fields. *)
Definition ref_apiBackend (g : Gemini) : GoogleLLMVariant :=
  if vertexai g then VERTEX_AI else GEMINI_API.
Definition ref_liveApiVersion (g : Gemini) : string :=
  if vertexai g then "v1beta1" else "v1alpha".
Definition ref_liveApiClient (g : Gemini) : GoogleGenAI :=
  build_liveApiClient g (ref_liveApiVersion g).

(** The memo invariant: every memo field is empty or holds the value its
    getter stands for. *)
Definition memo_ok (g : Gemini) : Prop :=
  (forall c, _apiClient g = Some c -> c = build_apiClient g) /\
  (forall b, _apiBackend g = Some b -> b = ref_apiBackend g) /\
  (forall v, _liveApiVersion g = Some v -> v = ref_liveApiVersion g) /\
  (forall c, _liveApiClient g = Some c -> c = ref_liveApiClient g).

(** The [readonly] fields and the adapter of an instance. *)
Definition config_of (g : Gemini) :=
  (model g, apiKey g, vertexai g, project g, location g, headers g, apiEndpoint g, adapter g).

Definition same_config (g g' : Gemini) : Prop := config_of g' = config_of g.

(** ** The request methods *)

(** [preprocessRequest] (lines 1455-1472): with the Gemini API backend,
    drop [config.labels] and the truthy [displayName]s of inline and file
    data. *)
Definition preprocessRequest (g : Gemini) (rq : LlmRequest) : Gemini * LlmRequest :=
  let '(b, g1) := apiBackend g in
  if decide (b = GEMINI_API) then
    let cfg := option_map (fun c => mkConfig None (cfg_systemInstruction c) (cfg_tools c)
                                      (cfg_httpOptions c)) (rq_config rq) in
    let cs := option_map (map strip_content) (rq_contents rq) in
    (g1, mkRequest (rq_model rq) cs cfg (rq_liveConnectConfig rq))
  else (g1, rq).

(** Lines 1416-1430: the live [httpOptions] get the tracking headers and
    the API version; [liveApiVersion] is read only off Gemini 3 preview. *)
Definition connect_http (g : Gemini) (lc : LiveConnectConfig) : Gemini * LiveConnectConfig :=
  match lc_httpOptions lc with
  | Some ho =>
      let hs := hdr_merge (default [] (ho_headers ho)) trackingHeaders in
      let '(ver, g1) := if isGemini3Preview (adapter g) then ("", g) else liveApiVersion g in
      (g1, mkLive (Some (mkHttp (Some hs) (ho_baseUrl ho) (Some ver)))
             (lc_systemInstruction lc) (lc_tools lc))
  | None => (g, lc)
  end.

(** [connect] (lines 1412-1453) up to the SDK call: the instance, the
    mutated request and the arguments passed to [live.connect]. *)
Definition connect (g : Gemini) (rq : LlmRequest)
    : result (Gemini * LlmRequest * LiveConnectArgs) :=
  let '(g1, lc1) := match rq_liveConnectConfig rq with
                    | Some lc => let '(g1, lc') := connect_http g lc in (g1, Some lc')
                    | None => (g, None)
                    end in
  let sys := rq_config rq ≫= cfg_systemInstruction in
  lc2 <- (if js_truthy sys then
            match lc1 with
            | Some lc => Ok (Some (mkLive (lc_httpOptions lc)
                               (Some (mkContent (Some "system") (Some [text_part (default "" sys)])))
                               (lc_tools lc)))
            | None => Throw (TypeError_set "systemInstruction")
            end
          else Ok lc1) ;;
  lc3 <- (match lc2 with
          | Some lc => Ok (mkLive (lc_httpOptions lc) (lc_systemInstruction lc)
                             (rq_config rq ≫= cfg_tools))
          | None => Throw (TypeError_set "tools")
          end) ;;
  let '(client, g2) := liveApiClient g1 in
  let m := match rq_model rq with Some m => m | None => model g end in
  Ok (g2, mkRequest (rq_model rq) (rq_contents rq) (rq_config rq) (Some lc3),
      mkLiveArgs client m lc3).

(** [maybeAppendUserContent] of [BaseLlm] (not under [src/]). *)
Variable maybeAppendUserContent : LlmRequest -> LlmRequest.

(** Lines 930-943, before the call to the SDK: preprocessing, the
    [apiBackend] read of the log line, and the tracking headers merged
    into [config.httpOptions.headers]. *)
Definition generateContentAsync_prologue (g : Gemini) (rq : LlmRequest) : Gemini * LlmRequest :=
  let '(g1, rq1) := preprocessRequest g rq in
  let rq2 := maybeAppendUserContent rq1 in
  let '(_, g2) := apiBackend g1 in
  let rq3 :=
    match rq_config rq2 with
    | Some cfg =>
        match cfg_httpOptions cfg with
        | Some ho =>
            let ho' := mkHttp (Some (hdr_merge (default [] (ho_headers ho)) trackingHeaders))
                         (ho_baseUrl ho) (ho_apiVersion ho) in
            mkRequest (rq_model rq2) (rq_contents rq2)
              (Some (mkConfig (cfg_labels cfg) (cfg_systemInstruction cfg) (cfg_tools cfg) (Some ho')))
              (rq_liveConnectConfig rq2)
        | None => rq2
        end
    | None => rq2
    end in
  (g2, rq3).

Definition set_adapter (g : Gemini) (a : Adapter) : Gemini :=
  mkGemini (model g) (apiKey g) (vertexai g) (project g) (location g) (headers g)
    (apiEndpoint g) a (_apiClient g) (_apiBackend g) (_liveApiVersion g) (_liveApiClient g).

(** The call [this.apiClient.models.generateContent(Stream)({model,
    contents, config})]. *)
Record SdkCall := mkSdkCall {
  sc_client : GoogleGenAI;
  sc_model : string;
  sc_contents : option (list Content);
  sc_config : option GenerateContentConfig
}.

(** [generateContentAsync(llmRequest, stream)] (lines 926-1313): the
    prologue, the SDK call through the [apiClient] getter, then the
    response side of [GeminiStream] on the adapter; the SDK's answer is the
    list of stream chunks or the single response. *)
Definition generateContentAsync (g : Gemini) (rq : LlmRequest) (stream : bool)
    (chs : list StreamChunk) (resp : LlmResponse)
    : Gemini * LlmRequest * SdkCall * list LlmResponse :=
  let '(g1, rq1) := generateContentAsync_prologue g rq in
  let '(client, g2) := apiClient g1 in
  let call := mkSdkCall client (match rq_model rq1 with Some m => m | None => model g2 end)
                (rq_contents rq1) (rq_config rq1) in
  if stream then
    let '(a, out) := generateContentStream_v2 (adapter g2) chs in (set_adapter g2 a, rq1, call, out)
  else
    let '(a, r) := generateContent_v2 (adapter g2) resp in (set_adapter g2 a, rq1, call, [r]).

(** A read of one getter, and the sequence of reads a caller makes. *)
Inductive GetterCall := GetApiClient | GetApiBackend | GetLiveApiVersion | GetLiveApiClient.

Inductive GetterValue :=
  | VClient (c : GoogleGenAI)
  | VBackend (b : GoogleLLMVariant)
  | VVersion (v : string).

Definition run_getter (g : Gemini) (k : GetterCall) : GetterValue * Gemini :=
  match k with
  | GetApiClient => let '(c, g') := apiClient g in (VClient c, g')
  | GetApiBackend => let '(b, g') := apiBackend g in (VBackend b, g')
  | GetLiveApiVersion => let '(v, g') := liveApiVersion g in (VVersion v, g')
  | GetLiveApiClient => let '(c, g') := liveApiClient g in (VClient c, g')
  end.

Fixpoint run_getters (g : Gemini) (ks : list GetterCall) : list GetterValue * Gemini :=
  match ks with
  | [] => ([], g)
  | k :: ks' =>
      let '(v, g1) := run_getter g k in
      let '(vs, g2) := run_getters g1 ks' in (v :: vs, g2)
  end.

Definition ref_getter (g : Gemini) (k : GetterCall) : GetterValue :=
  match k with
  | GetApiClient => VClient (build_apiClient g)
  | GetApiBackend => VBackend (ref_apiBackend g)
  | GetLiveApiVersion => VVersion (ref_liveApiVersion g)
  | GetLiveApiClient => VClient (ref_liveApiClient g)
  end.

(** ** The getters against their reference values *)

(** A getter that, under the memo invariant, returns the reference value
    and keeps the invariant and the configuration. *)
Definition getter_ok {A} (f : Gemini -> A * Gemini) (ref : Gemini -> A) : Prop :=
  forall g, memo_ok g -> (f g).1 = ref g /\ memo_ok (f g).2 /\ same_config g (f g).2.

Lemma same_config_refl g : same_config g g.
Proof. done. Qed.

Lemma same_config_trans g1 g2 g3 : same_config g1 g2 -> same_config g2 g3 -> same_config g1 g3.
Proof. unfold same_config. congruence. Qed.

Lemma same_config_refs g g' :
  same_config g g' ->
  build_apiClient g' = build_apiClient g /\ ref_apiBackend g' = ref_apiBackend g /\
  ref_liveApiVersion g' = ref_liveApiVersion g /\ ref_liveApiClient g' = ref_liveApiClient g.
Proof.
  destruct g, g'. unfold same_config, config_of. simpl. intros H. by simplify_eq.
Qed.

(** The memo fields of the [set_*] writers. *)
Ltac memo_set_tac :=
  intros [H1 [H2 [H3 H4]]]; split; [|reflexivity];
  repeat split; first [exact H1 | exact H2 | exact H3 | exact H4 | intros ? [= <-]; reflexivity].

Lemma set_apiClient_ok g : memo_ok g ->
  memo_ok (set_apiClient g (build_apiClient g)) /\ same_config g (set_apiClient g (build_apiClient g)).
Proof. memo_set_tac. Qed.

Lemma set_apiBackend_ok g : memo_ok g ->
  memo_ok (set_apiBackend g (ref_apiBackend g)) /\ same_config g (set_apiBackend g (ref_apiBackend g)).
Proof. memo_set_tac. Qed.

Lemma set_liveApiVersion_ok g : memo_ok g ->
  memo_ok (set_liveApiVersion g (ref_liveApiVersion g)) /\
  same_config g (set_liveApiVersion g (ref_liveApiVersion g)).
Proof. memo_set_tac. Qed.

Lemma set_liveApiClient_ok g : memo_ok g ->
  memo_ok (set_liveApiClient g (ref_liveApiClient g)) /\
  same_config g (set_liveApiClient g (ref_liveApiClient g)).
Proof. memo_set_tac. Qed.

Lemma client_vertexai_build g : client_vertexai (build_apiClient g) = vertexai g.
Proof. unfold build_apiClient. destruct (vertexai g); [done|]. by destruct (js_truthy _). Qed.

Lemma apiClient_ok : getter_ok apiClient build_apiClient.
Proof.
  intros g Hm. unfold apiClient. destruct (_apiClient g) as [c|] eqn:E; simpl.
  - split; [by apply Hm|]. split; [done|apply same_config_refl].
  - split; [done|]. by apply set_apiClient_ok.
Qed.

Lemma apiBackend_ok : getter_ok apiBackend ref_apiBackend.
Proof.
  intros g Hm. unfold apiBackend. destruct (_apiBackend g) as [b|] eqn:E; simpl.
  - split; [by apply Hm|]. split; [done|apply same_config_refl].
  - destruct (apiClient_ok g Hm) as (Hc & Hm1 & Hs1).
    destruct (apiClient g) as [c g1]. simpl in *. subst c.
    destruct (same_config_refs _ _ Hs1) as (_ & Hb & _).
    rewrite client_vertexai_build.
    replace (if vertexai g then VERTEX_AI else GEMINI_API) with (ref_apiBackend g1)
      by (rewrite Hb; done).
    split; [by rewrite Hb|].
    destruct (set_apiBackend_ok g1 Hm1) as [? ?]. split; [done|].
    by eapply same_config_trans.
Qed.

(** A getter that stores the reference value of an invariant-keeping
    computation: the shape of every [None] branch. *)
Lemma getter_ok_store {A B} (f : Gemini -> A * Gemini) (ref : Gemini -> A)
    (conv : A -> B) (set : Gemini -> B -> Gemini) (refB : Gemini -> B) g :
  getter_ok f ref -> memo_ok g ->
  (forall g1, same_config g g1 -> conv (ref g1) = refB g1 /\ refB g1 = refB g) ->
  (forall g1, memo_ok g1 -> memo_ok (set g1 (refB g1)) /\ same_config g1 (set g1 (refB g1))) ->
  let '(a, g1) := f g in
  conv a = refB g /\ memo_ok (set g1 (conv a)) /\ same_config g (set g1 (conv a)).
Proof.
  intros Hf Hm Hconv Hset. destruct (Hf g Hm) as (Ha & Hm1 & Hs1).
  destruct (f g) as [a g1]. simpl in *. subst a.
  rewrite (proj1 (Hconv g (same_config_refl g))), <- (proj2 (Hconv g1 Hs1)).
  destruct (Hset g1 Hm1) as [? ?]. split; [done|]. split; [done|].
  by eapply same_config_trans.
Qed.

Lemma compute_liveApiVersion_ok : getter_ok compute_liveApiVersion ref_liveApiVersion.
Proof.
  intros g Hm. unfold compute_liveApiVersion.
  pose proof (getter_ok_store apiBackend ref_apiBackend
    (fun b => if decide (b = VERTEX_AI) then "v1beta1" else "v1alpha")
    set_liveApiVersion ref_liveApiVersion g apiBackend_ok Hm) as H.
  destruct (apiBackend g) as [b g1]. apply H.
  - intros g2 Hs. destruct (same_config_refs _ _ Hs) as (_ & _ & Hv & _).
    split; [|done]. unfold ref_apiBackend, ref_liveApiVersion.
    by destruct (vertexai g2).
  - apply set_liveApiVersion_ok.
Qed.

Lemma liveApiVersion_ok : getter_ok liveApiVersion ref_liveApiVersion.
Proof.
  intros g Hm. unfold liveApiVersion. destruct (_liveApiVersion g) as [v|] eqn:E.
  - destruct (str_truthy v); [|by apply compute_liveApiVersion_ok].
    split; [by apply Hm|]. split; [done|apply same_config_refl].
  - by apply compute_liveApiVersion_ok.
Qed.

Lemma liveApiClient_ok : getter_ok liveApiClient ref_liveApiClient.
Proof.
  intros g Hm. unfold liveApiClient. destruct (_liveApiClient g) as [c|] eqn:E.
  - split; [by apply Hm|]. split; [done|apply same_config_refl].
  - destruct (liveApiVersion_ok g Hm) as (Hv & Hm1 & Hs1).
    destruct (liveApiVersion g) as [v g1]. simpl in *. subst v.
    destruct (same_config_refs _ _ Hs1) as (_ & _ & Hv & Hc).
    rewrite <- Hv. change (build_liveApiClient g1 (ref_liveApiVersion g1)) with (ref_liveApiClient g1).
    destruct (set_liveApiClient_ok g1 Hm1) as [? ?].
    split; [by rewrite Hc|]. split; [done|]. by eapply same_config_trans.
Qed.

Lemma run_getter_ok k : getter_ok (fun g => run_getter g k) (fun g => ref_getter g k).
Proof.
  intros g Hm. destruct k; simpl;
    [pose proof (apiClient_ok g Hm) as H; destruct (apiClient g)
    |pose proof (apiBackend_ok g Hm) as H; destruct (apiBackend g)
    |pose proof (liveApiVersion_ok g Hm) as H; destruct (liveApiVersion g)
    |pose proof (liveApiClient_ok g Hm) as H; destruct (liveApiClient g)];
    simpl in *; destruct H as (-> & ? & ?); done.
Qed.

Lemma run_getters_ok ks : getter_ok (fun g => run_getters g ks) (fun g => map (ref_getter g) ks).
Proof.
  induction ks as [|k ks IH]; intros g Hm; simpl.
  - split; [done|]. split; [done|apply same_config_refl].
  - destruct (run_getter_ok k g Hm) as (Hv & Hm1 & Hs1).
    destruct (run_getter g k) as [v g1]. simpl in *.
    destruct (IH g1 Hm1) as (Hvs & Hm2 & Hs2).
    destruct (run_getters g1 ks) as [vs g2]. simpl in *.
    assert (Href : forall k', ref_getter g1 k' = ref_getter g k').
    { destruct (same_config_refs _ _ Hs1) as (Ha & Hb & Hv' & Hc).
      intros []; simpl; congruence. }
    split; [by rewrite Hv, Hvs, (map_ext _ _ Href)|].
    split; [done|]. by eapply same_config_trans.
Qed.

(** ** The constructor *)

Lemma check_credentials_ok vx proj loc key env proj' loc' key' :
  check_credentials vx proj loc key env = Ok (proj', loc', key') ->
  (if vx then js_truthy proj' && js_truthy loc' else js_truthy key') = true.
Proof.
  unfold check_credentials. destruct vx.
  - set (p1 := if canReadEnv env && negb (js_truthy proj) then getenv env "GOOGLE_CLOUD_PROJECT" else proj).
    set (l1 := if canReadEnv env && negb (js_truthy loc) then getenv env "GOOGLE_CLOUD_LOCATION" else loc).
    destruct (js_truthy p1) eqn:Hp; simpl; [|discriminate].
    destruct (js_truthy l1) eqn:Hl; simpl; [|discriminate].
    intros [= <- <- <-]. by rewrite Hp, Hl.
  - destruct (js_truthy (resolve_apiKey key env)) eqn:Hk; simpl; [|discriminate].
    by intros [= <- <- <-].
Qed.

Lemma constructor_inv p env g :
  constructor p env = Ok g ->
  exists vx key proj loc key',
    gemini3_switch (isGemini3PreviewModel (resolve_model (gp_model p)))
      (resolve_useVertexAI (gp_vertexai p) env) (gp_apiKey p) env = (vx, key) /\
    check_credentials vx (gp_project p) (gp_location p) key env = Ok (proj, loc, key') /\
    g = mkGemini (resolve_model (gp_model p)) key' vx proj loc (gp_headers p)
          (resolve_apiEndpoint (isGemini3PreviewModel (resolve_model (gp_model p)))
             (gp_apiEndpoint p) env)
          (mkAdapter (isGemini3PreviewModel (resolve_model (gp_model p))) None)
          None None None None.
Proof.
  unfold constructor. destruct (gemini3_switch _ _ _ _) as [vx key].
  destruct (check_credentials _ _ _ _ _) as [[[proj loc] key']|e] eqn:E; simpl; [|discriminate].
  intros [= <-]. by exists vx, key, proj, loc, key'.
Qed.

Lemma constructor_memo_ok p env g : constructor p env = Ok g -> memo_ok g.
Proof.
  intros (? & ? & ? & ? & ? & _ & _ & ->)%constructor_inv.
  repeat split; simpl; discriminate.
Qed.

Lemma resolve_apiEndpoint_g3 ep env : js_truthy (resolve_apiEndpoint true ep env) = true.
Proof.
  unfold resolve_apiEndpoint. set (e1 := if negb (js_truthy ep) && canReadEnv env then getenv env "GEMINI_API_ENDPOINT" else ep).
  by destruct (js_truthy e1) eqn:E.
Qed.

(** An available key is the key [check_credentials] ends with in API-key mode. *)
Lemma available_key_truthy key env :
  js_truthy (key ?|| (if canReadEnv env then env_api_key env else None)) = true ->
  js_truthy (resolve_apiKey key env) = true.
Proof.
  unfold resolve_apiKey. rewrite js_or_truthy. destruct (js_truthy key) eqn:Hk; [done|].
  destruct (canReadEnv env); simpl; [done|discriminate].
Qed.

Lemma check_credentials_api_key proj loc key env :
  js_truthy (resolve_apiKey key env) = true ->
  check_credentials false proj loc key env = Ok (proj, loc, resolve_apiKey key env).
Proof. unfold check_credentials. by intros ->. Qed.

(** A Gemini 3 preview model with an available key ends in API-key mode. *)
Lemma gemini3_switch_key use key env :
  js_truthy (key ?|| (if canReadEnv env then env_api_key env else None)) = true ->
  exists key1, gemini3_switch true use key env = (false, key1) /\
               js_truthy (resolve_apiKey key1 env) = true.
Proof.
  intros Hav. unfold gemini3_switch. destruct use; simpl.
  - rewrite Hav. eexists; split; [done|]. unfold resolve_apiKey. by rewrite Hav.
  - eexists; split; [done|]. by apply available_key_truthy.
Qed.

Lemma toLowerCase_empty : toLowerCase "" = "".
Proof. done. Qed.

(** ** Properties of the constructor and the getters *)

(** C7. A constructed instance has the credentials of its mode: a truthy
    project and location in Vertex AI mode, a truthy API key otherwise. *)
Theorem constructor_credentials p env g :
  constructor p env = Ok g ->
  (if vertexai g then js_truthy (project g) && js_truthy (location g)
   else js_truthy (apiKey g)) = true.
Proof.
  intros (vx & key & proj & loc & key' & _ & Hc & ->)%constructor_inv. simpl.
  exact (check_credentials_ok _ _ _ _ _ _ _ _ Hc).
Qed.

(** C8. A Gemini 3 preview model with an API key available (as the
    parameter or in the environment) is always constructed, in API-key
    mode, and its REST client goes to a truthy base URL with an empty
    [apiVersion], with the key and [vertexai: false]. *)
Theorem constructor_gemini3_routing p env :
  isGemini3PreviewModel (resolve_model (gp_model p)) = true ->
  js_truthy (gp_apiKey p ?|| (if canReadEnv env then env_api_key env else None)) = true ->
  exists g, constructor p env = Ok g /\ vertexai g = false /\
    let c := (apiClient g).1 in
    gg_vertexai c = Some false /\ js_truthy (gg_apiKey c) = true /\
    ho_baseUrl (gg_httpOptions c) = apiEndpoint g /\ js_truthy (apiEndpoint g) = true /\
    ho_apiVersion (gg_httpOptions c) = Some "".
Proof.
  intros Hg3 Hav.
  destruct (gemini3_switch_key (resolve_useVertexAI (gp_vertexai p) env) _ _ Hav)
    as (key1 & Hsw & Hk).
  pose proof (resolve_apiEndpoint_g3 (gp_apiEndpoint p) env) as He.
  unfold constructor. cbv zeta. rewrite Hg3, Hsw. cbv beta iota.
  rewrite (check_credentials_api_key _ _ _ _ Hk).
  set (ep := resolve_apiEndpoint true (gp_apiEndpoint p) env) in *. simpl.
  eexists; split; [reflexivity|]. split; [done|].
  unfold apiClient, build_apiClient. simpl. by rewrite He, Hk.
Qed.

(** C9. [vertexai: false] passed to the constructor does not select
    API-key mode: when [GOOGLE_GENAI_USE_VERTEXAI] is ["true"] (in any
    case) or ["1"] and the model is not a Gemini 3 preview, an instance
    that is constructed is in Vertex AI mode. *)
Theorem constructor_vertexai_false_ignored p env v g :
  gp_vertexai p = Some false -> canReadEnv env = true ->
  getenv env "GOOGLE_GENAI_USE_VERTEXAI" = Some v ->
  String.eqb (toLowerCase v) "true" || String.eqb v "1" = true ->
  isGemini3PreviewModel (resolve_model (gp_model p)) = false ->
  constructor p env = Ok g -> vertexai g = true.
Proof.
  intros Hvx Hr Hv Htrue Hg3 (vx & key & ? & ? & ? & Hsw & _ & ->)%constructor_inv. simpl.
  rewrite Hg3 in Hsw. unfold gemini3_switch in Hsw. simpl in Hsw. simplify_eq.
  unfold resolve_useVertexAI. rewrite Hvx, Hr, Hv. simpl.
  destruct v as [|c v]; [discriminate|]. exact Htrue.
Qed.

(** C10. Under the memo invariant, which every constructed instance
    satisfies, any sequence of getter reads returns the values the getters
    stand for: the memoised getters equal their unmemoised definitions. *)
Theorem constructor_getters_memoised p env g ks :
  constructor p env = Ok g -> (run_getters g ks).1 = map (ref_getter g) ks.
Proof. intros Hc. apply run_getters_ok, (constructor_memo_ok _ _ _ Hc). Qed.

(** ** The request methods *)

Lemma removeDisplayNameIfPresent_clean d : blob_clean (removeDisplayNameIfPresent d) = true.
Proof.
  destruct d as [b|]; simpl; [|done].
  destruct (js_truthy (blob_displayName b)) eqn:E; simpl; [done|by rewrite E].
Qed.

Lemma strip_content_clean c : forallb part_clean (default [] (c_parts (strip_content c))) = true.
Proof.
  unfold strip_content. destruct (c_parts c) as [ps|] eqn:E; simpl; [|by rewrite E].
  apply forallb_forall. intros q (p & <- & _)%in_map_iff.
  unfold part_clean. simpl. by rewrite !removeDisplayNameIfPresent_clean.
Qed.

Lemma strip_content_texts c : map p_text <$> c_parts (strip_content c) = map p_text <$> c_parts c.
Proof.
  unfold strip_content. destruct (c_parts c) as [ps|] eqn:E; [|by rewrite E]. cbn.
  f_equal. rewrite List.map_map. reflexivity.
Qed.

Lemma constructor_g3_endpoint p env g :
  constructor p env = Ok g -> isGemini3Preview (adapter g) = true -> js_truthy (apiEndpoint g) = true.
Proof.
  intros (? & ? & ? & ? & ? & _ & _ & ->)%constructor_inv. simpl. intros ->.
  apply resolve_apiEndpoint_g3.
Qed.

(** C11. With the Gemini API backend, [preprocessRequest] leaves no
    [labels] and no truthy [displayName] in the request and keeps its
    texts, model and live configuration; with Vertex AI it leaves the
    request as it is. *)
Theorem preprocessRequest_strips g rq :
  memo_ok g ->
  let rq' := (preprocessRequest g rq).2 in
  (vertexai g = true -> rq' = rq) /\
  (vertexai g = false ->
     request_clean rq' = true /\ request_texts rq' = request_texts rq /\
     rq_model rq' = rq_model rq /\ rq_liveConnectConfig rq' = rq_liveConnectConfig rq).
Proof.
  intros Hm. unfold preprocessRequest.
  destruct (apiBackend_ok g Hm) as (Hb & _).
  destruct (apiBackend g) as [b g1]. simpl in Hb. subst b.
  unfold ref_apiBackend. destruct (vertexai g); simpl; [done|].
  split; [done|]. intros _. split; [|split; [|done]].
  - unfold request_clean. simpl. apply andb_true_iff. split.
    + by destruct (rq_config rq).
    + destruct (rq_contents rq) as [cs|]; simpl; [|done].
      apply forallb_forall. intros c (c0 & <- & _)%in_map_iff. apply strip_content_clean.
  - unfold request_texts. simpl. destruct (rq_contents rq) as [cs|]; simpl; [|done].
    rewrite map_map. f_equal. apply map_ext, strip_content_texts.
Qed.

(** For a constructed Gemini 3 preview instance, [connect] succeeds on
    a request with live [httpOptions], and both the live configuration and
    the live client use an empty [apiVersion], the client with the
    instance's truthy endpoint as its base URL. *)
Theorem connect_gemini3_api_version p env g rq lc ho :
  constructor p env = Ok g -> isGemini3Preview (adapter g) = true ->
  rq_liveConnectConfig rq = Some lc -> lc_httpOptions lc = Some ho ->
  exists g' rq' args, connect g rq = Ok (g', rq', args) /\
    (lc_httpOptions (lca_config args) ≫= ho_apiVersion) = Some "" /\
    ho_apiVersion (gg_httpOptions (lca_client args)) = Some "" /\
    ho_baseUrl (gg_httpOptions (lca_client args)) = apiEndpoint g /\
    js_truthy (apiEndpoint g) = true.
Proof.
  intros Hc Hg3 Hlc Hho. pose proof (constructor_g3_endpoint _ _ _ Hc Hg3) as He.
  destruct (liveApiClient_ok g (constructor_memo_ok _ _ _ Hc)) as (Hcl & _).
  unfold connect. rewrite Hlc. unfold connect_http. rewrite Hho, Hg3. cbv beta iota.
  destruct (js_truthy (rq_config rq ≫= cfg_systemInstruction)); simpl;
    destruct (liveApiClient g) as [cl g2]; simpl in Hcl; subst cl;
    unfold ref_liveApiClient, build_liveApiClient; rewrite He, Hg3;
    eexists _, _, _; (split; [reflexivity|]); simpl; done.
Qed.

(** [connect] on a request without [liveConnectConfig] throws the
    [TypeError] of its first assignment to it. *)
Theorem connect_no_live_config g rq :
  rq_liveConnectConfig rq = None ->
  connect g rq = Throw (TypeError_set
    (if js_truthy (rq_config rq ≫= cfg_systemInstruction) then "systemInstruction" else "tools")).
Proof. intros H. unfold connect. rewrite H. simpl. by destruct (js_truthy _). Qed.

End GeminiConfig.

(** ** Witnesses *)

Lemma constructor_credentials_witness :
  let p := params_of None None (Some true) (Some "proj") None in
  let env := env_of [("GOOGLE_CLOUD_LOCATION", "us-central1")] in
  exists g, constructor sample_isGemini3PreviewModel p env = Ok g /\
    (if vertexai g then js_truthy (project g) && js_truthy (location g)
     else js_truthy (apiKey g)) = true.
Proof.
  intros p env. eexists. split; [reflexivity|].
  apply (constructor_credentials sample_isGemini3PreviewModel p env). reflexivity.
Defined.

Lemma constructor_gemini3_routing_witness :
  let p := params_of (Some "gemini-3-flash-preview") None (Some true) None None in
  let env := env_of [("GEMINI_API_KEY", "k")] in
  sample_isGemini3PreviewModel (resolve_model (gp_model p)) = true /\
  js_truthy (gp_apiKey p ?|| (if canReadEnv env then env_api_key env else None)) = true /\
  exists g, constructor sample_isGemini3PreviewModel p env = Ok g /\ vertexai g = false /\
    let c := (apiClient [] g).1 in
    gg_vertexai c = Some false /\ js_truthy (gg_apiKey c) = true /\
    ho_baseUrl (gg_httpOptions c) = apiEndpoint g /\ js_truthy (apiEndpoint g) = true /\
    ho_apiVersion (gg_httpOptions c) = Some "".
Proof.
  intros p env. split; [reflexivity|]. split; [reflexivity|].
  apply constructor_gemini3_routing; reflexivity.
Defined.

Lemma constructor_vertexai_false_ignored_witness :
  let p := params_of (Some "gemini-2.5-flash") (Some "k") (Some false) (Some "proj") (Some "eu") in
  let env := env_of [("GOOGLE_GENAI_USE_VERTEXAI", "TRUE")] in
  exists g, constructor sample_isGemini3PreviewModel p env = Ok g /\ vertexai g = true.
Proof.
  intros p env. eexists. split; [reflexivity|].
  eapply (constructor_vertexai_false_ignored sample_isGemini3PreviewModel p env "TRUE");
    reflexivity.
Defined.

Lemma constructor_getters_memoised_witness :
  let ks := [GetLiveApiClient; GetApiBackend; GetLiveApiVersion; GetApiClient] in
  exists g, constructor sample_isGemini3PreviewModel
              (params_of None (Some "k") None None None) (env_of []) = Ok g /\
    (run_getters [("user-agent", "adk")] g ks).1 = map (ref_getter [("user-agent", "adk")] g) ks.
Proof.
  intros ks. eexists. split; [reflexivity|].
  apply (constructor_getters_memoised sample_isGemini3PreviewModel _
           (params_of None (Some "k") None None None) (env_of [])). reflexivity.
Defined.

Lemma preprocessRequest_strips_witness :
  let g := mkGemini DEFAULT_MODEL (Some "k") false None None None None
             (mkAdapter false None) None None None None in
  let blob := Some (mkBlob (Some "photo.png") (Some "image/png")) in
  let rq := mkRequest None
              (Some [mkContent (Some "user") (Some [mkPart (Some "hi") None None None blob None])])
              (Some (mkConfig (Some [("team", "a")]) None None None)) None in
  memo_ok [] g /\
  let rq' := (preprocessRequest [] g rq).2 in
  (vertexai g = true -> rq' = rq) /\
  (vertexai g = false ->
     request_clean rq' = true /\ request_texts rq' = request_texts rq /\
     rq_model rq' = rq_model rq /\ rq_liveConnectConfig rq' = rq_liveConnectConfig rq).
Proof.
  intros g blob rq.
  assert (Hm : memo_ok [] g) by (repeat split; discriminate).
  split; [exact Hm|]. exact (preprocessRequest_strips [] g rq Hm).
Defined.

Lemma connect_gemini3_api_version_witness :
  let p := params_of (Some "gemini-3-pro-preview") (Some "k") None None None in
  let ho := mkHttp None None None in
  let lc := mkLive (Some ho) None None in
  let rq := mkRequest None None (Some (mkConfig None (Some "Be brief.") None None)) (Some lc) in
  exists g, constructor sample_isGemini3PreviewModel p (env_of []) = Ok g /\
    isGemini3Preview (adapter g) = true /\
    exists g' rq' args, connect [] g rq = Ok (g', rq', args) /\
      (lc_httpOptions (lca_config args) ≫= ho_apiVersion) = Some "" /\
      ho_apiVersion (gg_httpOptions (lca_client args)) = Some "" /\
      ho_baseUrl (gg_httpOptions (lca_client args)) = apiEndpoint g /\
      js_truthy (apiEndpoint g) = true.
Proof.
  intros p ho lc rq. eexists. split; [reflexivity|]. split; [reflexivity|].
  eapply (connect_gemini3_api_version sample_isGemini3PreviewModel [] p (env_of []) _ rq lc ho);
    reflexivity.
Defined.

Lemma connect_no_live_config_witness :
  let rq := mkRequest (Some "gemini-2.5-flash") None (Some (mkConfig None (Some "sys") None None)) None in
  let g := mkGemini DEFAULT_MODEL (Some "k") false None None None None
             (mkAdapter false None) None None None None in
  rq_liveConnectConfig rq = None /\
  connect [] g rq = Throw (TypeError_set "systemInstruction").
Proof.
  intros rq g. split; [reflexivity|]. apply (connect_no_live_config [] g rq). reflexivity.
Defined.
