(* ===== verification/AgentTree.v ===== *)
(** * The agent tree

    The class hierarchy of [@paean-ai/adk] (not under [src/]; spec §4.3 and
    §9) as a tagged union: an agent has a name, a kind and its
    [subAgents]; an [LlmAgent] carries its tools.  Tools are
    [FunctionTool], [AgentTool] or another [BaseTool].  The graph renderer
    ([AgentGraph]) dispatches on the kind with [instanceof], the execution
    model ([Agents]) by pattern matching. *)

From S2P Require Import Prelude.

#[local] Set Warnings "-register-all".

Inductive ToolKind := FunctionToolK | AgentToolK | OtherToolK.

Record Tool := mkTool { tool_name : string; tool_kind : ToolKind }.

(** [LoopAgent] carries its [maxIterations] ([undefined] is [None]). *)
Inductive AgentKind :=
  | LlmAgentK (tools : list Tool)
  | SequentialAgentK
  | ParallelAgentK
  | LoopAgentK (maxIterations : option nat)
  | CustomAgentK.

Inductive Agent := mkAgent {
  agent_name : string;
  agent_kind : AgentKind;
  subAgents : list Agent
}.

(** [x instanceof SequentialAgent] and the like. *)
Definition is_sequential (a : Agent) : bool :=
  match agent_kind a with SequentialAgentK => true | _ => false end.
Definition is_loop (a : Agent) : bool :=
  match agent_kind a with LoopAgentK _ => true | _ => false end.
Definition is_parallel (a : Agent) : bool :=
  match agent_kind a with ParallelAgentK => true | _ => false end.

(** [rootAgent.canonicalTools()] of an [LlmAgent]. *)
Definition agent_tools (a : Agent) : list Tool :=
  match agent_kind a with LlmAgentK ts => ts | _ => [] end.

(** Every agent strictly below [a], in depth-first order. *)
Fixpoint descendants (a : Agent) : list Agent :=
  flat_map (fun c => c :: descendants c) (subAgents a).

(** Induction over the nested tree. *)
Section Agent_ind.
Variable P : Agent -> Prop.
Hypothesis Hnode : forall n k subs, Forall P subs -> P (mkAgent n k subs).

Fixpoint Agent_ind' (a : Agent) : P a :=
  match a with
  | mkAgent n k subs =>
      Hnode n k subs
        ((fix go (l : list Agent) : Forall P l :=
            match l with
            | [] => List.Forall_nil P
            | x :: l' => List.Forall_cons P x l' (Agent_ind' x) (go l')
            end) subs)
  end.
End Agent_ind.

Lemma descendants_cons n k c subs :
  descendants (mkAgent n k (c :: subs)) = c :: descendants c ++ descendants (mkAgent n k subs).
Proof. done. Qed.
