(* ===== verification/AgentGraph.v ===== *)
(** * The Graphviz rendering of an agent tree

    Source: [src/dev/src/server/agent_graph.ts].  [buildGraph] mutates a
    [ts-graphviz] graph through [addSubgraph], [addNode] and [addEdge]; the
    model is the list of these calls, each tagged with the graph it is made
    on (the root digraph or the subgraph [cluster_<name>]).  A [TypeError]
    thrown by the code is [Throw] of the [result] monad.  The closures of
    [buildGraph] ([buildCluster], [drawNode], [drawEdge]) see the current
    [graph], [rootAgent], [highlightsPairs] and [parentAgent]; they are
    definitions with these as parameters.  The calls carry the styles of
    nodes and edges; [op_item] gives each the attribute object of the
    source, and [getAgentGraphAsDot] prints the digraph with [toDot], a
    parameter (the printer of [ts-graphviz]). *)

From S2P Require Import Prelude AgentTree.

(** ** Graph-building calls *)

Inductive GraphId := RootGraph | ClusterGraph (name : string).

(** [filled,rounded] dark green (a highlighted node) or [rounded] white. *)
Inductive NodeStyle := NodeHighlighted | NodePlain.

(** Light green, light green with [dir: 'back'], light green (inside a
    cluster) and light gray without arrowhead. *)
Inductive EdgeStyle := EdgeHighlight | EdgeHighlightBack | EdgeGreen | EdgePlain.

Inductive GraphOp :=
  | AddSubgraph (g : GraphId) (name : string)
  | AddNode (g : GraphId) (name caption shape : string) (style : NodeStyle)
  | AddEdge (g : GraphId) (from to : string) (style : EdgeStyle).

(** [BaseAgent | BaseTool] *)
Inductive NodeSubject := AgentNode (a : Agent) | ToolNode (t : Tool).

(** ** Node names, captions and shapes (lines 190-275) *)

Definition getNodeName (x : NodeSubject) : string :=
  match x with
  | AgentNode a =>
      match agent_kind a with
      | SequentialAgentK => agent_name a ++ " (Sequential Agent)"
      | LoopAgentK _ => agent_name a ++ " (Loop Agent)"
      | ParallelAgentK => agent_name a ++ " (Parallel Agent)"
      | _ => agent_name a
      end
  | ToolNode t => tool_name t
  end.

(** The caption prefixes as the bytes of the source file: the robot and
    wrench emoji of the tests, stored in their Mac Roman mis-decoding. *)
Definition robot_prefix : string := bytes_string [239; 163; 191; 195; 188; 194; 167; 195; 177].
Definition wrench_prefix : string := bytes_string [239; 163; 191; 195; 188; 195; 174; 195; 159].

Definition getNodeCaption (x : NodeSubject) : string :=
  match x with
  | AgentNode a => robot_prefix ++ " " ++ agent_name a
  | ToolNode t =>
      match tool_kind t with
      | FunctionToolK => wrench_prefix ++ " " ++ tool_name t
      | AgentToolK => robot_prefix ++ " " ++ tool_name t
      | OtherToolK => wrench_prefix ++ " " ++ tool_name t
      end
  end.

Definition getNodeShape (x : NodeSubject) : string :=
  match x with AgentNode _ => "ellipse" | ToolNode _ => "box" end.

Definition shouldBuildAgentCluster (x : NodeSubject) : bool :=
  match x with
  | AgentNode a => is_sequential a || is_loop a || is_parallel a
  | ToolNode _ => false
  end.

(** ** [drawEdge] (lines 140-169) *)

(** The first pair of [highlightsPairs] that matches the edge, in either
    direction. *)
Fixpoint highlight_style (hl : list (string * string)) (from to : string) : option EdgeStyle :=
  match hl with
  | [] => None
  | (hf, ht) :: hl' =>
      if String.eqb from hf && String.eqb to ht then Some EdgeHighlight
      else if String.eqb from ht && String.eqb to hf then Some EdgeHighlightBack
      else highlight_style hl' from to
  end.

Definition drawEdge (g : GraphId) (root : Agent) (hl : list (string * string))
    (from to : string) : GraphOp :=
  AddEdge g from to
    (match highlight_style hl from to with
     | Some st => st
     | None => if shouldBuildAgentCluster (AgentNode root) then EdgeGreen else EdgePlain
     end).

(** ** [drawNode] for a tool (lines 82-138; a tool is never a cluster) *)

Definition node_highlighted (hl : list (string * string)) (name : string) : bool :=
  existsb (fun p => pair_includes p name) hl.

Definition drawToolNode (g : GraphId) (hl : list (string * string)) (t : Tool) : GraphOp :=
  let x := ToolNode t in
  AddNode g (getNodeName x) (getNodeCaption x) (getNodeShape x)
    (if node_highlighted hl (getNodeName x) then NodeHighlighted else NodePlain).

(** ** [buildGraph] (lines 14-188) *)

(** [for (const subAgent of subAgents) ...] where the body also reads the
    next sub-agent ([subAgents[currLength + 1]], [undefined] after the
    last). *)
Fixpoint for_each_next {B} (f : Agent -> option Agent -> result (list B)) (l : list Agent)
  : result (list B) :=
  match l with
  | [] => Ok []
  | x :: rest =>
      ops1 <- f x (head rest) ;;
      ops2 <- for_each_next f rest ;;
      Ok (ops1 ++ ops2)
  end.

(** [agent.subAgents[0].name] on an empty array. *)
Definition undefined_name : JsError := TypeError "Cannot read properties of undefined (reading 'name')".

(** [if (parentAgent) drawEdge(parentAgent.name, agent.subAgents[0].name)] *)
Definition parent_edge (edge : string -> string -> GraphOp) (parent : option Agent)
    (subs : list Agent) : result (list GraphOp) :=
  match parent with
  | None => Ok []
  | Some p =>
      match subs with
      | [] => Throw undefined_name
      | s0 :: _ => Ok [edge (agent_name p) (agent_name s0)]
      end
  end.

(** [buildCluster(subgraph, agent)] (lines 20-80), with the recursive call
    [bg subgraph subAgent agent] and [drawEdge] of the enclosing
    [buildGraph]. *)
Definition buildCluster (bg : GraphId -> Agent -> result (list GraphOp))
    (edge : string -> string -> GraphOp) (parent : option Agent)
    (c : GraphId) (agent : Agent) : result (list GraphOp) :=
  let subs := subAgents agent in
  if is_loop agent then
    pe <- parent_edge edge parent subs ;;
    body <- for_each_next (fun sub nxt =>
              ops <- bg c sub ;;
              let adj := match nxt with Some n => n | None => default sub (head subs) end in
              Ok (ops ++ [edge (agent_name sub) (agent_name adj)])) subs ;;
    Ok (pe ++ body)
  else if is_sequential agent then
    pe <- parent_edge edge parent subs ;;
    body <- for_each_next (fun sub nxt =>
              ops <- bg c sub ;;
              Ok (ops ++ match nxt with
                         | Some n => [edge (agent_name sub) (agent_name n)]
                         | None => []
                         end)) subs ;;
    Ok (pe ++ body)
  else if is_parallel agent then
    for_each_next (fun sub _ =>
      ops <- bg c sub ;;
      Ok (ops ++ match parent with
                 | Some p => [edge (agent_name p) (agent_name sub)]
                 | None => []
                 end)) subs
  else
    for_each_next (fun sub _ =>
      ops <- bg c sub ;;
      Ok (ops ++ [edge (agent_name agent) (agent_name sub)])) subs.

(** [for (const subAgent of rootAgent.subAgents)] in [buildGraph] (lines
    173-180): draw the sub-agent into the same graph, then an edge from the
    root unless either is a cluster. *)
Definition drawSubAgents (bg : Agent -> result (list GraphOp))
    (edge : string -> string -> GraphOp) (root : Agent) : result (list GraphOp) :=
  for_each_next (fun sub _ =>
    ops <- bg sub ;;
    Ok (ops ++ if negb (shouldBuildAgentCluster (AgentNode sub)) &&
                  negb (shouldBuildAgentCluster (AgentNode root))
               then [edge (agent_name root) (agent_name sub)] else [])) (subAgents root).

Fixpoint buildGraph (g : GraphId) (root : Agent) (hl : list (string * string))
    (parent : option Agent) {struct root} : result (list GraphOp) :=
  let edge := drawEdge g root hl in
  let x := AgentNode root in
  let name := getNodeName x in
  let bg := fun c sub => buildGraph c sub hl (Some root) in
  (* await drawNode(rootAgent) *)
  node <- (if shouldBuildAgentCluster x then
             cl <- buildCluster bg edge parent (ClusterGraph name) root ;;
             Ok (AddSubgraph g name :: cl)
           else
             Ok [AddNode g name (getNodeCaption x) (getNodeShape x)
                   (if node_highlighted hl name then NodeHighlighted else NodePlain)]) ;;
  (* for (const subAgent of rootAgent.subAgents) *)
  subs <- drawSubAgents (bg g) edge root ;;
  (* if (rootAgent instanceof LlmAgent) for (const tool of canonicalTools) *)
  let tools := flat_map (fun t => [drawToolNode g hl t;
                                   edge (agent_name root) (getNodeName (ToolNode t))])
                        (agent_tools root) in
  Ok (node ++ subs ++ tools).

(** [getAgentGraph] (lines 284-296): a strict digraph named after the root
    ([rankdir LR]), filled by [buildGraph]. *)
Definition getAgentGraph (root : Agent) (hl : list (string * string)) : result (list GraphOp) :=
  buildGraph RootGraph root hl None.

(** ** The graph objects and [getAgentGraphAsDot] (lines 9-12, 297-312) *)

Definition DARK_GREEN : string := "#0F5223".
Definition LIGHT_GREEN : string := "#69CB87".
Definition LIGHT_GRAY : string := "#cccccc".
Definition WHITE : string := "#ffffff".

Definition Attrs := list (string * string).

(** The attributes [drawNode] gives a node: highlighted (lines 105-112)
    or plain (lines 131-138). *)
Definition node_attrs (caption shape : string) (st : NodeStyle) : Attrs :=
  match st with
  | NodeHighlighted =>
      [("label", caption); ("style", "filled,rounded"); ("fillcolor", DARK_GREEN);
       ("color", DARK_GREEN); ("shape", shape); ("fontcolor", LIGHT_GRAY)]
  | NodePlain =>
      [("label", caption); ("style", "rounded"); ("fillcolor", WHITE);
       ("color", LIGHT_GRAY); ("shape", shape); ("fontcolor", LIGHT_GRAY)]
  end.

(** [new Subgraph(`cluster_${name}`, {...})] (lines 121-126) *)
Definition cluster_attrs (name : string) : Attrs :=
  [("label", "cluster_" +:+ name); ("style", "rounded"); ("bgcolor", WHITE); ("fontcolor", LIGHT_GRAY)].

(** The attributes [drawEdge] gives an edge (lines 144-168). *)
Definition edge_attrs (st : EdgeStyle) : Attrs :=
  match st with
  | EdgeHighlight | EdgeGreen => [("color", LIGHT_GREEN)]
  | EdgeHighlightBack => [("color", LIGHT_GREEN); ("dir", "back")]
  | EdgePlain => [("arrowhead", "none"); ("color", LIGHT_GRAY)]
  end.

(** The [ts-graphviz] objects the calls add. *)
Inductive GraphItem :=
  | ISubgraph (g : GraphId) (id : string) (attrs : Attrs)
  | INode (g : GraphId) (id : string) (attrs : Attrs)
  | IEdge (g : GraphId) (from to : string) (attrs : Attrs).

Definition op_item (op : GraphOp) : GraphItem :=
  match op with
  | AddSubgraph g n => ISubgraph g ("cluster_" +:+ n) (cluster_attrs n)
  | AddNode g n caption shape st => INode g n (node_attrs caption shape st)
  | AddEdge g f t st => IEdge g f t (edge_attrs st)
  end.

(** [new Digraph(id, strict, attributes)] with its items. *)
Record Digraph := mkDigraph {
  dg_id : string;
  dg_strict : bool;
  dg_attrs : Attrs;
  dg_items : list GraphItem
}.

(** The digraph [getAgentGraph] returns (lines 290-295). *)
Definition agent_digraph (root : Agent) (hl : list (string * string)) : result Digraph :=
  ops <- getAgentGraph root hl ;;
  Ok (mkDigraph (agent_name root) true [("rankdir", "LR"); ("bgcolor", "#333537")] (map op_item ops)).

Section Dot.
(** [toDot] of [ts-graphviz], a library the code only calls. *)
Variable toDot : Digraph -> string.

(** [getAgentGraphAsDot] (lines 305-312) *)
Definition getAgentGraphAsDot (root : Agent) (hl : list (string * string)) : result string :=
  g <- agent_digraph root hl ;;
  Ok (toDot g).

End Dot.

(** ** Statement helpers *)

(** A [SequentialAgent] or [LoopAgent] without sub-agents: [buildCluster]
    reads [agent.subAgents[0].name] for it when it has a parent. *)
Definition empty_chain (a : Agent) : bool :=
  (is_sequential a || is_loop a) && match subAgents a with [] => true | _ => false end.

(** The edges drawn, as (from, to) pairs. *)
Definition edges_of (ops : list GraphOp) : list (string * string) :=
  omap (fun op => match op with AddEdge _ f t _ => Some (f, t) | _ => None end) ops.

(** [x1 -> x2 -> ... -> xn] *)
Fixpoint chain (l : list string) : list (string * string) :=
  match l with
  | x :: ((y :: _) as rest) => (x, y) :: chain rest
  | _ => []
  end.

(** An agent drawn as a single node: not a cluster, no sub-agents, no tools. *)
Definition plain_leaf (a : Agent) : bool :=
  negb (shouldBuildAgentCluster (AgentNode a)) &&
  match subAgents a with [] => true | _ => false end &&
  match agent_tools a with [] => true | _ => false end.

(** [x1 -> x2 -> ... -> xn -> x1] *)
Definition cycle (l : list string) : list (string * string) :=
  match l, last l with
  | x :: _, Some y => chain l ++ [(y, x)]
  | _, _ => []
  end.

(** The calls of a [for_each_next] loop whose body succeeds with [h]. *)
Fixpoint map_next {B} (h : Agent -> option Agent -> list B) (l : list Agent) : list B :=
  match l with
  | [] => []
  | x :: rest => h x (head rest) ++ map_next h rest
  end.

(** The node [drawNode] adds for an agent that is not a cluster. *)
Definition leaf_op (c : GraphId) (hl : list (string * string)) (a : Agent) : GraphOp :=
  AddNode c (getNodeName (AgentNode a)) (getNodeCaption (AgentNode a)) (getNodeShape (AgentNode a))
    (if node_highlighted hl (getNodeName (AgentNode a)) then NodeHighlighted else NodePlain).

(** [d] Sequential agents nested around [leaf]. *)
Fixpoint nest (d : nat) (leaf : Agent) : Agent :=
  match d with
  | 0 => leaf
  | S d' => mkAgent "nested" SequentialAgentK [nest d' leaf]
  end.

(** The number of [addNode] calls. *)
Definition node_count (ops : list GraphOp) : nat :=
  length (List.filter (fun op => match op with AddNode _ _ _ _ _ => true | _ => false end) ops).

(** The UTF-8 bytes of the robot emoji the tests expect
    ([label = "🤖 testAgent"]). *)
Definition utf8_robot : string := bytes_string [240; 159; 164; 150].

(** Sample agents of the tests (lines 67-75 of [agent_graph_test.ts]). *)
Definition llm_agent (n : string) : Agent := mkAgent n (LlmAgentK []) [].

(** ** Lemmas *)

Lemma is_ok_bind_app {B} (c : result (list B)) (e : list B) :
  is_ok (ops <- c ;; Ok (ops ++ e)) = is_ok c.
Proof. by destruct c. Qed.

Lemma is_ok_bind_cons {B} (c : result (list B)) (y : B) :
  is_ok (ops <- c ;; Ok (y :: ops)) = is_ok c.
Proof. by destruct c. Qed.

Lemma is_ok_bind2 {B} (c d : result (list B)) (f : list B -> list B -> list B) :
  is_ok (x <- c ;; y <- d ;; Ok (f x y)) = is_ok c && is_ok d.
Proof. destruct c, d; done. Qed.

Lemma is_ok_bind_const {A B} (c : result A) (k : A -> result B) b :
  (forall x, is_ok (k x) = b) -> is_ok (result_bind c k) = is_ok c && b.
Proof. intros Hk. destruct c; simpl; [apply Hk|done]. Qed.

Lemma for_each_next_ok {B} (f : Agent -> option Agent -> result (list B)) (P : Agent -> bool) l :
  (forall x n, In x l -> is_ok (f x n) = P x) -> is_ok (for_each_next f l) = forallb P l.
Proof.
  intros Hf. induction l as [|x l IH]; simpl; [done|].
  rewrite (is_ok_bind_const _ _ (forallb P l)).
  - rewrite Hf; [done|by left].
  - intros ops. rewrite (is_ok_bind_const _ _ true) by done.
    rewrite andb_true_r. apply IH. intros y n Hy. apply Hf. by right.
Qed.

Lemma forallb_flat_map {A B} (P : B -> bool) (f : A -> list B) l :
  forallb P (flat_map f l) = forallb (fun x => forallb P (f x)) l.
Proof. induction l as [|x l IH]; simpl; [done|]. by rewrite forallb_app, IH. Qed.

Lemma buildCluster_ok bg edge parent c agent (Q : Agent -> bool) :
  (forall sub, In sub (subAgents agent) -> is_ok (bg c sub) = Q sub) ->
  is_ok (buildCluster bg edge parent c agent) =
  match parent with Some _ => negb (empty_chain agent) | None => true end && forallb Q (subAgents agent).
Proof.
  intros HQ. unfold buildCluster, empty_chain.
  assert (Hpe : is_ok (parent_edge edge parent (subAgents agent)) =
                match parent with Some _ => match subAgents agent with [] => false | _ => true end | None => true end)
    by (destruct parent, (subAgents agent); done).
  assert (Hb : forall e : Agent -> option Agent -> list GraphOp,
     is_ok (for_each_next (fun sub nxt => ops <- bg c sub ;; Ok (ops ++ e sub nxt)) (subAgents agent))
     = forallb Q (subAgents agent))
    by (intros e; apply for_each_next_ok; intros x n Hx; by rewrite is_ok_bind_app, HQ).
  destruct (is_loop agent) eqn:El; [|destruct (is_sequential agent) eqn:Es;
    [|destruct (is_parallel agent)]]; rewrite ?orb_true_r, ?orb_false_r; simpl.
  - rewrite is_ok_bind2, Hpe.
    rewrite (Hb (fun sub nxt => [edge (agent_name sub)
       (agent_name match nxt with Some n => n | None => default sub (head (subAgents agent)) end)])).
    by destruct parent, (subAgents agent).
  - rewrite is_ok_bind2, Hpe.
    rewrite (Hb (fun sub nxt => match nxt with Some n => [edge (agent_name sub) (agent_name n)] | None => [] end)).
    by destruct parent, (subAgents agent).
  - rewrite (Hb (fun sub _ => match parent with Some p => [edge (agent_name p) (agent_name sub)] | None => [] end)).
    by destruct parent.
  - rewrite (Hb (fun sub _ => [edge (agent_name agent) (agent_name sub)])). by destruct parent.
Qed.

Lemma buildGraph_ok root : forall g hl parent,
  is_ok (buildGraph g root hl parent) =
  match parent with Some _ => negb (empty_chain root) | None => true end &&
  forallb (fun d => negb (empty_chain d)) (descendants root).
Proof.
  induction root as [n k subs IH] using Agent_ind'. intros g hl parent.
  assert (Hsub : forall c p, Forall (fun sub => is_ok (buildGraph c sub hl p) =
              match p with Some _ => negb (empty_chain sub) | None => true end &&
              forallb (fun d => negb (empty_chain d)) (descendants sub)) subs).
  { intros c p. eapply Forall_impl; [exact IH|]. intros a Ha. apply Ha. }
  set (Q := fun sub => negb (empty_chain sub) && forallb (fun d => negb (empty_chain d)) (descendants sub)).
  assert (HQ : forall c sub, In sub subs -> is_ok (buildGraph c sub hl (Some (mkAgent n k subs))) = Q sub).
  { intros c sub Hin. pose proof (Hsub c (Some (mkAgent n k subs))) as H.
    rewrite List.Forall_forall in H. by apply H. }
  cbn [buildGraph].
  rewrite (is_ok_bind_const _ _ (forallb Q subs)).
  2:{ intros node. rewrite (is_ok_bind_const _ _ true) by done. rewrite andb_true_r.
      unfold drawSubAgents. apply for_each_next_ok. intros x nx Hx. rewrite is_ok_bind_app. by apply HQ. }
  unfold descendants; fold descendants. rewrite forallb_flat_map.
  replace (forallb (fun x => forallb (fun d => negb (empty_chain d)) (x :: descendants x)) subs)
    with (forallb Q subs) by done.
  destruct (shouldBuildAgentCluster _) eqn:Hc.
  - rewrite is_ok_bind_cons.
    rewrite (buildCluster_ok _ _ _ _ _ Q) by (intros sub Hin; by apply HQ).
    cbn [subAgents]. by rewrite <- andb_assoc, andb_diag.
  - simpl. destruct parent; [|done].
    unfold empty_chain. simpl in Hc |- *.
    unfold is_sequential, is_loop in *. simpl in *. destruct k; simpl in *; done.
Qed.

(** C5. The graph of an agent tree is built without error exactly when no
    agent below the root is a [SequentialAgent] or [LoopAgent] without
    sub-agents: for such an agent [buildCluster] reads
    [agent.subAgents[0].name] and throws a [TypeError].  The spec (§4.3)
    says an empty composite is valid. *)
Theorem getAgentGraph_ok root hl :
  is_ok (getAgentGraph root hl) = forallb (fun d => negb (empty_chain d)) (descendants root).
Proof. unfold getAgentGraph. by rewrite buildGraph_ok. Qed.

(** ** The edges of Sequential and Loop clusters *)

Lemma for_each_next_Ok {B} (f : Agent -> option Agent -> result (list B)) h l :
  (forall x n, In x l -> f x n = Ok (h x n)) -> for_each_next f l = Ok (map_next h l).
Proof.
  intros Hf. induction l as [|x l IH]; simpl; [done|].
  rewrite Hf by (by left). simpl. rewrite IH; [done|]. intros y n Hy. apply Hf. by right.
Qed.

Lemma edges_of_app a b : edges_of (a ++ b) = edges_of a ++ edges_of b.
Proof. induction a as [|op a IH]; simpl; [done|]. destruct op; simpl; by rewrite ?IH. Qed.

Lemma edges_of_map_next h l :
  edges_of (map_next h l) = map_next (fun x n => edges_of (h x n)) l.
Proof. induction l as [|x l IH]; simpl; [done|]. by rewrite edges_of_app, IH. Qed.

Lemma plain_leaf_graph g a hl p :
  plain_leaf a = true -> buildGraph g a hl p = Ok [leaf_op g hl a].
Proof.
  destruct a as [n k subs]. unfold plain_leaf, agent_tools. cbn [subAgents agent_kind].
  destruct (shouldBuildAgentCluster _) eqn:Hc; [done|]. destruct subs; [|by rewrite andb_false_r].
  intros Ht. cbn [buildGraph]. rewrite Hc. simpl.
  destruct k as [ts| | | |]; simpl in *; try destruct ts; try done; by rewrite app_nil_r.
Qed.

Lemma map_next_chain (e : string -> string -> GraphOp) (l : list Agent) :
  (forall x y, edges_of [e x y] = [(x, y)]) ->
  map_next (fun x n => edges_of (match n with Some m => [e (agent_name x) (agent_name m)] | None => [] end)) l
  = chain (map agent_name l).
Proof.
  intros He. induction l as [|x [|y l] IH]; simpl in *; [done|done|].
  rewrite He. f_equal. exact IH.
Qed.

Lemma map_next_cycle (e : string -> string -> GraphOp) (d : Agent) (l : list Agent) :
  (forall x y, edges_of [e x y] = [(x, y)]) -> l <> [] ->
  map_next (fun x n => edges_of [e (agent_name x) (agent_name (match n with Some m => m | None => d end))]) l
  = chain (map agent_name l) ++ [(default "" (last (map agent_name l)), agent_name d)].
Proof.
  intros He Hne. destruct l as [|x l]; [done|]. clear Hne.
  revert x. induction l as [|y l IH]; intros x; simpl in *; [by rewrite He|].
  rewrite He. simpl. f_equal. exact (IH y).
Qed.

Lemma plain_leaf_node_edges g a hl p :
  plain_leaf a = true -> exists ops, buildGraph g a hl p = Ok ops /\ edges_of ops = [].
Proof. intros H. rewrite (plain_leaf_graph g a hl p H). by eexists. Qed.

Lemma for_each_next_no_edges (f : Agent -> option Agent -> result (list GraphOp)) l :
  (forall x n, In x l -> exists ops, f x n = Ok ops /\ edges_of ops = []) ->
  exists ops, for_each_next f l = Ok ops /\ edges_of ops = [].
Proof.
  intros Hf. induction l as [|x l IH]; cbn [for_each_next]; [by eexists|].
  destruct (Hf x (head l) (or_introl eq_refl)) as (o & -> & Ho).
  destruct IH as (ops & -> & He); [intros y n Hy; apply Hf; by right|].
  eexists. split; [reflexivity|]. by rewrite edges_of_app, Ho, He.
Qed.

(** The top-level loop of [buildGraph] under a cluster root draws no edge
    for sub-agents drawn without edges. *)
Lemma drawSubAgents_no_edges bg edge root :
  shouldBuildAgentCluster (AgentNode root) = true ->
  (forall sub, In sub (subAgents root) -> exists ops, bg sub = Ok ops /\ edges_of ops = []) ->
  exists ops, drawSubAgents bg edge root = Ok ops /\ edges_of ops = [].
Proof.
  intros Hc Hall. apply for_each_next_no_edges. intros x n Hx.
  destruct (Hall x Hx) as (o & -> & Ho). rewrite Hc, andb_false_r.
  eexists. split; [reflexivity|]. by rewrite app_nil_r.
Qed.

Lemma map_next_ext {B} (h1 h2 : Agent -> option Agent -> list B) l :
  (forall x n, h1 x n = h2 x n) -> map_next h1 l = map_next h2 l.
Proof. intros H. induction l as [|x l IH]; simpl; [done|]. by rewrite H, IH. Qed.

Lemma drawEdge_edges g root hl x y : edges_of [drawEdge g root hl x y] = [(x, y)].
Proof. done. Qed.

Lemma plain_leaves_Ok c hl p (subs : list Agent) (e : Agent -> option Agent -> list GraphOp) :
  Forall (fun a => plain_leaf a = true) subs ->
  for_each_next (fun sub nxt => ops <- buildGraph c sub hl p ;; Ok (ops ++ e sub nxt)) subs
  = Ok (map_next (fun sub nxt => leaf_op c hl sub :: e sub nxt) subs).
Proof.
  intros Hall. apply for_each_next_Ok. intros x n Hx. rewrite List.Forall_forall in Hall.
  by rewrite (plain_leaf_graph c x hl p (Hall x Hx)).
Qed.

(** A cluster agent without tools: the subgraph with its cluster body,
    then its sub-agents drawn again into the enclosing graph. *)
Lemma buildGraph_cluster g root hl p :
  shouldBuildAgentCluster (AgentNode root) = true ->
  buildGraph g root hl p =
  (cl <- buildCluster (fun c sub => buildGraph c sub hl (Some root)) (drawEdge g root hl) p
           (ClusterGraph (getNodeName (AgentNode root))) root ;;
   subs <- drawSubAgents (fun sub => buildGraph g sub hl (Some root)) (drawEdge g root hl) root ;;
   Ok (AddSubgraph g (getNodeName (AgentNode root)) :: cl ++ subs)).
Proof.
  destruct root as [n k subs]. intros Hc. cbn [buildGraph]. rewrite Hc.
  assert (Ht : agent_tools (mkAgent n k subs) = []) by (destruct k; done).
  rewrite Ht. simpl. destruct (buildCluster _ _ _ _ _); simpl; [|done].
  destruct (drawSubAgents _ _ _); simpl; [|done]. by rewrite app_nil_r.
Qed.

Lemma plain_leaves_no_edges g hl p root :
  Forall (fun a => plain_leaf a = true) (subAgents root) ->
  forall sub, In sub (subAgents root) ->
  exists ops, buildGraph g sub hl p = Ok ops /\ edges_of ops = [].
Proof.
  intros Hall sub Hin. rewrite List.Forall_forall in Hall.
  rewrite (plain_leaf_graph g sub hl p (Hall sub Hin)). by eexists.
Qed.

(** A [SequentialAgent] whose sub-agents are plain agents (no
    sub-agents, no tools) is drawn without error and with exactly the edges
    of the chain of its sub-agents' names, in order. *)
Theorem getAgentGraph_sequential_chain root :
  is_sequential root = true ->
  Forall (fun a => plain_leaf a = true) (subAgents root) ->
  exists ops, getAgentGraph root [] = Ok ops /\
              edges_of ops = chain (map agent_name (subAgents root)).
Proof.
  intros Hs Hall. unfold getAgentGraph.
  assert (Hc : shouldBuildAgentCluster (AgentNode root) = true) by (simpl; by rewrite Hs).
  rewrite buildGraph_cluster by exact Hc.
  destruct (drawSubAgents_no_edges (fun sub => buildGraph RootGraph sub [] (Some root))
              (drawEdge RootGraph root []) root Hc) as (ops2 & -> & He2).
  { by apply plain_leaves_no_edges. }
  assert (Hl : is_loop root = false) by (unfold is_loop, is_sequential in *; by destruct (agent_kind root)).
  unfold buildCluster. rewrite Hl, Hs. cbn [parent_edge result_bind].
  rewrite plain_leaves_Ok by exact Hall. cbn [result_bind].
  eexists. split; [reflexivity|].
  rewrite app_nil_l. cbn [edges_of omap list_omap]. fold (edges_of (map_next (fun sub nxt =>
    leaf_op (ClusterGraph (getNodeName (AgentNode root))) [] sub ::
    match nxt with Some n => [drawEdge RootGraph root [] (agent_name sub) (agent_name n)] | None => [] end)
    (subAgents root) ++ ops2)).
  rewrite edges_of_app, He2, app_nil_r, edges_of_map_next.
  rewrite <- (map_next_chain (drawEdge RootGraph root []) (subAgents root)) by done.
  apply map_next_ext. intros x [m|]; done.
Qed.

(** A [LoopAgent] whose sub-agents are plain agents is drawn without
    error and with exactly the edges of the cycle through its sub-agents'
    names (a single sub-agent gets an edge to itself). *)
Theorem getAgentGraph_loop_cycle root :
  is_loop root = true ->
  Forall (fun a => plain_leaf a = true) (subAgents root) ->
  exists ops, getAgentGraph root [] = Ok ops /\
              edges_of ops = cycle (map agent_name (subAgents root)).
Proof.
  intros Hlp Hall. unfold getAgentGraph.
  assert (Hc : shouldBuildAgentCluster (AgentNode root) = true) by (simpl; by rewrite Hlp, orb_true_r).
  rewrite buildGraph_cluster by exact Hc.
  destruct (drawSubAgents_no_edges (fun sub => buildGraph RootGraph sub [] (Some root))
              (drawEdge RootGraph root []) root Hc) as (ops2 & -> & He2).
  { by apply plain_leaves_no_edges. }
  unfold buildCluster. rewrite Hlp. cbn [parent_edge result_bind].
  rewrite plain_leaves_Ok by exact Hall. cbn [result_bind].
  eexists. split; [reflexivity|].
  rewrite app_nil_l. cbn [edges_of omap list_omap].
  fold (edges_of (map_next (fun sub nxt =>
    leaf_op (ClusterGraph (getNodeName (AgentNode root))) [] sub ::
    [drawEdge RootGraph root [] (agent_name sub)
       (agent_name match nxt with Some n => n | None => default sub (head (subAgents root)) end)])
    (subAgents root) ++ ops2)).
  rewrite edges_of_app, He2, app_nil_r, edges_of_map_next.
  destruct (subAgents root) as [|s0 subs] eqn:Es; [done|].
  rewrite <- Es.
  rewrite (map_next_ext _ (fun x n => edges_of [drawEdge RootGraph root [] (agent_name x)
             (agent_name (match n with Some m => m | None => s0 end))])).
  2:{ intros x [m|]; by rewrite ?Es. }
  rewrite map_next_cycle by (done || by rewrite Es). rewrite Es.
  unfold cycle. cbn [map]. destruct (last (agent_name s0 :: map agent_name subs)) eqn:El.
  - done.
  - by rewrite last_cons in El; destruct (last (map agent_name subs)).
Qed.

Lemma node_count_app a b : node_count (a ++ b) = node_count a + node_count b.
Proof. unfold node_count. by rewrite List.filter_app, length_app. Qed.

Lemma buildGraph_nest d leaf hl : plain_leaf leaf = true -> forall g p,
  exists ops, buildGraph g (nest d leaf) hl p = Ok ops /\ node_count ops = 2 ^ d.
Proof.
  intros Hleaf. induction d as [|d IH]; intros g p.
  - cbn [nest]. rewrite (plain_leaf_graph g leaf hl p Hleaf). by eexists.
  - cbn [nest]. rewrite buildGraph_cluster by done.
    destruct (IH (ClusterGraph (getNodeName (AgentNode (mkAgent "nested" SequentialAgentK [nest d leaf])))) (Some (mkAgent "nested" SequentialAgentK [nest d leaf])))
      as (o1 & H1 & C1).
    destruct (IH g (Some (mkAgent "nested" SequentialAgentK [nest d leaf]))) as (o2 & H2 & C2).
    unfold buildCluster, drawSubAgents. cbn -[buildGraph getNodeName].
    rewrite H1, H2. cbn -[getNodeName].
    destruct p; cbn -[getNodeName]; eexists; (split; [reflexivity|]);
      rewrite ?app_nil_r; unfold node_count in *; cbn [List.filter];
      rewrite ?andb_false_r, ?List.filter_app, ?length_app; simpl;
      rewrite ?app_nil_r, ?List.filter_app, ?length_app; lia.
Qed.

(** C6. The sub-agents of a cluster agent are traversed twice: once inside
    the cluster and once more by [buildGraph]'s own loop over
    [rootAgent.subAgents].  So the innermost agent of [d] nested Sequential
    agents is drawn [2 ^ d] times, and the work grows exponentially with
    the nesting depth. *)
Theorem getAgentGraph_nested_nodes d leaf hl :
  plain_leaf leaf = true ->
  exists ops, getAgentGraph (nest d leaf) hl = Ok ops /\ node_count ops = 2 ^ d.
Proof. intros H. apply (buildGraph_nest d leaf hl H). Qed.

(** ** Witnesses *)

Lemma getAgentGraph_sequential_chain_witness :
  let root := mkAgent "sequentialAgent" SequentialAgentK [llm_agent "agent1"; llm_agent "agent2"] in
  is_sequential root = true /\ Forall (fun a => plain_leaf a = true) (subAgents root) /\
  exists ops, getAgentGraph root [] = Ok ops /\ edges_of ops = chain (map agent_name (subAgents root)).
Proof.
  intros root. assert (H : Forall (fun a => plain_leaf a = true) (subAgents root)) by (repeat constructor).
  split; [reflexivity|]. split; [exact H|]. apply getAgentGraph_sequential_chain; [reflexivity|exact H].
Defined.

Lemma getAgentGraph_loop_cycle_witness :
  let root := mkAgent "loopAgent" (LoopAgentK (Some 5)) [llm_agent "agent1"; llm_agent "agent2"] in
  is_loop root = true /\ Forall (fun a => plain_leaf a = true) (subAgents root) /\
  exists ops, getAgentGraph root [] = Ok ops /\ edges_of ops = cycle (map agent_name (subAgents root)).
Proof.
  intros root. assert (H : Forall (fun a => plain_leaf a = true) (subAgents root)) by (repeat constructor).
  split; [reflexivity|]. split; [exact H|]. apply getAgentGraph_loop_cycle; [reflexivity|exact H].
Defined.

Lemma getAgentGraph_nested_nodes_witness :
  plain_leaf (llm_agent "agent1") = true /\
  exists ops, getAgentGraph (nest 3 (llm_agent "agent1")) [] = Ok ops /\ node_count ops = 2 ^ 3.
Proof. split; [reflexivity|]. apply getAgentGraph_nested_nodes. reflexivity. Defined.
