(* ===== verification/SampleTools.v ===== *)
(** * The function tools of the sample agents

    Sources: [src/unnamed/part_001] (the samples of [dev/samples]: the
    [roll_dice] and [check_prime] tools at lines 31-90, the
    [get_weather_temperature] tool at lines 128-144) and
    [src/dev/samples/loop_agent.ts] (the [get_temperature] and
    [notify_user] tools at lines 9-39).

    A tool's [execute] is a function of its arguments.  Numbers are the
    integers the schemas' descriptions ask for ([Z]); the value of
    [Math.random()] is an argument [r : Q] with [0 <= r < 1], and the
    arithmetic on it is exact (floating-point rounding is not modelled).
    [Math.floor(number ** 0.5)] is [Z.sqrt]; the theorem on the primality
    loop holds for any bound between [Z.sqrt n] and [n - 2], so an error of
    one in the floating-point square root does not change it.  The
    [Set<number>] of [check_prime] is a duplicate-free list in insertion
    order. *)

From S2P Require Import Prelude.
From Stdlib Require Import ZArith Znumtheory QArith Qround Lia.
From stdpp Require Import pretty sets.

#[local] Set Warnings "-deprecated,-clear-no-such-hyp".


#[global] Instance prime_decision (n : Z) : Decision (prime n) := prime_dec n.

(** ** [check_prime] (part_001, lines 55-90) *)

Section CheckPrime.
Local Open Scope Z_scope.

(** [primes.add(number)] on a [Set]. *)
Definition set_add (s : list Z) (x : Z) : list Z :=
  if bool_decide (x ∈ s) then s else s ++ [x].

(** [for (let i = start; i <= ...; i++) if (number % i === 0) {isPrime =
    false; break;}] with [k] iterations left. *)
Fixpoint trial_division (n i : Z) (k : nat) : bool :=
  match k with
  | O => true
  | S k' => if n mod i =? 0 then false else trial_division n (i + 1) k'
  end.

(** [Math.floor(number ** 0.5) + 1], the loop's last [i]. *)
Definition loop_bound (n : Z) : Z := Z.sqrt n + 1.

(** The inner loop: [i] runs from 2 to [loop_bound n]. *)
Definition isPrime_loop (n : Z) : bool :=
  trial_division n 2 (Z.to_nat (loop_bound n - 1)).

(** One iteration of the outer loop over [numbers]. *)
Definition check_prime_step (primes : list Z) (number : Z) : list Z :=
  if number <=? 1 then primes
  else if number =? 2 then set_add primes number
  else if isPrime_loop number then set_add primes number
  else primes.

Definition check_prime_primes (numbers : list Z) : list Z :=
  fold_left check_prime_step numbers [].

(** [Array.prototype.join]. *)
Definition join (sep : string) (l : list string) : string :=
  match l with
  | [] => ""
  | x :: l' => (x ++ str_concat (map (fun s => sep ++ s) l'))%string
  end.

(** The tool's [execute] (lines 61-89). *)
Definition check_prime (numbers : list Z) : string :=
  match check_prime_primes numbers with
  | [] => "No prime numbers found."
  | primes => (join ", " (map pretty primes) ++ " are prime numbers.")%string
  end.

End CheckPrime.

(** ** The random tools *)

Section RandomTools.
Local Open Scope Q_scope.

(** [getRandomIntInclusive(min, max)] with [Math.random()] = [r]
    (part_001, lines 31-33). *)
Definition getRandomIntInclusive (r : Q) (min max : Z) : Z :=
  (Qfloor (r * inject_Z (max - min + 1)) + min)%Z.

(** [roll_dice] (lines 35-44). *)
Definition roll_dice (r : Q) (sides : Z) : Z := getRandomIntInclusive r 1 sides.

(** [getRandomArbitrary(min, max)] (part_001 lines 128-130; loop_agent.ts
    lines 9-11). *)
Definition getRandomArbitrary (r min max : Q) : Q := r * (max - min) + min.

(** The temperature of [get_weather_temperature] (lines 139-143). *)
Definition weather_temperature (r : Q) : Z := Qfloor (getRandomArbitrary r 15 35).

Definition get_weather_temperature (r : Q) (city : string) : string :=
  ("Temperature in " ++ city ++ " is " ++ pretty (weather_temperature r) ++ " Celsius.")%string.

(** [get_temperature] of the loop sample (loop_agent.ts lines 13-25),
    without its two-second delay and its log line. *)
Definition get_temperature (r : Q) : Q := getRandomArbitrary r 30 40.

End RandomTools.

(** ** The primality loop *)

Section CheckPrimeProofs.
Local Open Scope Z_scope.

Lemma trial_division_spec n i k :
  trial_division n i k = true <-> forall j, i <= j < i + Z.of_nat k -> n mod j <> 0.
Proof.
  revert i. induction k as [|k IH]; intros i; simpl.
  - split; [lia|done].
  - destruct (Z.eqb_spec (n mod i) 0) as [E|E].
    + split; [discriminate|]. intros H. exfalso. apply (H i); [lia|done].
    + rewrite IH. split; intros H j Hj.
      * destruct (Z.eq_dec j i) as [->|]; [done|]. apply H. lia.
      * apply H. lia.
Qed.

Lemma sqrt_bound_lt n : 3 <= n -> Z.sqrt n + 1 < n.
Proof.
  intros Hn. pose proof (Z.sqrt_spec n ltac:(lia)) as [H1 H2].
  pose proof (Z.sqrt_nonneg n). nia.
Qed.

(** A number that is not prime has a divisor no larger than its square
    root plus one. *)
Lemma small_divisor n :
  3 <= n -> ~ prime n -> exists j, 2 <= j <= Z.sqrt n + 1 /\ n mod j = 0.
Proof.
  intros Hn Hnp. pose proof (Z.sqrt_spec n ltac:(lia)) as [Hs1 Hs2].
  pose proof (Z.sqrt_nonneg n).
  destruct (not_prime_divide n ltac:(lia) Hnp) as (d & Hd & [e He]).
  destruct (Z_le_gt_dec d (Z.sqrt n + 1)).
  - exists d. split; [lia|]. apply Z.mod_divide; [lia|]. by exists e.
  - exists e. split; [nia|]. apply Z.mod_divide; [nia|]. exists d. lia.
Qed.

Lemma isPrime_loop_spec n : 3 <= n -> isPrime_loop n = true <-> prime n.
Proof.
  intros Hn. unfold isPrime_loop, loop_bound. rewrite trial_division_spec.
  pose proof (Z.sqrt_nonneg n). rewrite Z2Nat.id by lia.
  split.
  - intros Hd. destruct (prime_dec n) as [|Hnp]; [done|exfalso].
    destruct (small_divisor n Hn Hnp) as (j & Hj & Hm). by apply (Hd j); [lia|].
  - intros Hp j Hj Hm. apply Z.mod_divide in Hm; [|lia].
    pose proof (sqrt_bound_lt n Hn).
    destruct (prime_divisors n Hp j Hm) as [?|[?|[?|?]]]; lia.
Qed.

(** One step of the outer loop adds exactly the primes. *)
Lemma check_prime_step_spec s n :
  check_prime_step s n = if bool_decide (prime n) then set_add s n else s.
Proof.
  unfold check_prime_step. destruct (Z.leb_spec n 1).
  - rewrite bool_decide_false; [done|]. intros Hp%prime_ge_2. lia.
  - destruct (Z.eqb_spec n 2) as [->|Hn2].
    + by rewrite bool_decide_true by exact prime_2.
    + destruct (isPrime_loop n) eqn:E.
      * rewrite bool_decide_true; [done|]. apply isPrime_loop_spec; [lia|done].
      * rewrite bool_decide_false; [done|]. intros Hp.
        apply (isPrime_loop_spec n) in Hp; [congruence|lia].
Qed.

Lemma set_add_elem s x y : y ∈ set_add s x <-> y ∈ s \/ y = x.
Proof.
  unfold set_add. case_bool_decide; set_solver.
Qed.

Lemma set_add_NoDup s x : NoDup s -> NoDup (set_add s x).
Proof.
  unfold set_add. case_bool_decide; [done|]. intros Hs.
  apply NoDup_app. split; [done|]. split; [|apply NoDup_singleton].
  set_solver.
Qed.

Lemma fold_primes_spec ns s :
  (forall x, x ∈ fold_left check_prime_step ns s <-> x ∈ s \/ (x ∈ ns /\ prime x)) /\
  (NoDup s -> NoDup (fold_left check_prime_step ns s)).
Proof.
  revert s. induction ns as [|n ns IH]; intros s; simpl.
  - split; [|done]. intros x. split; [by left|]. intros [?|[?%elem_of_nil _]]; done.
  - rewrite check_prime_step_spec. destruct (IH (if bool_decide (prime n) then set_add s n else s))
      as [Hm Hn]. split.
    + intros x. rewrite Hm, elem_of_cons.
      case_bool_decide; [rewrite set_add_elem|]; naive_solver.
    + intros Hs. apply Hn. case_bool_decide; [by apply set_add_NoDup|done].
Qed.

End CheckPrimeProofs.

Lemma are_prime_ne a : (a ++ " are prime numbers.")%string <> "No prime numbers found.".
Proof.
  intros H. repeat (destruct a as [|? a];
    [rewrite string_app_nil_l in H; congruence
    |rewrite string_app_cons in H; first [discriminate H|injection H as _ H]]).
Qed.

(** C12. [check_prime] collects exactly the prime numbers of its argument,
    each once: its [primes] set holds [x] iff [x] is in [numbers] and
    [x] is prime ([Znumtheory.prime]). *)
Theorem check_prime_primes_spec ns :
  NoDup (check_prime_primes ns) /\
  forall x, x ∈ check_prime_primes ns <-> x ∈ ns /\ prime x.
Proof.
  destruct (fold_primes_spec ns []) as [Hm Hn]. split; [by apply Hn, NoDup_nil|].
  intros x. unfold check_prime_primes. rewrite Hm. set_solver.
Qed.

(** [check_prime] answers "No prime numbers found." exactly when no
    number of its argument is prime. *)
Theorem check_prime_none ns :
  check_prime ns = "No prime numbers found." <-> Forall (fun n => ~ prime n) ns.
Proof.
  destruct (check_prime_primes_spec ns) as [_ Hm]. unfold check_prime.
  destruct (check_prime_primes ns) as [|z l] eqn:E.
  - split; [|done]. intros _. apply Forall_forall. intros x Hx Hp.
    pose proof (proj2 (Hm x) (conj Hx Hp)). set_solver.
  - split; [intros H; by apply are_prime_ne in H|].
    intros HF. exfalso. destruct (proj1 (Hm z) ltac:(set_solver)) as [Hz Hp].
    by apply (proj1 (Forall_forall _ _) HF z Hz).
Qed.

(** ** The random tools *)

Section RandomProofs.
Local Open Scope Q_scope.

Lemma Qfloor_mul_range r s :
  0 <= r < 1 -> (1 <= s)%Z -> (0 <= Qfloor (r * inject_Z s) < s)%Z.
Proof.
  destruct r as [rn rd]. unfold Qle, Qlt. simpl. intros [H0 H1] Hs.
  rewrite Pos.mul_1_r. split; [apply Z.div_pos; nia|]. apply Z.div_lt_upper_bound; nia.
Qed.

Lemma Qfloor_shift x z : Qfloor (x + inject_Z z) = (Qfloor x + z)%Z.
Proof.
  destruct x as [a b]. unfold Qplus, Qfloor. simpl.
  rewrite Pos.mul_1_r, Z.mul_1_r. apply Z.div_add. lia.
Qed.

(** [Math.floor(k / s * s)] for the rational [(k - 1) / s]. *)
Lemma Qfloor_hit k s : (1 <= s)%Z -> Qfloor (Qmake k (Z.to_pos s) * inject_Z s) = k.
Proof.
  intros Hs. unfold Qfloor. simpl. rewrite Pos.mul_1_r, Z2Pos.id by lia.
  apply Z.div_mul. lia.
Qed.

Lemma Qmake_unit k s : (1 <= s)%Z -> (0 <= k < s)%Z -> 0 <= Qmake k (Z.to_pos s) < 1.
Proof. intros Hs Hk. unfold Qle, Qlt. simpl. rewrite Z2Pos.id by lia. lia. Qed.

Lemma roll_dice_range r sides :
  0 <= r < 1 -> (1 <= sides)%Z -> (1 <= roll_dice r sides <= sides)%Z.
Proof.
  intros Hr Hs. unfold roll_dice, getRandomIntInclusive.
  replace (sides - 1 + 1)%Z with sides by lia.
  pose proof (Qfloor_mul_range r sides Hr Hs). lia.
Qed.

Lemma get_temperature_range r : 0 <= r < 1 -> 30 <= get_temperature r < 40.
Proof.
  unfold get_temperature, getRandomArbitrary. destruct r as [rn rd].
  unfold Qle, Qlt, Qplus, Qmult, Qminus, Qopp. simpl. intros [H0 H1]. split; nia.
Qed.

(** C13. For a die with at least one side, the values [roll_dice] takes
    over [Math.random()] in [[0, 1)] are exactly [1 .. sides]. *)
Theorem roll_dice_support sides k :
  (1 <= sides)%Z ->
  (exists r, 0 <= r < 1 /\ roll_dice r sides = k) <-> (1 <= k <= sides)%Z.
Proof.
  intros Hs. unfold roll_dice, getRandomIntInclusive.
  replace (sides - 1 + 1)%Z with sides by lia. split.
  - intros (r & Hr & <-). pose proof (Qfloor_mul_range r sides Hr Hs). lia.
  - intros Hk. exists (Qmake (k - 1) (Z.to_pos sides)).
    split; [apply Qmake_unit; lia|]. rewrite Qfloor_hit by lia. lia.
Qed.

(** C14. [roll_dice] does not check its argument.  For a die with no
    side or a negative number of sides, the values it takes over
    [Math.random()] in [[0, 1)] are exactly [sides + 1 .. 1].  None of
    them is a face of the die, since [1 .. sides] is empty, and [1] is
    always one of them. *)
Theorem roll_dice_nonpositive_support sides k :
  (sides <= 0)%Z ->
  (exists r, (0 <= r < 1)%Q /\ roll_dice r sides = k) <-> (sides + 1 <= k <= 1)%Z.
Proof.
  intros Hs. unfold roll_dice, getRandomIntInclusive.
  replace (sides - 1 + 1)%Z with sides by lia. split.
  - intros ([rn rd] & Hr & <-). unfold Qle, Qlt in Hr. simpl in Hr.
    unfold Qfloor. simpl. rewrite Pos.mul_1_r.
    assert (sides <= rn * sides / Z.pos rd)%Z by (apply Z.div_le_lower_bound; nia).
    assert (rn * sides / Z.pos rd <= 0)%Z by (apply Z.div_le_upper_bound; nia). lia.
  - intros Hk. destruct (Z.eq_dec k 1%Z) as [->|Hk1].
    + exists 0%Q. split; [unfold Qle, Qlt; simpl; lia|]. reflexivity.
    + exists (Qmake (-2 * (k - 1) - 1)%Z (Z.to_pos (-2 * sides)%Z)).
      split; [unfold Qle, Qlt; simpl; rewrite Z2Pos.id by lia; lia|].
      unfold Qfloor. simpl. rewrite Pos.mul_1_r, Z2Pos.id by lia.
      rewrite <- (Z.div_unique _ _ (k - 1) (- sides)%Z); [lia|lia|nia].
Qed.

Lemma weather_temperature_floor r : weather_temperature r = (Qfloor (r * inject_Z 20) + 15)%Z.
Proof.
  unfold weather_temperature, getRandomArbitrary.
  change (Qfloor (r * inject_Z 20 + inject_Z 15) = (Qfloor (r * inject_Z 20) + 15)%Z).
  apply Qfloor_shift.
Qed.

(** The temperatures [get_weather_temperature] reports are exactly
    the integers 15 to 34. *)
Theorem weather_temperature_support t :
  (exists r, 0 <= r < 1 /\ weather_temperature r = t) <-> (15 <= t <= 34)%Z.
Proof.
  split.
  - intros (r & Hr & <-). rewrite weather_temperature_floor.
    pose proof (Qfloor_mul_range r 20 Hr ltac:(lia)). lia.
  - intros Ht. exists (Qmake (t - 15) (Z.to_pos 20)).
    split; [apply Qmake_unit; lia|]. rewrite weather_temperature_floor, Qfloor_hit by lia. lia.
Qed.

End RandomProofs.

(** ** Witnesses *)

Example check_prime_sample :
  check_prime [1; 2; 3; 4; 5; 9; 3; 97]%Z = "2, 3, 5, 97 are prime numbers.".
Proof. vm_compute. reflexivity. Qed.

Lemma roll_dice_support_witness :
  (1 <= 6)%Z /\ ((exists r, (0 <= r < 1)%Q /\ roll_dice r 6 = 4%Z) <-> (1 <= 4 <= 6)%Z).
Proof. split; [lia|]. apply roll_dice_support. lia. Defined.

Lemma roll_dice_nonpositive_support_witness :
  (-3 <= 0)%Z /\ ((exists r, (0 <= r < 1)%Q /\ roll_dice r (-3) = (-1)%Z) <-> (-3 + 1 <= -1 <= 1)%Z).
Proof. split; [lia|]. apply roll_dice_nonpositive_support. lia. Defined.
