(* ===== verification/Session.v ===== *)
(** * Events, state and the session service

    Modelled from [spec.md] §3, §4.1 and §6 (the session service of
    [@paean-ai/adk] is not under [src/]).  State is a [gmap] from keys to
    JSON values; an event carries an optional content (the
    [GeminiStream.Content] records) and a state delta; appending an event
    to a session applies its delta, last write winning.

    The session service is an interface, the class [SessionService], with
    its laws in [SessionServiceLaws]; the front end ([Cli]) and the
    [Runner] are proved against it.  Its operations are those of §6:
    create, get, append, delete and list.  [InMemory] is an implementation
    (the [InMemorySessionService] the CLI uses by default) that discharges
    the laws; its store keeps every session at its own key
    ([wf_store]), an invariant all its operations preserve. *)

From S2P Require Import Prelude GeminiStream.
From stdpp Require Import gmap pretty.

(** ** Data *)

(** The JSON values of a session state ([Record<string, unknown>]). *)
Inductive Value :=
  | VString (s : string)
  | VNumber (z : Z)
  | VBool (b : bool)
  | VNull.

#[global] Instance Value_eq_dec : EqDecision Value.
Proof. solve_decision. Defined.

Abbreviation State := (gmap string Value).

Record Event := mkEvent {
  ev_invocationId : string;
  ev_author : string;
  ev_branch : option string;
  ev_content : option Content;
  ev_stateDelta : State;
  ev_escalate : bool
}.

Record Session := mkSession {
  s_id : string;
  s_appName : string;
  s_userId : string;
  s_state : State;
  s_events : list Event
}.

(** ** The state algebra (spec §4.1) *)

(** [applyDelta(state, delta)]: every key of the delta overwrites. *)
Definition applyDelta (st delta : State) : State := delta ∪ st.

(** The left fold of the deltas of [es] from [st]. *)
Definition fold_from (st : State) (es : list Event) : State :=
  foldl (fun acc e => applyDelta acc (ev_stateDelta e)) st es.

(** [fold(events)], from the empty state. *)
Definition replay (es : list Event) : State := fold_from ∅ es.

(** Appending an event to a session (spec §6 [append]). *)
Definition session_append (s : Session) (e : Event) : Session :=
  mkSession (s_id s) (s_appName s) (s_userId s)
    (applyDelta (s_state s) (ev_stateDelta e)) (s_events s ++ [e]).

(** Appending a list of events one at a time. *)
Definition session_append_all (s : Session) (es : list Event) : Session :=
  foldl session_append s es.

(** A session whose state is the replay of its own log. *)
Definition replayable (s : Session) : Prop := s_state s = replay (s_events s).

(** ** The session service interface (spec §6) *)

Class SessionService (Svc : Type) := {
  createSession : Svc -> string -> string -> option string -> State -> Svc * Session;
  getSession : Svc -> string -> string -> string -> option Session;
  appendEvent : Svc -> Session -> Event -> Svc * Session;
  deleteSession : Svc -> string -> string -> string -> Svc;
  listSessions : Svc -> string -> string -> list Session
}.

(** The id a caller asks for: [sessionId || randomUUID()] draws a fresh
    one for an absent or empty [sessionId]. *)
Definition given_id (sessionId : option string) : option string :=
  match sessionId with Some (String c s) => Some (String c s) | _ => None end.

(** The key of a session. *)
Definition session_key (s : Session) : string * string * string :=
  (s_appName s, s_userId s, s_id s).

Definition lookup_session `{SessionService Svc} (svc : Svc) (k : string * string * string) :=
  getSession svc k.1.1 k.1.2 k.2.

Class SessionServiceLaws (Svc : Type) `{SessionService Svc} := {
  (** A created session is empty, holds the given state, has the given
      id or else one not in use, and is stored; other sessions are
      unchanged. *)
  create_spec svc app user sid st :
    let '(svc', s) := createSession svc app user sid st in
    s_appName s = app /\ s_userId s = user /\ s_state s = st /\ s_events s = [] /\
    match given_id sid with
    | Some id => s_id s = id
    | None => lookup_session svc (session_key s) = None
    end /\
    lookup_session svc' (session_key s) = Some s /\
    (forall k, k <> session_key s -> lookup_session svc' k = lookup_session svc k);
  (** Appending to a stored session stores and returns the appended session
      and leaves the others unchanged. *)
  append_spec svc s e :
    lookup_session svc (session_key s) = Some s ->
    let '(svc', s') := appendEvent svc s e in
    s' = session_append s e /\ lookup_session svc' (session_key s) = Some s' /\
    (forall k, k <> session_key s -> lookup_session svc' k = lookup_session svc k);
  (** A deleted session is gone; the others are unchanged. *)
  delete_spec svc app user id :
    lookup_session (deleteSession svc app user id) (app, user, id) = None /\
    (forall k, k <> (app, user, id) ->
       lookup_session (deleteSession svc app user id) k = lookup_session svc k);
  (** The list of a user's sessions holds exactly the user's stored
      sessions. *)
  list_spec svc app user s :
    s ∈ listSessions svc app user <-> exists id, lookup_session svc (app, user, id) = Some s
}.

(** [for (const event of events) await sessionService.appendEvent({session,
    event})]: the caller keeps the session object each call returns. *)
Fixpoint append_events `{SessionService Svc} (svc : Svc) (s : Session) (es : list Event)
    : Svc * Session :=
  match es with
  | [] => (svc, s)
  | e :: es' => let '(svc1, s1) := appendEvent svc s e in append_events svc1 s1 es'
  end.

(** ** The in-memory implementation *)

Module InMemory.

(** The sessions by [(appName, userId, id)]. *)
Abbreviation Store := (gmap (string * string * string) Session).

(** The ids in use; [randomUUID()] is a fresh one. *)
Definition used_ids (st : Store) : gset string := set_map (fun k => k.2) (dom st).

Definition create (st : Store) (app user : string) (sessionId : option string)
    (state : State) : Store * Session :=
  let id := match given_id sessionId with Some id => id | None => fresh (used_ids st) end in
  let s := mkSession id app user state [] in
  (<[session_key s := s]> st, s).

Definition get (st : Store) (app user id : string) : option Session := st !! (app, user, id).

(** The event goes to the stored session and to the caller's object. *)
Definition append (st : Store) (s : Session) (e : Event) : Store * Session :=
  match st !! session_key s with
  | Some stored => (<[session_key s := session_append stored e]> st, session_append s e)
  | None => (st, session_append s e)
  end.

Definition delete (st : Store) (app user id : string) : Store := base.delete (app, user, id) st.

(** The stored sessions of [(app, user)]. *)
Definition list (st : Store) (app user : string) : list Session :=
  (map_to_list (filter (fun kv => kv.1.1 = (app, user)) st)).*2.

(** Every stored session sits at its own key. *)
Definition wf_store (st : Store) : Prop := map_Forall (fun k s => session_key s = k) st.

End InMemory.

#[global] Instance InMemory_service : SessionService InMemory.Store := {
  createSession := InMemory.create;
  getSession := InMemory.get;
  appendEvent := InMemory.append;
  deleteSession := InMemory.delete;
  listSessions := InMemory.list
}.

(** ** The state algebra *)

Lemma fold_from_app st es1 es2 : fold_from st (es1 ++ es2) = fold_from (fold_from st es1) es2.
Proof. unfold fold_from. by rewrite foldl_app. Qed.

Lemma fold_from_snoc st es e :
  fold_from st (es ++ [e]) = applyDelta (fold_from st es) (ev_stateDelta e).
Proof. by rewrite fold_from_app. Qed.

(** Folding from any state overlays the replay on it. *)
Lemma fold_from_replay st es : fold_from st es = replay es ∪ st.
Proof.
  induction es as [|e es IH] using rev_ind; unfold replay in *.
  - unfold fold_from. simpl. by rewrite map_empty_union.
  - rewrite !fold_from_snoc, IH. unfold applyDelta. by rewrite map_union_assoc.
Qed.

Lemma session_append_all_fields s es :
  let s' := session_append_all s es in
  s_id s' = s_id s /\ s_appName s' = s_appName s /\ s_userId s' = s_userId s /\
  s_state s' = fold_from (s_state s) es /\ s_events s' = s_events s ++ es.
Proof.
  revert s. induction es as [|e es IH]; intros s; simpl.
  - by rewrite app_nil_r.
  - destruct (IH (session_append s e)) as (-> & -> & -> & -> & ->). simpl.
    by rewrite <- app_assoc.
Qed.

#[export] Hint Rewrite fold_from_app fold_from_snoc : adk_rw.

(** ** The in-memory service satisfies the laws *)

Lemma InMemory_fresh_key (st : InMemory.Store) app user :
  st !! (app, user, fresh (InMemory.used_ids st)) = None.
Proof.
  apply not_elem_of_dom. set (i := fresh (InMemory.used_ids st)). intros Hin.
  apply (is_fresh (InMemory.used_ids st)). change (i ∈ InMemory.used_ids st).
  unfold InMemory.used_ids. apply elem_of_map. exists (app, user, i). split; [reflexivity|exact Hin].
Qed.

#[global] Instance InMemory_laws : SessionServiceLaws InMemory.Store.
Proof.
  split.
  - intros st app user sid state. cbn [createSession InMemory_service]. unfold InMemory.create.
    pose proof (InMemory_fresh_key st app user) as Hf.
    set (i := fresh (InMemory.used_ids st)) in *.
    unfold lookup_session, session_key. cbn [getSession InMemory_service s_appName s_userId s_id
      s_state s_events fst snd]. unfold InMemory.get.
    split_and!; try reflexivity.
    + by destruct (given_id sid).
    + apply lookup_insert_eq.
    + intros [[a u] i'] Hne. cbn [fst snd]. by rewrite lookup_insert_ne.
  - intros st s e. unfold lookup_session. cbn [getSession appendEvent InMemory_service].
    unfold InMemory.get, InMemory.append.
    destruct (session_key s) as [[a u] i] eqn:Ek. cbn [fst snd]. intros Hs. rewrite Hs.
    split_and!; [reflexivity|apply lookup_insert_eq|].
    intros [[a' u'] i'] Hne. cbn [fst snd]. by rewrite lookup_insert_ne.
  - intros st app user id. unfold lookup_session. cbn [getSession deleteSession InMemory_service].
    unfold InMemory.get, InMemory.delete. split; [apply lookup_delete_eq|].
    intros [[a u] i] Hne. cbn [fst snd]. by rewrite lookup_delete_ne.
  - intros st app user s. unfold lookup_session. cbn [getSession listSessions InMemory_service].
    unfold InMemory.get, InMemory.list. rewrite list_elem_of_fmap. split.
    + intros [[k s'] [-> Hk]]. apply elem_of_map_to_list, map_lookup_filter_Some in Hk as [Hk Hp].
      destruct k as [[a u] i]. simpl in *. simplify_eq. by exists i.
    + intros [i Hi]. exists ((app, user, i), s). split; [done|].
      apply elem_of_map_to_list, map_lookup_filter_Some. by split.
Qed.

(** ** Properties of the state algebra and of any session service *)

Lemma session_key_append s e : session_key (session_append s e) = session_key s.
Proof. done. Qed.

(** The store invariant holds of the empty store and is kept by every
    operation that changes the store. *)
Lemma InMemory_wf_create st app user sid state :
  InMemory.wf_store st -> InMemory.wf_store (InMemory.create st app user sid state).1.
Proof. intros Hwf. unfold InMemory.create. simpl. by apply map_Forall_insert_2. Qed.

Lemma InMemory_wf_append st s e :
  InMemory.wf_store st -> InMemory.wf_store (InMemory.append st s e).1.
Proof.
  intros Hwf. unfold InMemory.append. destruct (st !! session_key s) as [stored|] eqn:E; [|done].
  simpl. apply map_Forall_insert_2; [|done]. rewrite session_key_append. exact (Hwf _ _ E).
Qed.

Lemma InMemory_wf_delete st app user id :
  InMemory.wf_store st -> InMemory.wf_store (InMemory.delete st app user id).
Proof. intros Hwf. by apply map_Forall_delete. Qed.

Section Laws.
Context `{SessionServiceLaws Svc}.

Lemma append_events_spec svc s es :
  lookup_session svc (session_key s) = Some s ->
  let '(svc', s') := append_events svc s es in
  s' = session_append_all s es /\ lookup_session svc' (session_key s) = Some s' /\
  (forall k, k <> session_key s -> lookup_session svc' k = lookup_session svc k).
Proof.
  revert svc s. induction es as [|e es IH]; intros svc s Hs; simpl; [done|].
  pose proof (append_spec svc s e Hs) as Ha.
  destruct (appendEvent svc s e) as [svc1 s1]. destruct Ha as (-> & Hs1 & Ho1).
  pose proof (IH svc1 (session_append s e) Hs1) as Hr.
  destruct (append_events svc1 _ es) as [svc2 s2]. destruct Hr as (-> & Hs2 & Ho2).
  split_and!; [reflexivity|exact Hs2|]. intros k Hk. rewrite (Ho2 k Hk). by apply Ho1.
Qed.

(** A session created with a non-empty id is stored under it. *)
Lemma create_given_get svc app user id st :
  given_id (Some id) = Some id ->
  let '(svc', s) := createSession svc app user (Some id) st in
  getSession svc' app user id = Some s /\ s_id s = id /\ s_appName s = app /\ s_userId s = user.
Proof.
  intros Hg. pose proof (create_spec svc app user (Some id) st) as Hc.
  destruct (createSession svc app user (Some id) st) as [svc' s].
  destruct Hc as (Ha & Hu & _ & _ & Hid & Hs & _). rewrite Hg in Hid.
  unfold lookup_session, session_key in Hs. rewrite Ha, Hu, Hid in Hs. by split_and!.
Qed.

Lemma delete_get svc app user id : getSession (deleteSession svc app user id) app user id = None.
Proof. exact (proj1 (delete_spec svc app user id)). Qed.

(** A service that holds no session lists none. *)
Lemma list_sessions_empty svc app user :
  (forall k, lookup_session svc k = None) -> listSessions svc app user = [].
Proof.
  intros He. destruct (listSessions svc app user) as [|s l] eqn:E; [done|].
  assert (s ∈ listSessions svc app user) as Hs by (rewrite E; left).
  apply list_spec in Hs as [id Hid]. by rewrite He in Hid.
Qed.

(** Through any session service that satisfies the laws, a session
    created with state [st] to which [es] is appended event by event is
    stored with the log [es] and the state [replay es ∪ st]: the state the
    incremental appends build is the replay of the log laid over the
    initial state, which the log does not record. *)
Theorem service_state_replay svc app user sid st es :
  let '(svc1, s) := createSession svc app user sid st in
  let '(svc2, s2) := append_events svc1 s es in
  lookup_session svc2 (session_key s) = Some s2 /\ s_events s2 = es /\
  s_state s2 = replay es ∪ st.
Proof.
  pose proof (create_spec svc app user sid st) as Hc.
  destruct (createSession svc app user sid st) as [svc1 s].
  destruct Hc as (_ & _ & Hst & Hev & _ & Hs & _).
  pose proof (append_events_spec svc1 s es Hs) as Ha.
  destruct (append_events svc1 s es) as [svc2 s2]. destruct Ha as (-> & Hs2 & _).
  destruct (session_append_all_fields s es) as (_ & _ & _ & Hst' & Hev').
  split_and!; [done|by rewrite Hev', Hev|by rewrite Hst', Hst, fold_from_replay].
Qed.

End Laws.

(** Fold determinism (spec §4.1, §8): appending events one at a time
    to a session whose state is the replay of its log leaves a session
    whose state is the replay of its log. *)
Theorem append_all_replayable s es :
  replayable s -> replayable (session_append_all s es).
Proof.
  unfold replayable. intros Hs.
  destruct (session_append_all_fields s es) as (_ & _ & _ & -> & ->).
  unfold replay. by rewrite Hs, fold_from_app.
Qed.

(** Last writer wins: the replayed state maps [k] to [v] exactly when
    some event writes [v] to [k] and no later event writes [k]. *)
Theorem replay_last_writer es k v :
  replay es !! k = Some v <->
  exists es1 e es2, es = es1 ++ e :: es2 /\ ev_stateDelta e !! k = Some v /\
                    Forall (fun e' => ev_stateDelta e' !! k = None) es2.
Proof.
  induction es as [|e es IH] using rev_ind.
  - split; [unfold replay, fold_from; simpl; by rewrite lookup_empty|].
    intros (es1 & e & es2 & Heq & _). by destruct es1.
  - unfold replay in *. rewrite fold_from_snoc. unfold applyDelta.
    rewrite lookup_union_Some_raw. split.
    + intros [He|[He Hr]].
      * exists es, e, []. split_and!; [done|done|constructor].
      * apply IH in Hr as (es1 & e0 & es2 & -> & Hv & Hf).
        exists es1, e0, (es2 ++ [e]). split_and!; [by rewrite <- app_assoc|done|].
        apply Forall_app. by split; [|constructor].
    + intros (es1 & e0 & es2 & Heq & Hv & Hf).
      destruct es2 as [|x es2] using rev_ind.
      * apply app_inj_tail in Heq as [-> ->]. by left.
      * rewrite app_comm_cons, app_assoc in Heq. apply app_inj_tail in Heq as [-> ->].
        apply Forall_app in Hf as [Hf Hx]. inversion Hx; subst.
        right. split; [done|]. apply IH. by exists es1, e0, es2.
Qed.

(** ** Witnesses *)

Lemma service_state_replay_witness :
  let es := [mkEvent "inv" "agent" None None (<["x" := VNumber 1]> ∅) false] in
  let st := <["_time" := VString "2025-01-01T00:00:00.000Z"]> ∅ in
  let '(svc1, s) := createSession (∅ : InMemory.Store) "app" "user" None st in
  let '(svc2, s2) := append_events svc1 s es in
  lookup_session svc2 (session_key s) = Some s2 /\ s_events s2 = es /\
  s_state s2 = replay es ∪ st.
Proof. intros es st. exact (service_state_replay (∅ : InMemory.Store) "app" "user" None st es). Defined.

Lemma append_all_replayable_witness :
  let s := mkSession "s" "app" "user" ∅ [] in
  let es := [mkEvent "inv" "agent" None None (<["x" := VNumber 1]> ∅) false] in
  replayable s /\ replayable (session_append_all s es).
Proof. intros s es. split; [reflexivity|]. apply append_all_replayable. reflexivity. Defined.
