(* ===== verification/Artifacts.v ===== *)
(** * The artifact service

    Modelled from [spec.md] §3 (Artifact) and §6 (Artifact Service); the
    [InMemoryArtifactService] of [@paean-ai/adk] is not under [src/].  The
    web-server test of [loop_agent.ts] saves artifacts through it and
    reads them back through the server's routes.

    An artifact is a [Part] scoped to (app, user, session, filename); each
    save creates a new version, numbered from 0, and versions are
    immutable once created.  The interface is the class [ArtifactService]
    ([saveArtifact], [loadArtifact], [listArtifactKeys], [listVersions],
    [deleteArtifact]).  Its contract [ArtifactServiceLaws] is a
    refinement: a service has an abstract view, the list of versions of
    each artifact, and every operation acts on the view as §6 says.
    [InMemoryArtifacts] implements it with a [gmap] from keys to version
    lists.  The theorems on any lawful service: versions are immutable
    under any sequence of operations that does not delete the artifact,
    and successive saves return consecutive versions. *)

From S2P Require Import Prelude GeminiStream.
From stdpp Require Import gmap.

(** [{appName, userId, sessionId, filename}] *)
Record ArtifactKey := mkArtifactKey {
  ak_app : string;
  ak_user : string;
  ak_session : string;
  ak_filename : string
}.

#[global] Instance ArtifactKey_eq_dec : EqDecision ArtifactKey.
Proof. solve_decision. Defined.

#[global] Instance ArtifactKey_countable : Countable ArtifactKey.
Proof.
  by apply (inj_countable' (fun k => (ak_app k, ak_user k, ak_session k, ak_filename k))
    (fun t => mkArtifactKey t.1.1.1 t.1.1.2 t.1.2 t.2)); intros [].
Defined.

(** ** The interface (spec §6) *)

Class ArtifactService (Art : Type) := {
  (** [save(...) -> version] *)
  saveArtifact : Art -> ArtifactKey -> Part -> Art * nat;
  (** [load(..., version?) -> blob] *)
  loadArtifact : Art -> ArtifactKey -> option nat -> option Part;
  (** the filenames of a session *)
  listArtifactKeys : Art -> string -> string -> string -> list string;
  listVersions : Art -> ArtifactKey -> list nat;
  deleteArtifact : Art -> ArtifactKey -> Art
}.

(** The contract: every service has a view, the versions of each
    artifact in order, on which the operations act as follows. *)
Class ArtifactServiceLaws (Art : Type) `{ArtifactService Art} := {
  art_view : Art -> ArtifactKey -> list Part;
  (** A save appends a version, numbered by the versions before it;
      other artifacts are unchanged. *)
  art_save_spec a k p :
    let '(a', v) := saveArtifact a k p in
    v = length (art_view a k) /\ art_view a' k = art_view a k ++ [p] /\
    (forall k', k' <> k -> art_view a' k' = art_view a k');
  (** A delete drops every version of one artifact. *)
  art_delete_spec a k :
    art_view (deleteArtifact a k) k = [] /\
    (forall k', k' <> k -> art_view (deleteArtifact a k) k' = art_view a k');
  (** Without a version, the latest; with one, that version. *)
  art_load_latest a k : loadArtifact a k None = last (art_view a k);
  art_load_version a k v : loadArtifact a k (Some v) = art_view a k !! v;
  art_versions_spec a k : listVersions a k = seq 0 (length (art_view a k));
  (** The keys of a session are the filenames with a version. *)
  art_keys_spec a app user sid f :
    f ∈ listArtifactKeys a app user sid <-> art_view a (mkArtifactKey app user sid f) <> []
}.

(** ** The in-memory implementation *)

Module InMemoryArtifacts.

(** [artifacts: Record<string, Part[]>], keyed by the artifact path. *)
Abbreviation Store := (gmap ArtifactKey (list Part)).

(** [this.artifacts[path]], [[]] when absent. *)
Definition versions (st : Store) (k : ArtifactKey) : list Part := default [] (st !! k).

(** [version = artifacts.length; artifacts.push(artifact)] *)
Definition save (st : Store) (k : ArtifactKey) (p : Part) : Store * nat :=
  (<[k := versions st k ++ [p]]> st, length (versions st k)).

(** [version ?? artifacts.length - 1], then [artifacts[version]]. *)
Definition load (st : Store) (k : ArtifactKey) (version : option nat) : option Part :=
  match version with
  | None => last (versions st k)
  | Some v => versions st k !! v
  end.

Definition in_session (app user sid : string) (kv : ArtifactKey * list Part) : Prop :=
  ak_app kv.1 = app /\ ak_user kv.1 = user /\ ak_session kv.1 = sid /\ 0 < length kv.2.

Definition list_keys (st : Store) (app user sid : string) : list string :=
  ak_filename <$> (map_to_list (filter (in_session app user sid) st)).*1.

Definition list_versions (st : Store) (k : ArtifactKey) : list nat := seq 0 (length (versions st k)).

(** [delete this.artifacts[path]] *)
Definition delete (st : Store) (k : ArtifactKey) : Store := base.delete k st.

End InMemoryArtifacts.

#[global] Instance InMemoryArtifacts_service : ArtifactService InMemoryArtifacts.Store := {
  saveArtifact := InMemoryArtifacts.save;
  loadArtifact := InMemoryArtifacts.load;
  listArtifactKeys := InMemoryArtifacts.list_keys;
  listVersions := InMemoryArtifacts.list_versions;
  deleteArtifact := InMemoryArtifacts.delete
}.

(** A sequence of operations on the service, as the test code issues
    them. *)
Inductive ArtifactOp :=
| OpSave (k : ArtifactKey) (p : Part)
| OpDelete (k : ArtifactKey).

(** The service after the operations, and the versions the saves
    returned. *)
Fixpoint run_ops `{ArtifactService Art} (a : Art) (ops : list ArtifactOp) : Art * list nat :=
  match ops with
  | [] => (a, [])
  | OpSave k p :: ops' =>
      let '(a1, v) := saveArtifact a k p in
      let '(a2, vs) := run_ops a1 ops' in (a2, v :: vs)
  | OpDelete k :: ops' => run_ops (deleteArtifact a k) ops'
  end.

Definition deletes (k : ArtifactKey) (op : ArtifactOp) : bool :=
  match op with OpDelete k' => bool_decide (k' = k) | OpSave _ _ => false end.

(** ** The in-memory service satisfies the contract *)

Lemma InMemoryArtifacts_versions_insert st k k' l :
  InMemoryArtifacts.versions (<[k := l]> st) k' =
  if decide (k' = k) then l else InMemoryArtifacts.versions st k'.
Proof.
  unfold InMemoryArtifacts.versions. case_decide as E.
  - subst. by rewrite lookup_insert_eq.
  - by rewrite lookup_insert_ne by congruence.
Qed.

#[global, refine] Instance InMemoryArtifacts_laws : ArtifactServiceLaws InMemoryArtifacts.Store := {
  art_view := InMemoryArtifacts.versions
}.
Proof.
  - intros st k p. cbn [saveArtifact InMemoryArtifacts_service]. unfold InMemoryArtifacts.save.
    split_and!; [done| |]; intros; rewrite InMemoryArtifacts_versions_insert;
      by case_decide.
  - intros st k. unfold InMemoryArtifacts.versions. cbn [deleteArtifact InMemoryArtifacts_service].
    unfold InMemoryArtifacts.delete. split; [by rewrite lookup_delete_eq|].
    intros k' Hk. by rewrite lookup_delete_ne by congruence.
  - done.
  - done.
  - done.
  - intros st app user sid f. cbn [listArtifactKeys InMemoryArtifacts_service].
    unfold InMemoryArtifacts.list_keys. rewrite list_elem_of_fmap. split.
    + intros [k [-> Hk]]. apply list_elem_of_fmap in Hk as [[k' l] [-> Hk]].
      apply elem_of_map_to_list, map_lookup_filter_Some in Hk as [Hk (<- & <- & <- & Hl)].
      unfold InMemoryArtifacts.versions. destruct k'. simpl. rewrite Hk. simpl.
      intros ->. simpl in Hl. lia.
    + unfold InMemoryArtifacts.versions. intros Hv.
      destruct (st !! mkArtifactKey app user sid f) as [l|] eqn:E; simpl in Hv; [|done].
      exists (mkArtifactKey app user sid f). split; [done|].
      apply list_elem_of_fmap. exists (mkArtifactKey app user sid f, l). split; [done|].
      apply elem_of_map_to_list, map_lookup_filter_Some. split; [done|].
      unfold InMemoryArtifacts.in_session. simpl. split_and!; try done.
      destruct l; [done|simpl; lia].
Defined.

(** ** Properties of any lawful artifact service *)

Section Laws.
Context `{ArtifactServiceLaws Art}.

Lemma save_view a k p : art_view (saveArtifact a k p).1 k = art_view a k ++ [p].
Proof. pose proof (art_save_spec a k p) as Hs. destruct (saveArtifact a k p). by destruct Hs as (_ & ? & _). Qed.

(** A service with no versions lists no keys. *)
Lemma list_keys_empty a app user sid :
  (forall k, art_view a k = []) -> listArtifactKeys a app user sid = [].
Proof.
  intros He. destruct (listArtifactKeys a app user sid) as [|f l] eqn:E; [done|].
  assert (f ∈ listArtifactKeys a app user sid) as Hf by (rewrite E; left).
  apply art_keys_spec in Hf. by rewrite He in Hf.
Qed.

(** Operations that do not delete [k] only add versions of [k]. *)
Lemma run_ops_extends a ops k :
  Forall (fun op => deletes k op = false) ops ->
  exists ext, art_view (run_ops a ops).1 k = art_view a k ++ ext.
Proof.
  intros Hd. revert a. induction Hd as [|op ops Hop _ IH]; intros a; simpl.
  - exists []. by rewrite app_nil_r.
  - destruct op as [k' p|k']; simpl in Hop.
    + pose proof (art_save_spec a k' p) as Hs. destruct (saveArtifact a k' p) as [a1 v].
      destruct Hs as (Hv & Hk & Ho).
      destruct (IH a1) as [ext Hext]. destruct (run_ops a1 ops) as [a2 vs]. simpl in *.
      rewrite Hext. destruct (decide (k = k')) as [->|Hne].
      * rewrite Hk, <- app_assoc. by eexists.
      * rewrite (Ho k Hne). by eexists.
    + apply bool_decide_eq_false in Hop. destruct (art_delete_spec a k') as [_ Ho].
      destruct (IH (deleteArtifact a k')) as [ext ->]. rewrite Ho by congruence. by eexists.
Qed.

(** Versions are immutable once created (spec §3): a version of [k]
    loads the same part after any operations that do not delete [k]. *)
Theorem versions_immutable a ops k v p :
  loadArtifact a k (Some v) = Some p ->
  Forall (fun op => deletes k op = false) ops ->
  loadArtifact (run_ops a ops).1 k (Some v) = Some p.
Proof.
  rewrite !art_load_version. intros Hv Hd.
  destruct (run_ops_extends a ops k Hd) as [ext ->]. by apply lookup_app_l_Some.
Qed.

(** Each save creates a new version (spec §3, §6): saving the parts [ps]
    one after the other returns consecutive version numbers, starting
    after the existing ones, and the parts become those versions. *)
Theorem saves_consecutive a k ps :
  (run_ops a (OpSave k <$> ps)).2 = seq (length (art_view a k)) (length ps) /\
  art_view (run_ops a (OpSave k <$> ps)).1 k = art_view a k ++ ps.
Proof.
  revert a. induction ps as [|p ps IH]; intros a; simpl.
  - by rewrite app_nil_r.
  - pose proof (art_save_spec a k p) as Hs. destruct (saveArtifact a k p) as [a1 v].
    destruct Hs as (Hv & Hk & _).
    destruct (IH a1) as [Hvs Hext]. destruct (run_ops a1 _) as [a2 vs]. simpl in *.
    rewrite Hvs, Hext, Hk, Hv, length_app, <- app_assoc. simpl. by rewrite Nat.add_1_r.
Qed.

End Laws.
