(* ===== verification/Runner.v ===== *)
(** * The Runner

    Modelled from [spec.md] §4.4 (the [Runner] of [@paean-ai/adk] is not
    under [src/]).  [Runner] is the interface the front end ([Cli]) calls:
    [runAsync] on the service state, the user and session ids and the new
    message gives the service state after the run, the events the caller
    receives, and the error the stream ends with, if any.

    [SpecRunner] implements it over any [SessionService]: it resolves the
    session (failing fast with a not-found error), appends the user event,
    runs the agent ([sr_exec], the execution of the root agent on the
    session under the run's invocation id, which ends in an optional
    failure) and appends every event, an error event for a failure
    included, before forwarding it.  [spec_run_gen] is the same run as
    the generator [runAsync] returns, pulled one event at a time
    ([gen_next]) by a caller that may stop early ([consume]). *)

From S2P Require Import Prelude GeminiStream Session.
From stdpp Require Import gmap pretty.

Record RunOutcome := mkOutcome {
  ro_events : list Event;
  ro_error : option JsError
}.

(** The interface of [new Runner({...}).runAsync({userId, sessionId,
    newMessage})]. *)
Class Runner (R Svc : Type) :=
  runAsync : R -> Svc -> string -> string -> Content -> Svc * RunOutcome.

Record SpecRunner := mkSpecRunner {
  sr_appName : string;
  sr_agentName : string;
  sr_exec : string -> Session -> list Event * option string
}.

(** The event that records the new message. *)
Definition user_event (inv : string) (msg : Content) : Event :=
  mkEvent inv "user" None (Some msg) ∅ false.

(** The terminal event of a failed run (author: the agent). *)
Definition error_event (inv agent msg : string) : Event :=
  mkEvent inv agent None (Some (mkContent (Some "model") (Some [text_part msg]))) ∅ false.

(** The events the run forwards: the agent's, then the error event. *)
Definition run_events (inv agent : string) (out : list Event * option string) : list Event :=
  out.1 ++ match out.2 with Some m => [error_event inv agent m] | None => [] end.

(** A fresh invocation id for the session. *)
Definition new_invocation_id (s : Session) : string := "e-" +:+ pretty (length (s_events s)).

Definition spec_run `{SessionService Svc} (r : SpecRunner) (svc : Svc)
    (userId sessionId : string) (msg : Content) : Svc * RunOutcome :=
  match getSession svc (sr_appName r) userId sessionId with
  | None => (svc, mkOutcome [] (Some (Error ("Session not found: " +:+ sessionId))))
  | Some s =>
      let inv := new_invocation_id s in
      let '(svc1, s1) := appendEvent svc s (user_event inv msg) in
      let evs := run_events inv (sr_agentName r) (sr_exec r inv s1) in
      let '(svc2, _) := append_events svc1 s1 evs in
      (svc2, mkOutcome evs None)
  end.

#[global] Instance SpecRunner_runner `{SessionService Svc} : Runner SpecRunner Svc := spec_run.

(** ** The run as a generator

    [runAsync] is an async generator: the caller pulls events one at a
    time, and the runner appends each event to the session just before it
    yields it.  A caller that stops pulling (breaks out of its
    [for await]) cancels the run: no further event is produced or
    appended. *)

(** The generator between two pulls: the service, the session object it
    appends to, and the events still to come. *)
Record RunGen (Svc : Type) := mkGen { g_svc : Svc; g_session : Session; g_pending : list Event }.
Arguments mkGen {Svc}.
Arguments g_svc {Svc}.
Arguments g_session {Svc}.
Arguments g_pending {Svc}.

(** One pull: append the next event, then yield it. *)
Definition gen_next `{SessionService Svc} (g : RunGen Svc) : option (Event * RunGen Svc) :=
  match g_pending g with
  | [] => None
  | e :: es => let '(svc', s') := appendEvent (g_svc g) (g_session g) e in Some (e, mkGen svc' s' es)
  end.

(** A caller that reads at most [n] events and then stops. *)
Fixpoint consume `{SessionService Svc} (n : nat) (g : RunGen Svc) : list Event * RunGen Svc :=
  match n with
  | O => ([], g)
  | S n' =>
      match gen_next g with
      | None => ([], g)
      | Some (e, g') => let '(es, g'') := consume n' g' in (e :: es, g'')
      end
  end.

(** The generator [runAsync] returns: the session resolved (or the
    not-found error) and the user event appended before the first pull. *)
Definition spec_run_gen `{SessionService Svc} (r : SpecRunner) (svc : Svc)
    (userId sessionId : string) (msg : Content) : result (RunGen Svc) :=
  match getSession svc (sr_appName r) userId sessionId with
  | None => Throw (Error ("Session not found: " +:+ sessionId))
  | Some s =>
      let inv := new_invocation_id s in
      let '(svc1, s1) := appendEvent svc s (user_event inv msg) in
      Ok (mkGen svc1 s1 (run_events inv (sr_agentName r) (sr_exec r inv s1)))
  end.

(** A sample agent execution: one event of the invocation that records
    the log length. *)
Definition sample_exec (inv : string) (s : Session) : list Event * option string :=
  ([mkEvent inv "agent" None (Some (mkContent (Some "model") (Some [text_part "hi"])))
      (<["seen" := VNumber (Z.of_nat (length (s_events s)))]> ∅) false], None).

Section RunnerProofs.
Context `{SessionServiceLaws Svc}.

(** Fail fast (spec §4.4): a run on an unknown session changes
    nothing, forwards no event and ends with the not-found error. *)
Theorem spec_run_not_found r svc userId sessionId msg :
  getSession svc (sr_appName r) userId sessionId = None ->
  spec_run r svc userId sessionId msg =
    (svc, mkOutcome [] (Some (Error ("Session not found: " +:+ sessionId)))).
Proof. unfold spec_run. by intros ->. Qed.

(** Append then forward (spec §4.4): a run on a stored session ends
    without error, forwards the agent's events (and the error event of a
    failed agent), and leaves the session stored with the user event and
    exactly the forwarded events appended, in order, its state updated by
    their deltas. *)
Theorem spec_run_append_forward r svc userId sessionId msg s :
  lookup_session svc (sr_appName r, userId, sessionId) = Some s ->
  session_key s = (sr_appName r, userId, sessionId) ->
  let '(svc', o) := spec_run r svc userId sessionId msg in
  let inv := new_invocation_id s in
  let s1 := session_append s (user_event inv msg) in
  ro_error o = None /\
  ro_events o = run_events inv (sr_agentName r) (sr_exec r inv s1) /\
  lookup_session svc' (session_key s) = Some (session_append_all s1 (ro_events o)).
Proof.
  intros Hs Hk.
  assert (Hg : getSession svc (sr_appName r) userId sessionId = Some s) by exact Hs.
  unfold spec_run. rewrite Hg. rewrite <- Hk in Hs.
  set (s1 := session_append s (user_event (new_invocation_id s) msg)).
  pose proof (append_spec svc s (user_event (new_invocation_id s) msg) Hs) as Ha.
  destruct (appendEvent svc s _) as [svc1 s1']. destruct Ha as (-> & Hs1 & _).
  pose proof (append_events_spec svc1 s1
    (run_events (new_invocation_id s) (sr_agentName r) (sr_exec r (new_invocation_id s) s1)) Hs1) as He.
  destruct (append_events svc1 _ _) as [svc2 s2]. destruct He as (-> & Hs2 & _).
  by split_and!.
Qed.

(** [n] pulls yield the first [n] pending events, each appended to the
    stored session before it is yielded; the pending rest is never
    appended, and the other sessions are untouched. *)
Lemma consume_spec n (g : RunGen Svc) :
  lookup_session (g_svc g) (session_key (g_session g)) = Some (g_session g) ->
  let '(es, g') := consume n g in
  es = firstn n (g_pending g) /\ g_pending g' = skipn n (g_pending g) /\
  g_session g' = session_append_all (g_session g) es /\
  lookup_session (g_svc g') (session_key (g_session g)) = Some (g_session g') /\
  (forall k, k <> session_key (g_session g) -> lookup_session (g_svc g') k = lookup_session (g_svc g) k).
Proof.
  revert g. induction n as [|n IH]; intros [svc s pend] Hs; simpl in *; [done|].
  unfold gen_next. simpl. destruct pend as [|e es]; simpl; [done|].
  pose proof (append_spec svc s e Hs) as Ha. destruct (appendEvent svc s e) as [svc1 s1].
  destruct Ha as (-> & Hs1 & Ho1).
  specialize (IH (mkGen svc1 (session_append s e) es) Hs1). simpl in IH.
  destruct (consume n _) as [es' g'']. destruct IH as (-> & Hp & Hg & Hl & Ho).
  rewrite session_key_append in Hl, Ho. split_and!; [done|done|exact Hg|exact Hl|].
  intros k Hk. rewrite (Ho k Hk). by apply Ho1.
Qed.

(** Draining the generator appends what [append_events] does. *)
Lemma consume_all (g : RunGen Svc) :
  consume (length (g_pending g)) g =
  (g_pending g, mkGen (append_events (g_svc g) (g_session g) (g_pending g)).1
                      (append_events (g_svc g) (g_session g) (g_pending g)).2 []).
Proof.
  destruct g as [svc s pend]. simpl. revert svc s.
  induction pend as [|e es IH]; intros svc s; [done|]. simpl. unfold gen_next. simpl.
  destruct (appendEvent svc s e) as [svc1 s1]. by rewrite IH.
Qed.

(** Cancellation (spec §5, §8): a caller that reads [n] events of a run
    on a stored session and then stops has received the first [n] events
    of the run, and the session holds the user event and exactly those
    events: nothing the caller did not read was appended. *)
Theorem spec_run_cancel r svc userId sessionId msg s n :
  lookup_session svc (sr_appName r, userId, sessionId) = Some s ->
  session_key s = (sr_appName r, userId, sessionId) ->
  let inv := new_invocation_id s in
  let s1 := session_append s (user_event inv msg) in
  let evs := run_events inv (sr_agentName r) (sr_exec r inv s1) in
  exists g, spec_run_gen r svc userId sessionId msg = Ok g /\
    (consume n g).1 = firstn n evs /\
    lookup_session (g_svc (consume n g).2) (session_key s) = Some (session_append_all s1 (firstn n evs)).
Proof.
  intros Hs Hk. assert (Hg : getSession svc (sr_appName r) userId sessionId = Some s) by exact Hs.
  unfold spec_run_gen. rewrite Hg. rewrite <- Hk in Hs.
  pose proof (append_spec svc s (user_event (new_invocation_id s) msg) Hs) as Ha.
  destruct (appendEvent svc s _) as [svc1 s1']. destruct Ha as (-> & Hs1 & _).
  eexists. split; [reflexivity|].
  pose proof (consume_spec n (mkGen svc1 (session_append s (user_event (new_invocation_id s) msg))
    (run_events (new_invocation_id s) (sr_agentName r)
       (sr_exec r (new_invocation_id s) (session_append s (user_event (new_invocation_id s) msg))))) Hs1) as Hc.
  destruct (consume n _) as [es g']. destruct Hc as (-> & _ & Hg' & Hl & _). simpl in *.
  rewrite session_key_append in Hl. rewrite Hl, Hg'. by split.
Qed.

(** The eager [spec_run] is the generator drained: the same service
    state, events and error. *)
Theorem spec_run_drained r svc userId sessionId msg :
  spec_run r svc userId sessionId msg =
  match spec_run_gen r svc userId sessionId msg with
  | Throw e => (svc, mkOutcome [] (Some e))
  | Ok g => let '(es, g') := consume (length (g_pending g)) g in (g_svc g', mkOutcome es None)
  end.
Proof.
  unfold spec_run, spec_run_gen. destruct (getSession _ _ _ _) as [s|]; [|done].
  destruct (appendEvent _ _ _) as [svc1 s1]. rewrite consume_all. simpl.
  by destruct (append_events _ _ _).
Qed.

End RunnerProofs.

(** ** Witnesses *)

Lemma spec_run_not_found_witness :
  let r := mkSpecRunner "app" "agent" sample_exec in
  let msg := mkContent (Some "user") (Some [text_part "hello"]) in
  getSession (∅ : InMemory.Store) (sr_appName r) "user" "s1" = None /\
  spec_run r (∅ : InMemory.Store) "user" "s1" msg =
    (∅, mkOutcome [] (Some (Error ("Session not found: " +:+ "s1")))).
Proof. intros r msg. split; [reflexivity|]. apply spec_run_not_found. reflexivity. Defined.

Lemma spec_run_append_forward_witness :
  let r := mkSpecRunner "app" "agent" sample_exec in
  let msg := mkContent (Some "user") (Some [text_part "hello"]) in
  let s := mkSession "s1" "app" "user" ∅ [] in
  let svc : InMemory.Store := <[("app", "user", "s1") := s]> ∅ in
  lookup_session svc (sr_appName r, "user", "s1") = Some s /\
  session_key s = (sr_appName r, "user", "s1") /\
  let '(svc', o) := spec_run r svc "user" "s1" msg in
  let inv := new_invocation_id s in
  let s1 := session_append s (user_event inv msg) in
  ro_error o = None /\
  ro_events o = run_events inv (sr_agentName r) (sr_exec r inv s1) /\
  lookup_session svc' (session_key s) = Some (session_append_all s1 (ro_events o)).
Proof.
  intros r msg s svc. assert (Hl : lookup_session svc (sr_appName r, "user", "s1") = Some s)
    by (vm_compute; reflexivity).
  split; [exact Hl|]. split; [reflexivity|]. exact (spec_run_append_forward r svc "user" "s1" msg s Hl eq_refl).
Defined.
