(* ===== verification/Cli.v ===== *)
(** * The command-line front end

    Source: [src/dev/src/cli/cli_run.ts].

    The CLI is written against the interfaces [Session.SessionService] and
    [Runner.Runner]; the world it acts on is the record [World]: the
    session service's state, the lines still to come on standard input,
    the lines written by [console.log] (in order), the clock read by [new
    Date().toISOString()], the files [loadFileData] reads, the agents
    [AgentFile.load] loads, and the calls to [saveToFile].  An operation is
    a function from the world to the new world and an [Outcome]: [Done]
    with a value, [Thrown] with the error of a rejected promise, or
    [Blocked] when it waits on [rl.question] after standard input has
    ended, a question that is never answered.  The prompt that
    [rl.question] writes to the terminal is not part of the log.

    [path.join] is concatenation with ["/"] (its normalisation is not
    modelled) and [String.prototype.trim] removes the ASCII white space. *)

From S2P Require Import Prelude GeminiStream Session Runner.
From stdpp Require Import gmap.

(** ** Data *)

(** [interface InputFile {state; queries}] (lines 16-19). *)
Record InputFile := mkInputFile { if_state : State; if_queries : list string }.

(** [interface RunAgentOptions] (lines 132-141); the services are the
    defaults. *)
Record RunAgentOptions := mkRunAgentOptions {
  agentPath : string;
  inputFile : option string;
  savedSessionFile : option string;
  saveSession : option bool;
  sessionId : option string
}.

Inductive Outcome (A : Type) := Done (a : A) | Thrown (e : JsError) | Blocked.
Arguments Done {A} a.
Arguments Thrown {A} e.
Arguments Blocked {A}.

(** [path.join(a, b)]. *)
Definition path_join (a b : string) : string := a +:+ "/" +:+ b.

(** The ASCII white space [trim] removes. *)
Definition is_ws (c : Ascii.ascii) : bool :=
  let n := Ascii.nat_of_ascii c in bool_decide (n = 32 \/ (9 <= n <= 13)).

(** [!query.trim()] *)
Fixpoint trim_empty (s : string) : bool :=
  match s with
  | EmptyString => true
  | String c s' => is_ws c && trim_empty s'
  end.

(** [!query || !query.trim()] (line 105). *)
Definition is_blank (q : string) : bool := negb (str_truthy q) || trim_empty q.

(** [{role: 'user', parts: [{text: query}]}] *)
Definition user_message (q : string) : Content := mkContent (Some "user") (Some [text_part q]).

(** [event.content.parts.map((part) => part.text || '').join('')] *)
Definition parts_text (ps : list Part) : string :=
  str_concat (map (fun p => match p_text p ?|| Some "" with Some t => t | None => "" end) ps).

(** The console line of an event, if any (lines 72-78). *)
Definition event_line (e : Event) : option string :=
  match ev_content e with
  | Some c =>
      match c_parts c with
      | Some ps =>
          let text := parts_text ps in
          if str_truthy text then Some ("[" +:+ ev_author e +:+ "]: " +:+ text) else None
      | None => None
      end
  | None => None
  end.

(** The console line of an event of a loaded session (lines 176-182),
    guarded by [content.parts?.length]. *)
Definition loaded_event_line (e : Event) : option string :=
  match ev_content e with
  | Some c =>
      match c_parts c with
      | Some ps =>
          if bool_decide (length ps = 0) then None else
          let text := parts_text ps in
          if str_truthy text then Some ("[" +:+ ev_author e +:+ "]: " +:+ text) else None
      | None => None
      end
  | None => None
  end.

(** The message [console.log(e)] prints for an error. *)
Definition error_line (e : JsError) : string :=
  match e with TypeError m => "TypeError: " +:+ m | Error m => "Error: " +:+ m end.

(** A sample runner that answers every message with an event carrying it. *)
Record EchoRunner := mkEchoRunner { echo_author : string }.

#[global] Instance EchoRunner_runner {Svc} : Runner EchoRunner Svc :=
  fun r svc _ _ m => (svc, mkOutcome [mkEvent "" (echo_author r) None (Some m) ∅ false] None).

Section Cli.
Context {Svc R : Type} `{SessionService Svc} `{Runner R Svc}.

(** [process.cwd()] and [new Runner({appName, agent, ...})] for the root
    agent of the application. *)
Variable cwd : string.
Variable mkRunner : string -> R.

Record World := mkWorld {
  w_svc : Svc;
  w_stdin : list string;
  w_stdout : list string;
  w_now : string;
  w_inputFiles : string -> option InputFile;
  w_sessionFiles : string -> option Session;
  w_agents : string -> result string;
  w_saved : list (string * option Session)
}.

Definition CliM (A : Type) := World -> World * Outcome A.

Definition cli_ret {A} (a : A) : CliM A := fun w => (w, Done a).

Definition cli_bind {A B} (m : CliM A) (k : A -> CliM B) : CliM B :=
  fun w => match m w with
           | (w1, Done a) => k a w1
           | (w1, Thrown e) => (w1, Thrown e)
           | (w1, Blocked) => (w1, Blocked)
           end.

Definition set_svc (svc : Svc) (w : World) : World :=
  mkWorld svc (w_stdin w) (w_stdout w) (w_now w) (w_inputFiles w) (w_sessionFiles w)
    (w_agents w) (w_saved w).
Definition set_stdin (l : list string) (w : World) : World :=
  mkWorld (w_svc w) l (w_stdout w) (w_now w) (w_inputFiles w) (w_sessionFiles w)
    (w_agents w) (w_saved w).
Definition log_line (line : string) (w : World) : World :=
  mkWorld (w_svc w) (w_stdin w) (w_stdout w ++ [line]) (w_now w) (w_inputFiles w)
    (w_sessionFiles w) (w_agents w) (w_saved w).
Definition save_file (path : string) (s : option Session) (w : World) : World :=
  mkWorld (w_svc w) (w_stdin w) (w_stdout w) (w_now w) (w_inputFiles w)
    (w_sessionFiles w) (w_agents w) (w_saved w ++ [(path, s)]).

Definition log_opt (line : option string) (w : World) : World :=
  match line with Some l => log_line l w | None => w end.

(** [getUserInput(prompt)] (lines 21-33). *)
Definition getUserInput : CliM string :=
  fun w => match w_stdin w with
           | [] => (w, Blocked)
           | l :: rest => (set_stdin rest w, Done l)
           end.

(** One [for await (const event of runner.runAsync(...))] loop with its
    console lines (lines 71-79 and 113-125). *)
Definition run_query (runner : R) (session : Session) (q : string) : CliM unit :=
  fun w =>
    let '(svc', o) := runAsync runner (w_svc w) (s_userId session) (s_id session) (user_message q) in
    let w1 := foldl (fun w e => log_opt (event_line e) w) (set_svc svc' w) (ro_events o) in
    match ro_error o with
    | Some e => (w1, Thrown e)
    | None => (w1, Done tt)
    end.

(** The [while (true)] loop of [runInteractively] (lines 102-126), by
    recursion on the lines standard input still holds: each iteration
    reads one. *)
Fixpoint interactive_loop (runner : R) (session : Session) (lines : list string) : CliM unit :=
  fun w =>
    match lines with
    | [] => (w, Blocked)
    | q :: rest =>
        let w1 := set_stdin rest w in
        if is_blank q then interactive_loop runner session rest w1
        else if String.eqb q "exit" then (w1, Done tt)
        else cli_bind (run_query runner session q) (fun _ => interactive_loop runner session rest) w1
    end.

(** [runInteractively] (lines 92-127). *)
Definition runInteractively (rootName : string) (session : Session) : CliM unit :=
  fun w => interactive_loop (mkRunner rootName) session (w_stdin w) w.

(** The [for (const query of fileContent.queries)] loop (lines 62-80). *)
Fixpoint run_file_queries (runner : R) (session : Session) (qs : list string) : CliM unit :=
  match qs with
  | [] => cli_ret tt
  | q :: qs' =>
      cli_bind (fun w => (log_line ("[user]: " +:+ q) w, Done tt)) (fun _ =>
      cli_bind (run_query runner session q) (fun _ => run_file_queries runner session qs'))
  end.

(** [runFromInputFile] (lines 44-83). *)
Definition runFromInputFile (appName userId filePath : string) : CliM (option Session) :=
  fun w =>
    match w_inputFiles w (path_join cwd filePath) with
    | None => (w, Done None)
    | Some f =>
        let state := <["_time" := VString (w_now w)]> (if_state f) in
        let '(svc1, session) := createSession (w_svc w) appName userId None state in
        cli_bind (run_file_queries (mkRunner appName) session (if_queries f))
          (fun _ => cli_ret (Some session)) (set_svc svc1 w)
    end.

(** Lines 171-184: the loaded events are appended to the new session and
    printed.  [appendEvent] pushes the event onto the [session] object it
    is passed, so the next call sees the session it returned. *)
Fixpoint replay_loaded (session : Session) (es : list Event) : CliM unit :=
  match es with
  | [] => cli_ret tt
  | e :: es' =>
      fun w =>
        let '(svc', session') := appendEvent (w_svc w) session e in
        replay_loaded session' es' (log_opt (loaded_event_line e) (set_svc svc' w))
  end.

(** Lines 159-202: the three modes. *)
Definition run_mode (opts : RunAgentOptions) (rootName userId : string) (session : Session)
    : CliM Session :=
  if js_truthy (inputFile opts) then
    cli_bind (runFromInputFile rootName userId (default "" (inputFile opts)))
      (fun r => cli_ret (default session r))
  else if js_truthy (savedSessionFile opts) then
    fun w =>
      let pre := match w_sessionFiles w (default "" (savedSessionFile opts)) with
                 | Some loaded => replay_loaded session (s_events loaded)
                 | None => cli_ret tt
                 end in
      cli_bind pre (fun _ => cli_bind (runInteractively rootName session)
                                      (fun _ => cli_ret session)) w
  else
    cli_bind (fun w => (log_line ("Running agent " +:+ rootName +:+ ", type exit to exit.") w, Done tt))
      (fun _ => cli_bind (runInteractively rootName session) (fun _ => cli_ret session)).

(** Lines 204-217. *)
Definition save_session (opts : RunAgentOptions) (session : Session) : CliM unit :=
  if js_bool (saveSession opts) then
    cli_bind (if js_truthy (sessionId opts) then cli_ret (default "" (sessionId opts))
              else getUserInput) (fun sid =>
    let sessionPath := path_join (agentPath opts) (sid +:+ ".session.json") in
    fun w =>
      let stored := getSession (w_svc w) (s_appName session) (s_userId session) (s_id session) in
      (log_line ("Session saved to " +:+ sessionPath)
         (save_file (path_join cwd sessionPath) stored w), Done tt))
  else cli_ret tt.

(** The body of the [try] block (lines 144-217). *)
Definition runAgent_body (opts : RunAgentOptions) : CliM unit :=
  let userId := "test_user" in
  fun w =>
    match w_agents w (path_join cwd (agentPath opts)) with
    | Throw e => (w, Thrown e)
    | Ok rootName =>
        let '(svc1, session) := createSession (w_svc w) rootName userId None ∅ in
        cli_bind (run_mode opts rootName userId session) (save_session opts) (set_svc svc1 w)
    end.

(** [runAgent] (lines 142-221): an error is printed, never rethrown. *)
Definition runAgent (opts : RunAgentOptions) : CliM unit :=
  fun w =>
    match runAgent_body opts w with
    | (w1, Thrown e) => (log_line (error_line e) w1, Done tt)
    | r => r
    end.

(** ** Statement helpers *)

(** The non-blank lines before the first ["exit"], and the lines after it
    if there is one. *)
Fixpoint split_exit (lines : list string) : list string * option (list string) :=
  match lines with
  | [] => ([], None)
  | q :: rest =>
      if is_blank q then split_exit rest
      else if String.eqb q "exit" then ([], Some rest)
      else let '(qs, r) := split_exit rest in (q :: qs, r)
  end.

(** The queries run one after the other, with their console lines. *)
Fixpoint run_all (runner : R) (session : Session) (qs : list string) : CliM unit :=
  match qs with
  | [] => cli_ret tt
  | q :: qs' => cli_bind (run_query runner session q) (fun _ => run_all runner session qs')
  end.

(** A runner whose runs never end in an error. *)
Definition runner_total (runner : R) : Prop :=
  forall svc u sid m, ro_error (runAsync runner svc u sid m).2 = None.

(** ** The world operations *)

Lemma set_stdin_eta w : set_stdin (w_stdin w) w = w.
Proof. by destruct w. Qed.

Lemma set_stdin_twice l l' w : set_stdin l (set_stdin l' w) = set_stdin l w.
Proof. done. Qed.

Lemma foldl_log_set_stdin l es w :
  foldl (fun w e => log_opt (event_line e) w) (set_stdin l w) es =
  set_stdin l (foldl (fun w e => log_opt (event_line e) w) w es).
Proof.
  revert w. induction es as [|e es IH]; intros w; simpl; [done|].
  rewrite <- IH. f_equal. by destruct (event_line e).
Qed.

(** [run_query] neither reads nor writes standard input. *)
Lemma run_query_set_stdin runner session q l w :
  run_query runner session q (set_stdin l w) =
  (set_stdin l (run_query runner session q w).1, (run_query runner session q w).2).
Proof.
  unfold run_query. simpl. destruct (runAsync _ _ _ _ _) as [svc' o].
  change (set_svc svc' (set_stdin l w)) with (set_stdin l (set_svc svc' w)).
  rewrite foldl_log_set_stdin. by destruct (ro_error o).
Qed.

Lemma run_query_total runner session q w :
  runner_total runner -> (run_query runner session q w).2 = Done tt.
Proof.
  intros Ht. unfold run_query. pose proof (Ht (w_svc w) (s_userId session) (s_id session)
    (user_message q)) as He. destruct (runAsync _ _ _ _ _) as [svc' o]. simpl in He.
  by rewrite He.
Qed.

Lemma run_all_total runner session qs l w :
  runner_total runner ->
  run_all runner session qs (set_stdin l w) =
  (set_stdin l (run_all runner session qs w).1, Done tt).
Proof.
  intros Ht. revert w. induction qs as [|q qs IH]; intros w; simpl; [done|].
  unfold cli_bind. rewrite run_query_set_stdin.
  pose proof (run_query_total runner session q w Ht) as Hq.
  destruct (run_query runner session q w) as [w1 o1]. simpl in *. subst o1. apply IH.
Qed.

(** The interactive loop runs the non-blank lines before the first
    ["exit"], in order, as one batch. *)
Lemma interactive_loop_batch runner session lines w :
  runner_total runner -> w_stdin w = lines ->
  interactive_loop runner session lines w =
  let '(qs, rest) := split_exit lines in
  (set_stdin (default [] rest) (run_all runner session qs w).1,
   match rest with Some _ => Done tt | None => Blocked end).
Proof.
  intros Ht. revert w. induction lines as [|q rest IH]; intros w Hw; simpl.
  - by rewrite <- Hw, set_stdin_eta.
  - destruct (is_blank q) eqn:Hb.
    + rewrite IH by done. destruct (split_exit rest) as [qs r].
      destruct qs as [|q' qs]; [done|].
      replace (set_stdin rest w) with (set_stdin rest (set_stdin rest w)) by done.
      rewrite (run_all_total _ _ _ rest w Ht). destruct (run_all runner session (q' :: qs) w).
      done.
    + destruct (String.eqb_spec q "exit") as [->|Hq]; [done|].
      unfold cli_bind. rewrite run_query_set_stdin.
      pose proof (run_query_total runner session q w Ht) as Hq'.
      destruct (run_query runner session q w) as [w1 o1] eqn:Erq. simpl in Hq' |- *. subst o1.
      rewrite IH by done. destruct (split_exit rest) as [qs r]. simpl.
      unfold cli_bind. rewrite Erq, run_all_total by done. done.
Qed.

Lemma w_saved_log_opt l w : w_saved (log_opt l w) = w_saved w.
Proof. by destruct l. Qed.

Lemma w_svc_log_opt l w : w_svc (log_opt l w) = w_svc w.
Proof. by destruct l. Qed.

Lemma run_query_saved runner session q w :
  w_saved (run_query runner session q w).1 = w_saved w.
Proof.
  unfold run_query. destruct (runAsync _ _ _ _ _) as [svc' o].
  assert (Hf : forall es w0, w_saved (foldl (fun w e => log_opt (event_line e) w) w0 es) = w_saved w0).
  { induction es as [|e es IH]; intros w0; simpl; [done|]. by rewrite IH, w_saved_log_opt. }
  destruct (ro_error o); simpl; by rewrite Hf.
Qed.

Lemma run_all_saved runner session qs w :
  runner_total runner -> w_saved (run_all runner session qs w).1 = w_saved w.
Proof.
  intros Ht. revert w. induction qs as [|q qs IH]; intros w; simpl; [done|].
  unfold cli_bind. pose proof (run_query_total runner session q w Ht) as Hq.
  pose proof (run_query_saved runner session q w) as Hs.
  destruct (run_query runner session q w) as [w1 o1]. simpl in *. subst o1. by rewrite IH.
Qed.

Lemma split_exit_no_exit lines : "exit" ∉ lines -> (split_exit lines).2 = None.
Proof.
  induction lines as [|q rest IH]; intros Hn; simpl; [done|].
  rewrite elem_of_cons in Hn. destruct (is_blank q); [apply IH; tauto|].
  destruct (String.eqb_spec q "exit") as [->|]; [tauto|].
  pose proof (IH ltac:(tauto)) as Hr. destruct (split_exit rest). simpl in *. by subst.
Qed.


Lemma foldl_log_fields es w :
  let w' := foldl (fun w e => log_opt (event_line e) w) w es in
  w_svc w' = w_svc w /\ w_stdout w' = w_stdout w ++ omap event_line es.
Proof.
  revert w. induction es as [|e es IH]; intros w; simpl; [by rewrite app_nil_r|].
  destruct (IH (log_opt (event_line e) w)) as [-> ->].
  destruct (event_line e); simpl; [by rewrite <- app_assoc|done].
Qed.

Lemma run_file_queries_total runner session qs w :
  runner_total runner -> (run_file_queries runner session qs w).2 = Done tt.
Proof.
  intros Ht. revert w. induction qs as [|q qs IH]; intros w; simpl; [done|].
  unfold cli_bind. pose proof (run_query_total runner session q (log_line ("[user]: " +:+ q) w) Ht).
  destruct (run_query runner session q _) as [w1 o1]. simpl in *. subst o1. apply IH.
Qed.

(** C16. [runInteractively] with a runner whose runs do not fail reads
    the lines of standard input, runs the non-blank ones before the first
    ["exit"] in order as one batch, and then returns if there was an
    ["exit"] line and waits forever on [rl.question] if there was not. *)
Theorem runInteractively_batch root session w :
  runner_total (mkRunner root) ->
  runInteractively root session w =
  let '(qs, rest) := split_exit (w_stdin w) in
  (set_stdin (default [] rest) (run_all (mkRunner root) session qs w).1,
   match rest with Some _ => Done tt | None => Blocked end).
Proof. intros Ht. unfold runInteractively. by apply interactive_loop_batch. Qed.

Section Laws.
Context `{!SessionServiceLaws Svc}.

Lemma replay_loaded_spec session es w :
  lookup_session (w_svc w) (session_key session) = Some session ->
  (replay_loaded session es w).2 = Done tt /\
  lookup_session (w_svc (replay_loaded session es w).1) (session_key session) =
    Some (session_append_all session es).
Proof.
  revert session w. induction es as [|e es IH]; intros session w Hs; simpl; [done|].
  pose proof (append_spec (w_svc w) session e Hs) as Ha.
  destruct (appendEvent (w_svc w) session e) as [svc1 s1]. destruct Ha as (-> & Hs1 & _).
  apply (IH (session_append session e)). by rewrite w_svc_log_opt.
Qed.


(** C15. The session [runFromInputFile] creates holds the file's state with
    ["_time"] set to the clock and no event, so its state is never the
    replay of its log: saving it and resuming it ([resume_replays_log]) loses ["_time"]
    and the file's state unless events write them again. *)
Theorem runFromInputFile_session appName userId filePath f w :
  runner_total (mkRunner appName) ->
  w_inputFiles w (path_join cwd filePath) = Some f ->
  exists w' s, runFromInputFile appName userId filePath w = (w', Done (Some s)) /\
    s_state s = <["_time" := VString (w_now w)]> (if_state f) /\ s_events s = [] /\
    ~ replayable s.
Proof.
  intros Ht Hf. unfold runFromInputFile. rewrite Hf.
  pose proof (create_spec (w_svc w) appName userId None (<["_time" := VString (w_now w)]> (if_state f))) as Hc.
  destruct (createSession _ _ _ _ _) as [svc1 s]. destruct Hc as (_ & _ & Hst & Hev & _ & Hs & _).
  unfold cli_bind. pose proof (run_file_queries_total (mkRunner appName) s (if_queries f) (set_svc svc1 w) Ht).
  destruct (run_file_queries _ _ _ _) as [w1 o1] eqn:Er. simpl in *. subst o1.
  eexists _, s. split; [reflexivity|]. split_and!; [done|done|].
  unfold replayable. rewrite Hst, Hev. apply insert_non_empty.
Qed.

(** C17. Resuming a saved session ([savedSessionFile]) appends its events
    to a new, empty session: before the interactive loop that session is
    stored with the saved log and the replay of that log as its state, so
    the saved state comes back exactly when it was the replay of its log. *)
Theorem resume_replays_log session loaded w :
  lookup_session (w_svc w) (session_key session) = Some session ->
  s_events session = [] -> s_state session = ∅ ->
  let '(w', o) := replay_loaded session (s_events loaded) w in
  o = Done tt /\
  exists s', lookup_session (w_svc w') (session_key session) = Some s' /\
    s_events s' = s_events loaded /\ s_state s' = replay (s_events loaded) /\
    (s_state s' = s_state loaded <-> replayable loaded).
Proof.
  intros Hs He Hst. destruct (replay_loaded_spec session (s_events loaded) w Hs) as [Ho Hl].
  destruct (replay_loaded session (s_events loaded) w) as [w' o]. simpl in *.
  split; [done|]. eexists; split; [exact Hl|].
  destruct (session_append_all_fields session (s_events loaded)) as (_ & _ & _ & Hst' & Hev').
  rewrite Hst', Hev', He, Hst. split_and!; [done|done|].
  unfold replayable, replay. split; intros; congruence.
Qed.

End Laws.

(** C18. In the default mode, when standard input ends without an
    ["exit"] line (queries piped in), [runAgent] never returns and never
    reaches the code that saves the session, even with [saveSession]. *)
Theorem runAgent_no_exit_not_saved opts w root :
  inputFile opts = None -> savedSessionFile opts = None ->
  w_agents w (path_join cwd (agentPath opts)) = Ok root ->
  runner_total (mkRunner root) -> "exit" ∉ w_stdin w ->
  (runAgent opts w).2 = Blocked /\ w_saved (runAgent opts w).1 = w_saved w.
Proof.
  intros Hi Hs Ha Ht Hx. unfold runAgent, runAgent_body. rewrite Ha.
  destruct (createSession (w_svc w) root "test_user" None ∅) as [svc1 session].
  unfold run_mode. rewrite Hi, Hs. cbv beta iota delta [cli_bind js_truthy].
  rewrite runInteractively_batch by done. simpl.
  pose proof (split_exit_no_exit _ Hx) as Hn. destruct (split_exit (w_stdin w)) as [qs r].
  simpl in Hn. subst r. simpl. split; [done|].
  by rewrite run_all_saved by done.
Qed.

End Cli.

(** ** Witnesses *)

Lemma runInteractively_batch_witness :
  let w := mkWorld (∅ : InMemory.Store) ["hello"; "  "; "exit"; "later"] [] "t"
             (fun _ => None) (fun _ => None) (fun _ => Ok "root") [] in
  let s := mkSession "s" "root" "test_user" ∅ [] in
  runner_total (Svc := InMemory.Store) (mkEchoRunner "root") /\
  runInteractively mkEchoRunner "root" s w =
  let '(qs, rest) := split_exit (w_stdin w) in
  (set_stdin (default [] rest) (run_all (mkEchoRunner "root") s qs w).1,
   match rest with Some _ => Done tt | None => Blocked end).
Proof.
  intros w s. assert (Ht : runner_total (Svc := InMemory.Store) (mkEchoRunner "root"))
    by (intros ????; reflexivity).
  split; [exact Ht|]. exact (runInteractively_batch mkEchoRunner "root" s w Ht).
Defined.

Lemma resume_replays_log_witness :
  let s := mkSession "s" "root" "test_user" ∅ [] in
  let loaded := mkSession "old" "root" "test_user" (<["_time" := VString "t"]> ∅)
                  [mkEvent "e-0" "root" None None (<["x" := VNumber 1]> ∅) false] in
  let w := mkWorld (<[session_key s := s]> ∅ : InMemory.Store) [] [] "t"
             (fun _ => None) (fun _ => None) (fun _ => Ok "root") [] in
  lookup_session (w_svc w) (session_key s) = Some s /\ s_events s = [] /\ s_state s = ∅ /\
  let '(w', o) := replay_loaded s (s_events loaded) w in
  o = Done tt /\
  exists s', lookup_session (w_svc w') (session_key s) = Some s' /\
    s_events s' = s_events loaded /\ s_state s' = replay (s_events loaded) /\
    (s_state s' = s_state loaded <-> replayable loaded).
Proof.
  intros s loaded w.
  assert (Hl : lookup_session (w_svc w) (session_key s) = Some s) by (vm_compute; reflexivity).
  split_and!; [exact Hl|reflexivity|reflexivity|].
  exact (resume_replays_log s loaded w Hl eq_refl eq_refl).
Defined.

Lemma runAgent_no_exit_not_saved_witness :
  let opts := mkRunAgentOptions "agents/root" None None (Some true) (Some "saved") in
  let w := mkWorld (∅ : InMemory.Store) ["roll a die"; "check 7"] [] "t"
             (fun _ => None) (fun _ => None) (fun _ => Ok "root") [] in
  inputFile opts = None /\ savedSessionFile opts = None /\
  w_agents w (path_join "/work" (agentPath opts)) = Ok "root" /\
  runner_total (Svc := InMemory.Store) (mkEchoRunner "root") /\ ("exit" ∉ w_stdin w) /\
  (runAgent "/work" mkEchoRunner opts w).2 = Blocked /\
  w_saved (runAgent "/work" mkEchoRunner opts w).1 = w_saved w.
Proof.
  intros opts w. assert (Ht : runner_total (Svc := InMemory.Store) (mkEchoRunner "root"))
    by (intros ????; reflexivity).
  assert (Hx : "exit" ∉ w_stdin w) by (simpl; rewrite !elem_of_cons, elem_of_nil; intuition discriminate).
  split_and!; [reflexivity|reflexivity|reflexivity|exact Ht|exact Hx|..];
    apply (runAgent_no_exit_not_saved "/work" mkEchoRunner opts w "root"); done.
Defined.

Lemma runFromInputFile_session_witness :
  let f := mkInputFile (<["city" := VString "Paris"]> ∅) ["roll a die"; "exit"] in
  let w := mkWorld (∅ : InMemory.Store) [] [] "2025-01-01T00:00:00.000Z"
             (fun p => if String.eqb p "/work/in.json" then Some f else None)
             (fun _ => None) (fun _ => Ok "root") [] in
  runner_total (Svc := InMemory.Store) (mkEchoRunner "root") /\
  w_inputFiles w (path_join "/work" "in.json") = Some f /\
  exists w' s, runFromInputFile "/work" mkEchoRunner "root" "test_user" "in.json" w = (w', Done (Some s)) /\
    s_state s = <["_time" := VString (w_now w)]> (if_state f) /\ s_events s = [] /\
    ~ replayable s.
Proof.
  intros f w. assert (Ht : runner_total (Svc := InMemory.Store) (mkEchoRunner "root"))
    by (intros ????; reflexivity).
  assert (Hf : w_inputFiles w (path_join "/work" "in.json") = Some f) by reflexivity.
  split_and!; [exact Ht|exact Hf|].
  exact (runFromInputFile_session "/work" mkEchoRunner "root" "test_user" "in.json" f w Ht Hf).
Defined.

