(* ===== verification/Agents.v ===== *)
(** * Agent composition and the sample agents

    The composition semantics is modelled from [spec.md] §4.2 and §4.3
    (the agent classes of [@paean-ai/adk] are not under [src/]): an
    invocation context carries the invocation id and the branch;
    [derive] extends the branch; [exec] runs an agent of [AgentTree] on a
    context and a state and gives the events it yields.  A Leaf (an
    [LlmAgent] or a custom [BaseAgent]) runs the section variable [leaf];
    a Sequential agent runs its sub-agents in order on the shared branch,
    each on the state the previous ones left, and stops after an event
    that escalates; a Loop agent repeats that for [maxIterations] rounds
    (or [unbounded] rounds, the prefix a consumer reads before it cancels
    a loop without a bound) and stops after a round that escalates; a
    Parallel agent runs its sub-agents on the same state in branches of
    their own and forwards their events in the order of the scheduler
    [sched], which interleaves them.

    The sample agent trees of the repository ([src/unnamed/part_001],
    [src/dev/samples/loop_agent.ts]) and the [TestAgent] of the web-server
    test that follows the loop sample in [loop_agent.ts] (lines 144-207)
    are values and functions of this file. *)

From S2P Require Import Prelude GeminiStream AgentTree AgentGraph Session Runner Cli.
From stdpp Require Import gmap.

(** ** Invocation contexts (spec §4.2) *)

Record InvocationContext := mkCtx {
  ctx_invocationId : string;
  ctx_branch : string
}.

(** [derive(parent, segment)] *)
Definition derive (parent : InvocationContext) (seg : string) : InvocationContext :=
  mkCtx (ctx_invocationId parent)
    (if str_truthy (ctx_branch parent) then ctx_branch parent +:+ "/" +:+ seg else seg).

(** The events up to and including the first that escalates, and whether
    there was one. *)
Fixpoint take_to_escalation (evs : list Event) : list Event * bool :=
  match evs with
  | [] => ([], false)
  | e :: es =>
      if ev_escalate e then ([e], true)
      else let '(p, b) := take_to_escalation es in (e :: p, b)
  end.

(** [ls] interleaves into [out]: every event of every list once, each list
    in its order. *)
Inductive interleaving {A} : list (list A) -> list A -> Prop :=
  | il_done ls : Forall (fun l => l = []) ls -> interleaving ls []
  | il_step ls i x l out :
      ls !! i = Some (x :: l) -> interleaving (<[i := l]> ls) out ->
      interleaving ls (x :: out).

Section Exec.

Variable leaf : Agent -> InvocationContext -> State -> list Event.
Variable unbounded : nat.
Variable sched : list (list Event) -> list Event.

(** The sub-agents of a Sequential agent, one after the other. *)
Fixpoint seq_runs (runs : list (InvocationContext -> State -> list Event))
    (ctx : InvocationContext) (st : State) : list Event * bool :=
  match runs with
  | [] => ([], false)
  | r :: rs =>
      let '(evs, esc) := take_to_escalation (r ctx st) in
      if esc then (evs, true)
      else let '(evs', esc') := seq_runs rs ctx (fold_from st evs) in (evs ++ evs', esc')
  end.

(** [n] rounds of a Loop agent. *)
Fixpoint loop_rounds (n : nat) (runs : list (InvocationContext -> State -> list Event))
    (ctx : InvocationContext) (st : State) : list Event :=
  match n with
  | O => []
  | S n' =>
      let '(evs, esc) := seq_runs runs ctx st in
      if esc then evs else evs ++ loop_rounds n' runs ctx (fold_from st evs)
  end.

Fixpoint exec (a : Agent) (ctx : InvocationContext) (st : State) : list Event :=
  let runs := map exec (subAgents a) in
  match agent_kind a with
  | LlmAgentK _ | CustomAgentK => leaf a ctx st
  | SequentialAgentK => (seq_runs runs ctx st).1
  | LoopAgentK m => loop_rounds (default unbounded m) runs ctx st
  | ParallelAgentK =>
      sched (map (fun c => exec c (derive ctx (agent_name c)) st) (subAgents a))
  end.

End Exec.

(** ** The sample agents of [src/unnamed/part_001] *)

Definition function_tool (n : string) : Tool := mkTool n FunctionToolK.

(** Lines 8-22: an [LlmAgent] with an [AgentTool] over [summary_agent]. *)
Module AgentToolSample.
Definition summaryAgent : Agent := mkAgent "summary_agent" (LlmAgentK []) [].
Definition rootAgent : Agent :=
  mkAgent "root_agent" (LlmAgentK [mkTool (agent_name summaryAgent) AgentToolK]) [].
End AgentToolSample.

(** Lines 46-104: a [SequentialAgent] over the dice and prime agents. *)
Module SequentialSample.
Definition rollAgent : Agent := mkAgent "roll_agent" (LlmAgentK [function_tool "roll_dice"]) [].
Definition primeAgent : Agent := mkAgent "prime_agent" (LlmAgentK [function_tool "check_prime"]) [].
Definition rootAgent : Agent :=
  mkAgent "simple_sequential_agent" SequentialAgentK [rollAgent; primeAgent].
End SequentialSample.

(** Lines 112-120: an [LlmAgent] with [GOOGLE_SEARCH]. *)
Module SearchSample.
Definition rootAgent : Agent :=
  mkAgent "root_agent" (LlmAgentK [mkTool "google_search" OtherToolK]) [].
End SearchSample.

(** Lines 146-169: a [ParallelAgent] over search and weather agents. *)
Module ParallelSample.
Definition googleSearchAgent : Agent :=
  mkAgent "google_search_agent" (LlmAgentK [mkTool "google_search" OtherToolK]) [].
Definition getWeatherAgent : Agent :=
  mkAgent "get_weather_agent" (LlmAgentK [function_tool "get_weather_temperature"]) [].
Definition rootAgent : Agent :=
  mkAgent "parallel_agent" ParallelAgentK [googleSearchAgent; getWeatherAgent].
End ParallelSample.

(** [src/dev/samples/loop_agent.ts] lines 41-57: a [LoopAgent] with
    [maxIterations: 5] over the temperature monitor. *)
Module LoopSample.
Definition monitorTemperatureAgent : Agent :=
  mkAgent "monitor_temperature_agent"
    (LlmAgentK [function_tool "get_temperature"; function_tool "notify_user"]) [].
Definition rootAgent : Agent :=
  mkAgent "root_agent" (LoopAgentK (Some 5)) [monitorTemperatureAgent].
End LoopSample.

(** ** The [TestAgent] of [loop_agent.ts] (lines 144-207) *)

Definition model_text (t : string) : Content := mkContent (Some "model") (Some [text_part t]).

(** [runAsyncImpl]: three events with the agent's name and the context's
    invocation id and branch. *)
Definition TestAgent_runAsyncImpl (name : string) (ctx : InvocationContext) : list Event :=
  map (fun t => mkEvent (ctx_invocationId ctx) name (Some (ctx_branch ctx)) (Some (model_text t)) ∅ false)
    ["Hello user! I'm streaming you events now!"; "Event 1"; "Event 2"].

(** [runLiveImpl] (lines 187-201): one event with the text
    "test live content". *)
Definition TestAgent_runLiveImpl (name : string) (ctx : InvocationContext) : list Event :=
  [mkEvent (ctx_invocationId ctx) name (Some (ctx_branch ctx)) (Some (model_text "test live content")) ∅ false].

Definition TEST_AGENT : Agent := mkAgent "testAgent" CustomAgentK [].

(** A runner whose agent execution is [exec] of the root agent on a
    context of the session ([newInvocation]: branch = root agent name). *)
Definition agent_runner leaf unbounded sched (appName : string) (root : Agent) : SpecRunner :=
  mkSpecRunner appName (agent_name root)
    (fun inv s => (exec leaf unbounded sched root (mkCtx inv (agent_name root)) (s_state s), None)).

(** ** Statement helpers *)

(** [n] rounds of a run, each on the state the previous left. *)
Fixpoint repeat_rounds (n : nat) (f : InvocationContext -> State -> list Event)
    (ctx : InvocationContext) (st : State) : list Event :=
  match n with
  | O => []
  | S n' => let evs := f ctx st in evs ++ repeat_rounds n' f ctx (fold_from st evs)
  end.

Definition no_escalation (evs : list Event) : Prop := Forall (fun e => ev_escalate e = false) evs.

Definition writes (k : string) (e : Event) : bool := bool_decide (is_Some (ev_stateDelta e !! k)).

Definition all_samples : list Agent :=
  [AgentToolSample.rootAgent; SequentialSample.rootAgent; SearchSample.rootAgent;
   ParallelSample.rootAgent; LoopSample.rootAgent].

(** ** Escalation and loop rounds *)

Lemma take_to_escalation_none evs : no_escalation evs -> take_to_escalation evs = (evs, false).
Proof.
  induction 1 as [|e es He _ IH]; simpl; [done|]. by rewrite He, IH.
Qed.

Lemma take_to_escalation_false evs p : take_to_escalation evs = (p, false) -> p = evs.
Proof.
  revert p. induction evs as [|e es IH]; intros p; simpl; [congruence|].
  destruct (ev_escalate e); [congruence|]. destruct (take_to_escalation es) as [p' b] eqn:E.
  intros [= <- ->]. by rewrite (IH p').
Qed.

Lemma take_to_escalation_prefix evs : (take_to_escalation evs).1 `prefix_of` evs.
Proof.
  induction evs as [|e es IH]; simpl; [done|].
  destruct (ev_escalate e); [by apply prefix_cons, prefix_nil|].
  destruct (take_to_escalation es) as [p b]. by apply prefix_cons.
Qed.

Lemma repeat_rounds_ext n f g ctx st :
  (forall ctx st, f ctx st = g ctx st) -> repeat_rounds n f ctx st = repeat_rounds n g ctx st.
Proof.
  intros Hfg. revert st. induction n as [|n IH]; intros st; simpl; [done|]. by rewrite Hfg, IH.
Qed.

(** A loop over one sub-agent yields a prefix of [n] rounds of it, all of
    them when it never escalates. *)
Lemma loop_rounds_single n r ctx st :
  loop_rounds n [r] ctx st `prefix_of` repeat_rounds n r ctx st /\
  ((forall ctx st, no_escalation (r ctx st)) -> loop_rounds n [r] ctx st = repeat_rounds n r ctx st).
Proof.
  revert st. induction n as [|n IH]; intros st; simpl; [done|].
  pose proof (take_to_escalation_prefix (r ctx st)) as Hp.
  destruct (take_to_escalation (r ctx st)) as [p b] eqn:E. simpl in Hp.
  destruct b.
  - split.
    + by apply prefix_app_r.
    + intros Hn. rewrite take_to_escalation_none in E by apply Hn. discriminate.
  - apply take_to_escalation_false in E as ->. rewrite !app_nil_r.
    destruct (IH (fold_from st (r ctx st))) as [H1 H2]. split.
    + by apply prefix_app.
    + intros Hn. by rewrite H2.
Qed.

Lemma seq_runs_single r ctx st : seq_runs [r] ctx st = take_to_escalation (r ctx st).
Proof. simpl. destruct (take_to_escalation (r ctx st)) as [p []]; simpl; by rewrite ?app_nil_r. Qed.

(** ** Interleavings *)

Lemma interleaving_perm {A} (ls : list (list A)) out : interleaving ls out -> out ≡ₚ concat ls.
Proof.
  induction 1 as [ls Hall|ls i x l out Hi _ IH].
  - induction Hall as [|l ls -> _ IH]; simpl; [done|exact IH].
  - rewrite IH. pose proof (lookup_lt_Some _ _ _ Hi) as Hlt.
    rewrite <- (take_drop_middle ls i (x :: l) Hi) at 2.
    rewrite insert_take_drop by lia.
    rewrite !concat_app. simpl. by rewrite Permutation_middle.
Qed.

Lemma fold_from_lookup_congr st1 st2 es k :
  st1 !! k = st2 !! k -> fold_from st1 es !! k = fold_from st2 es !! k.
Proof. intros H. rewrite !fold_from_replay, !lookup_union, H. done. Qed.

Lemma applyDelta_lookup_other st e k :
  writes k e = false -> applyDelta st (ev_stateDelta e) !! k = st !! k.
Proof.
  unfold writes, applyDelta. intros Hw. apply bool_decide_eq_false in Hw.
  rewrite lookup_union. destruct (ev_stateDelta e !! k) eqn:E; [exfalso; by apply Hw|].
  by destruct (st !! k).
Qed.

(** A key written by one list only gets, in any interleaving, the value
    that list's writes give it. *)
Lemma interleaving_key ls out i k :
  interleaving ls out ->
  (forall j l, j <> i -> ls !! j = Some l -> Forall (fun e => writes k e = false) l) ->
  forall st, fold_from st out !! k = fold_from st (default [] (ls !! i)) !! k.
Proof.
  induction 1 as [ls Hall|ls j x l out Hj _ IH]; intros Hother st.
  - destruct (ls !! i) as [li|] eqn:Ei; [|done].
    by rewrite (proj1 (Forall_lookup _ _) Hall i li Ei).
  - assert (Hother' : forall j' l', j' <> i -> <[j:=l]> ls !! j' = Some l' ->
                        Forall (fun e => writes k e = false) l').
    { intros j' l' Hne Hl'. destruct (decide (j = j')) as [<-|Hjj].
      - rewrite list_lookup_insert_eq in Hl' by (eapply lookup_lt_Some; done).
        injection Hl' as <-. apply Forall_inv_tail with x. by apply (Hother j).
      - rewrite list_lookup_insert_ne in Hl' by done. by apply (Hother j'). }
    change (fold_from st (x :: out)) with (fold_from (applyDelta st (ev_stateDelta x)) out).
    rewrite (IH Hother').
    destruct (decide (j = i)) as [<-|Hji].
    + rewrite list_lookup_insert_eq by (eapply lookup_lt_Some; done). by rewrite Hj.
    + rewrite list_lookup_insert_ne by done. apply fold_from_lookup_congr.
      apply applyDelta_lookup_other. pose proof (Hother j _ Hji Hj) as Hf.
      by inversion Hf.
Qed.

Lemma interleaving_cons_nil {A} (ls : list (list A)) out :
  interleaving ls out -> interleaving ([] :: ls) out.
Proof.
  induction 1 as [ls Hall|ls i x l out Hi _ IH].
  - constructor. by constructor.
  - apply (il_step _ (S i) x l); [done|exact IH].
Qed.

(** Concatenation is an interleaving: a scheduler that runs the branches
    one after the other. *)
Lemma concat_interleaving {A} (ls : list (list A)) : interleaving ls (concat ls).
Proof.
  induction ls as [|l ls IH]; simpl; [by constructor|].
  induction l as [|x l IHl]; simpl; [by apply interleaving_cons_nil|].
  by apply (il_step _ 0 x l).
Qed.

(** Sequential ordering (spec §8): when the first sub-agent does not
    escalate, a Sequential agent over two sub-agents yields all events of
    the first, then those of the second (up to its escalation), which runs
    on the state the first left. *)
Theorem sequential_two leaf unbounded sched n a b ctx st :
  no_escalation (exec leaf unbounded sched a ctx st) ->
  exec leaf unbounded sched (mkAgent n SequentialAgentK [a; b]) ctx st =
  exec leaf unbounded sched a ctx st ++
  (take_to_escalation (exec leaf unbounded sched b ctx
     (fold_from st (exec leaf unbounded sched a ctx st)))).1.
Proof.
  intros Hn. simpl. rewrite take_to_escalation_none by done. simpl.
  destruct (take_to_escalation _) as [p []]; simpl; by rewrite ?app_nil_r.
Qed.

(** ** The sample agents and the [TestAgent] *)

(** C19. The loop sample of [loop_agent.ts] ([maxIterations: 5]) yields,
    whatever the monitor agent does, a prefix of five rounds of the
    monitor, each on the state the previous left, and all five when the
    monitor never escalates: the "continuous" monitor stops after five
    rounds. *)
Theorem loop_sample_rounds leaf unbounded sched ctx st :
  let m := leaf LoopSample.monitorTemperatureAgent in
  exec leaf unbounded sched LoopSample.rootAgent ctx st `prefix_of` repeat_rounds 5 m ctx st /\
  ((forall ctx st, no_escalation (m ctx st)) ->
   exec leaf unbounded sched LoopSample.rootAgent ctx st = repeat_rounds 5 m ctx st).
Proof.
  intros m. change (exec leaf unbounded sched LoopSample.rootAgent ctx st)
    with (loop_rounds 5 [exec leaf unbounded sched LoopSample.monitorTemperatureAgent] ctx st).
  destruct (loop_rounds_single 5 (exec leaf unbounded sched LoopSample.monitorTemperatureAgent) ctx st)
    as [H1 H2].
  rewrite (repeat_rounds_ext 5 _ m) in H1, H2 by done. split; [done|].
  intros Hn. apply H2. exact Hn.
Qed.

(** [getAgentGraph] renders every sample tree of the repository
    without error, and the graph of the sequential sample has the edge
    from [roll_agent] to [prime_agent]. *)
Theorem samples_render :
  Forall (fun a => is_ok (getAgentGraph a []) = true) all_samples /\
  match getAgentGraph SequentialSample.rootAgent [] with
  | Ok ops => bool_decide (("roll_agent", "prime_agent") ∈ edges_of ops) = true
  | Throw _ => False
  end.
Proof. split; [repeat constructor|]; vm_compute; reflexivity. Qed.

(** The [TestAgent] of the web-server test, run by the CLI through
    the spec [Runner] on a stored session, makes the CLI print its three
    messages, in order. *)
Theorem test_agent_cli_lines `{SessionServiceLaws Svc} leaf unbounded sched session
    (w : World (Svc := Svc)) s0 :
  (forall ctx st, leaf TEST_AGENT ctx st = TestAgent_runAsyncImpl (agent_name TEST_AGENT) ctx) ->
  lookup_session (w_svc w) ("testApp", s_userId session, s_id session) = Some s0 ->
  session_key s0 = ("testApp", s_userId session, s_id session) ->
  let '(w', o) := run_query (agent_runner leaf unbounded sched "testApp" TEST_AGENT) session "hello" w in
  o = Done tt /\
  w_stdout w' = w_stdout w ++ ["[testAgent]: Hello user! I'm streaming you events now!";
                               "[testAgent]: Event 1"; "[testAgent]: Event 2"].
Proof.
  intros Hleaf Hs Hk. unfold run_query.
  pose proof (spec_run_append_forward (agent_runner leaf unbounded sched "testApp" TEST_AGENT)
    (w_svc w) (s_userId session) (s_id session) (user_message "hello") s0 Hs Hk) as Hr.
  change (runAsync (agent_runner leaf unbounded sched "testApp" TEST_AGENT) (w_svc w)
            (s_userId session) (s_id session) (user_message "hello"))
    with (spec_run (agent_runner leaf unbounded sched "testApp" TEST_AGENT) (w_svc w)
            (s_userId session) (s_id session) (user_message "hello")).
  destruct (spec_run _ _ _ _ _) as [svc' o]. destruct Hr as (He & Hev & _).
  rewrite He. split; [done|].
  destruct (foldl_log_fields (ro_events o) (set_svc svc' w)) as [_ ->].
  rewrite Hev. unfold run_events. simpl. rewrite Hleaf. done.
Qed.

(** C20. The parallel sample forwards every event of its two branches
    exactly once, each branch in the branch context [parallel_agent]'s
    context derives for it, whatever interleaving the scheduler chooses;
    and a key the search branch does not write ends with the value the
    weather branch's writes give it. *)
Theorem parallel_sample_merge leaf unbounded sched ctx st k :
  (forall ls, interleaving ls (sched ls)) ->
  let s := leaf ParallelSample.googleSearchAgent (derive ctx "google_search_agent") st in
  let wth := leaf ParallelSample.getWeatherAgent (derive ctx "get_weather_agent") st in
  let out := exec leaf unbounded sched ParallelSample.rootAgent ctx st in
  out ≡ₚ s ++ wth /\
  (Forall (fun e => writes k e = false) s -> fold_from st out !! k = fold_from st wth !! k).
Proof.
  intros Hs s wth out.
  assert (Hout : out = sched [s; wth]) by reflexivity.
  pose proof (Hs [s; wth]) as Hil. rewrite <- Hout in Hil. split.
  - rewrite (interleaving_perm _ _ Hil). simpl. by rewrite app_nil_r.
  - intros Hf. rewrite (interleaving_key _ _ 1 k Hil); [done|].
    intros j l Hj Hl. destruct j as [|[|j]]; simpl in Hl; [by injection Hl as <-|done|done].
Qed.

(** Loop termination by escalation (spec §8) on the loop sample:
    when the monitor does not escalate in its first round but does in its
    second, the loop stops with the second round's escalating event,
    although [maxIterations] is 5. *)
Theorem loop_sample_escalation leaf unbounded sched ctx st :
  let m := leaf LoopSample.monitorTemperatureAgent in
  no_escalation (m ctx st) ->
  (take_to_escalation (m ctx (fold_from st (m ctx st)))).2 = true ->
  exec leaf unbounded sched LoopSample.rootAgent ctx st =
  m ctx st ++ (take_to_escalation (m ctx (fold_from st (m ctx st)))).1.
Proof.
  intros m Hn He. change (exec leaf unbounded sched LoopSample.rootAgent ctx st)
    with (loop_rounds 5 [m] ctx st).
  cbn [loop_rounds]. rewrite !seq_runs_single, (take_to_escalation_none _ Hn). cbn beta iota.
  rewrite seq_runs_single.
  destruct (take_to_escalation (m ctx (fold_from st (m ctx st)))) as [p []]; [done|discriminate].
Qed.

(** ** Witnesses *)

Lemma test_agent_cli_lines_witness :
  let leaf := fun (a : Agent) ctx (_ : State) =>
    if String.eqb (agent_name a) "testAgent" then TestAgent_runAsyncImpl (agent_name a) ctx else [] in
  let session := mkSession "s1" "testApp" "test_user" ∅ [] in
  let w := mkWorld (<[session_key session := session]> ∅ : InMemory.Store) [] [] "t"
             (fun _ => None) (fun _ => None) (fun _ => Ok "testAgent") [] in
  (forall ctx st, leaf TEST_AGENT ctx st = TestAgent_runAsyncImpl (agent_name TEST_AGENT) ctx) /\
  lookup_session (w_svc w) ("testApp", s_userId session, s_id session) = Some session /\
  session_key session = ("testApp", s_userId session, s_id session) /\
  let '(w', o) := run_query (agent_runner leaf 0 (@List.concat Event) "testApp" TEST_AGENT) session "hello" w in
  o = Done tt /\
  w_stdout w' = w_stdout w ++ ["[testAgent]: Hello user! I'm streaming you events now!";
                               "[testAgent]: Event 1"; "[testAgent]: Event 2"].
Proof.
  intros leaf session w.
  assert (Hl : forall ctx st, leaf TEST_AGENT ctx st = TestAgent_runAsyncImpl (agent_name TEST_AGENT) ctx)
    by reflexivity.
  assert (Hs : lookup_session (w_svc w) ("testApp", s_userId session, s_id session) = Some session)
    by (vm_compute; reflexivity).
  split_and!; [exact Hl|exact Hs|reflexivity|].
  exact (test_agent_cli_lines leaf 0 (@List.concat Event) session w session Hl Hs eq_refl).
Defined.

Lemma parallel_sample_merge_witness :
  let leaf := fun (a : Agent) (ctx : InvocationContext) (_ : State) =>
    [mkEvent "e-0" (agent_name a) (Some (ctx_branch ctx)) None
       (if String.eqb (agent_name a) "get_weather_agent" then <["temperature" := VNumber 21]> ∅ else ∅)
       false] in
  let ctx := mkCtx "e-0" "parallel_agent" in
  (forall ls, interleaving ls (@List.concat Event ls)) /\
  let s := leaf ParallelSample.googleSearchAgent (derive ctx "google_search_agent") ∅ in
  let wth := leaf ParallelSample.getWeatherAgent (derive ctx "get_weather_agent") ∅ in
  let out := exec leaf 0 (@List.concat Event) ParallelSample.rootAgent ctx ∅ in
  out ≡ₚ s ++ wth /\
  (Forall (fun e => writes "temperature" e = false) s ->
   fold_from ∅ out !! "temperature" = fold_from ∅ wth !! "temperature").
Proof.
  intros leaf ctx. split; [exact concat_interleaving|].
  exact (parallel_sample_merge leaf 0 (@List.concat Event) ctx ∅ "temperature" concat_interleaving).
Defined.

Lemma loop_sample_escalation_witness :
  let leaf := fun (a : Agent) (ctx : InvocationContext) (st : State) =>
    match st !! "checked" with
    | Some _ => [mkEvent (ctx_invocationId ctx) (agent_name a) None None ∅ true]
    | None => [mkEvent (ctx_invocationId ctx) (agent_name a) None None (<["checked" := VBool true]> ∅) false]
    end in
  let ctx := mkCtx "e-0" "root_agent" in
  let m := leaf LoopSample.monitorTemperatureAgent in
  no_escalation (m ctx ∅) /\
  (take_to_escalation (m ctx (fold_from ∅ (m ctx ∅)))).2 = true /\
  exec leaf 0 (@List.concat Event) LoopSample.rootAgent ctx ∅ =
  m ctx ∅ ++ (take_to_escalation (m ctx (fold_from ∅ (m ctx ∅)))).1.
Proof.
  intros leaf ctx m. assert (Hn : no_escalation (m ctx ∅)) by repeat constructor.
  assert (He : (take_to_escalation (m ctx (fold_from ∅ (m ctx ∅)))).2 = true)
    by (vm_compute; reflexivity).
  split; [exact Hn|]. split; [exact He|].
  exact (loop_sample_escalation leaf 0 (@List.concat Event) ctx ∅ Hn He).
Defined.

