(* ===== verification/ToolLoop.v ===== *)
(** * The tool-invocation loop of a leaf agent

    Modelled from [spec.md] §4.5 (the [LlmAgent] flow of [@paean-ai/adk]
    is not under [src/]); the tools it invokes are the [FunctionTool]s of
    the samples, whose [execute] bodies are [SampleTools]' definitions.

    The loop is a state machine with the states [AwaitingModel] and
    [ExecutingTools] of the spec and a final state [Finished]:
    [step_fn] is one transition as a function, [step] the same transition
    as an inductive relation, [steps] its reflexive-transitive closure
    with the yielded events concatenated, and [run] the loop driven by
    fuel (the number of transitions).  The model is a function from the
    conversation to its next turn; the [n]-th tool invocation of a
    conversation sees the [n]-th draw of [Math.random()] ([rand n]). *)

From S2P Require Import Prelude AgentTree SampleTools Agents.
From Stdlib Require Import ZArith QArith Lia.
From stdpp Require Import list.

(** ** Data *)

#[local] Set Warnings "-register-all".

(** The JSON values tool arguments and results carry (numbers are kept
    as integers where the tools' code treats them as integers). *)
Inductive Json :=
| JInt (z : Z)
| JReal (q : Q)
| JStr (s : string)
| JArr (l : list Json)
| JUndefined.

Definition Args := list (string * Json).

Record ToolCall := mkCall { call_id : string; call_name : string; call_args : Args }.

(** A model turn: optional text and zero or more tool calls. *)
Record Turn := mkTurn { turn_text : option string; turn_calls : list ToolCall }.

(** A tool result carries the call's identifier; a failed invocation is
    an error payload ([Throw]), not a control-flow error. *)
Record ToolResult := mkResult { res_id : string; res_name : string; res_payload : result Json }.

Inductive ConvItem := CUser (s : string) | CModel (t : Turn) | CTool (r : ToolResult).
Definition Conversation := list ConvItem.

Inductive LoopEvent := ModelTurnEv (t : Turn) | ToolResultEv (r : ToolResult).

Inductive LoopState :=
| AwaitingModel (conv : Conversation)
| ExecutingTools (conv : Conversation) (pending : list ToolCall) (done : list ToolResult)
| Finished.

(** A tool's [execute] with the [Math.random()] draw it may use. *)
Definition ToolImpl := Q -> Args -> result Json.
Definition Toolset := list (string * ToolImpl).

(** ** The function tools of the samples *)

Fixpoint arg (k : string) (a : Args) : option Json :=
  match a with
  | [] => None
  | (k', v) :: a' => if String.eqb k' k then Some v else arg k a'
  end.

Fixpoint ints (l : list Json) : option (list Z) :=
  match l with
  | [] => Some []
  | JInt z :: l' => zs ← ints l'; Some (z :: zs)
  | _ :: _ => None
  end.

(** The [zod] schema check of [parameters] failing. *)
Definition invalid_args (tool : string) : JsError :=
  Error ("Invalid arguments for tool " +:+ tool).

Definition rollDiceTool : ToolImpl := fun r a =>
  match arg "sides" a with
  | Some (JInt sides) => Ok (JInt (roll_dice r sides))
  | _ => Throw (invalid_args "roll_dice")
  end.

Definition checkPrimeTool : ToolImpl := fun _ a =>
  match arg "numbers" a ≫= (fun v => match v with JArr l => ints l | _ => None end) with
  | Some numbers => Ok (JStr (check_prime numbers))
  | None => Throw (invalid_args "check_prime")
  end.

Definition getWeatherTemperatureTool : ToolImpl := fun r a =>
  match arg "city" a with
  | Some (JStr city) => Ok (JStr (get_weather_temperature r city))
  | _ => Throw (invalid_args "get_weather_temperature")
  end.

Definition getTemperatureTool : ToolImpl := fun r _ => Ok (JReal (get_temperature r)).

(** [console.log] only; the result is [undefined]. *)
Definition notifyUserTool : ToolImpl := fun _ a =>
  match arg "temperature" a, arg "threshold" a with
  | Some (JInt _ | JReal _), Some (JInt _ | JReal _) => Ok JUndefined
  | _, _ => Throw (invalid_args "notify_user")
  end.

(** The implementations behind the sample trees' tool names. *)
Definition sample_tool (n : string) : option ToolImpl :=
  if String.eqb n "roll_dice" then Some rollDiceTool
  else if String.eqb n "check_prime" then Some checkPrimeTool
  else if String.eqb n "get_weather_temperature" then Some getWeatherTemperatureTool
  else if String.eqb n "get_temperature" then Some getTemperatureTool
  else if String.eqb n "notify_user" then Some notifyUserTool
  else None.

(** The configured tool set of an agent of the samples. *)
Definition toolset_of (a : Agent) : Toolset :=
  omap (fun t => (fun f => (tool_name t, f)) <$> sample_tool (tool_name t)) (agent_tools a).

(** ** The loop *)

Fixpoint resolve_tool (ts : Toolset) (n : string) : option ToolImpl :=
  match ts with
  | [] => None
  | (m, f) :: ts' => if String.eqb m n then Some f else resolve_tool ts' n
  end.

Definition tool_not_found (n : string) : JsError := Error ("Tool not found: " +:+ n).

(** The number of tool results in a conversation: the index of the next
    invocation's random draw. *)
Definition results_in (conv : Conversation) : nat :=
  length (List.filter (fun i => match i with CTool _ => true | _ => false end) conv).

Section Loop.
Variable model : Conversation -> Turn.
Variable tools : Toolset.
Variable rand : nat -> Q.

(** Resolve the named tool and invoke it with the call's arguments. *)
Definition invoke (k : nat) (c : ToolCall) : ToolResult :=
  mkResult (call_id c) (call_name c)
    (match resolve_tool tools (call_name c) with
     | Some f => f (rand k) (call_args c)
     | None => Throw (tool_not_found (call_name c))
     end).

Definition step_fn (s : LoopState) : option (list LoopEvent * LoopState) :=
  match s with
  | AwaitingModel conv =>
      let t := model conv in
      Some ([ModelTurnEv t],
            match turn_calls t with
            | [] => Finished
            | cs => ExecutingTools (conv ++ [CModel t]) cs []
            end)
  | ExecutingTools conv (c :: cs) rs =>
      let r := invoke (results_in conv + length rs) c in
      Some ([ToolResultEv r], ExecutingTools conv cs (rs ++ [r]))
  | ExecutingTools conv [] rs => Some ([], AwaitingModel (conv ++ map CTool rs))
  | Finished => None
  end.

Inductive step : LoopState -> list LoopEvent -> LoopState -> Prop :=
| step_final conv :
    turn_calls (model conv) = [] ->
    step (AwaitingModel conv) [ModelTurnEv (model conv)] Finished
| step_calls conv c cs :
    turn_calls (model conv) = c :: cs ->
    step (AwaitingModel conv) [ModelTurnEv (model conv)]
         (ExecutingTools (conv ++ [CModel (model conv)]) (c :: cs) [])
| step_tool conv c cs rs :
    step (ExecutingTools conv (c :: cs) rs)
         [ToolResultEv (invoke (results_in conv + length rs) c)]
         (ExecutingTools conv cs (rs ++ [invoke (results_in conv + length rs) c]))
| step_resume conv rs :
    step (ExecutingTools conv [] rs) [] (AwaitingModel (conv ++ map CTool rs)).

Inductive steps : LoopState -> list LoopEvent -> LoopState -> Prop :=
| steps_refl s : steps s [] s
| steps_cons s es s' es' s'' : step s es s' -> steps s' es' s'' -> steps s (es ++ es') s''.

Fixpoint run (fuel : nat) (s : LoopState) : list LoopEvent * LoopState :=
  match fuel with
  | O => ([], s)
  | S n =>
      match step_fn s with
      | None => ([], s)
      | Some (es, s') => let '(es', s'') := run n s' in (es ++ es', s'')
      end
  end.

End Loop.

(** ** Statement helpers *)

Definition model_turns (es : list LoopEvent) : list Turn :=
  omap (fun e => match e with ModelTurnEv t => Some t | _ => None end) es.

Definition tool_results (es : list LoopEvent) : list ToolResult :=
  omap (fun e => match e with ToolResultEv r => Some r | _ => None end) es.

(** The calls the model turns of a trace issue, in order. *)
Definition calls_of (es : list LoopEvent) : list ToolCall := concat (map turn_calls (model_turns es)).

Definition pending_of (s : LoopState) : list ToolCall :=
  match s with ExecutingTools _ p _ => p | _ => [] end.


(** Every model turn of the trace asks for at least one tool. *)
Definition turns_call (es : list LoopEvent) : Prop :=
  Forall (fun t => turn_calls t <> []) (model_turns es).

Definition turns_in (conv : Conversation) : nat :=
  length (List.filter (fun i => match i with CModel _ => true | _ => false end) conv).

(** A model that asks for the call [calls_at i] on its turns [i < k] and
    answers [final] on its turn [k] (spec §8, "tool loop convergence",
    pins [k = 2]). *)
Definition pinned_model (k : nat) (calls_at : nat -> ToolCall) (final : string)
    (conv : Conversation) : Turn :=
  let i := turns_in conv in
  if i <? k then mkTurn None [calls_at i] else mkTurn (Some final) [].

(** ** The step function and the step relation *)

Section LoopProofs.
Variable model : Conversation -> Turn.
Variable tools : Toolset.
Variable rand : nat -> Q.

Lemma step_fn_step s es s' :
  step_fn model tools rand s = Some (es, s') <-> step model tools rand s es s'.
Proof.
  split.
  - destruct s as [conv|conv [|c cs] rs|]; simpl; intros; simplify_eq; [|constructor|constructor].
    destruct (turn_calls (model conv)) as [|c cs] eqn:E; simplify_eq; by constructor.
  - destruct 1 as [conv E|conv c cs E| |]; simpl; by rewrite ?E.
Qed.

Lemma step_from_finished es s' : ~ step model tools rand Finished es s'.
Proof. inversion 1. Qed.

Lemma steps_trans s es s' es' s'' :
  steps model tools rand s es s' -> steps model tools rand s' es' s'' ->
  steps model tools rand s (es ++ es') s''.
Proof.
  induction 1 as [|s0 e0 s1 e1 s2 Hs _ IH]; intros H; [done|].
  rewrite <- app_assoc. econstructor; [exact Hs|by apply IH].
Qed.

Lemma steps_finished es s' : steps model tools rand Finished es s' -> es = [] /\ s' = Finished.
Proof. inversion 1 as [|? ? ? ? ? Hs]; [done|]. by apply step_from_finished in Hs. Qed.

(** [run] follows the relation. *)
Lemma run_steps fuel s : steps model tools rand s (run model tools rand fuel s).1 (run model tools rand fuel s).2.
Proof.
  revert s. induction fuel as [|n IH]; intros s; simpl; [constructor|].
  destruct (step_fn model tools rand s) as [[es s']|] eqn:E; [|constructor].
  specialize (IH s'). destruct (run model tools rand n s') as [es' s'']. simpl.
  econstructor; [by apply step_fn_step|exact IH].
Qed.

Lemma run_step n s es s' :
  step_fn model tools rand s = Some (es, s') ->
  run model tools rand (S n) s = (es ++ (run model tools rand n s').1, (run model tools rand n s').2).
Proof. intros E. simpl. rewrite E. by destruct (run model tools rand n s'). Qed.

(** Fuel beyond termination changes nothing. *)
Lemma run_finished_mono n m s :
  (run model tools rand n s).2 = Finished -> n <= m -> run model tools rand m s = run model tools rand n s.
Proof.
  revert m s. induction n as [|n IH]; intros m s Hf Hle.
  - simpl in *. subst s. destruct m; [done|]. reflexivity.
  - destruct m as [|m]; [lia|]. simpl in *.
    destruct (step_fn model tools rand s) as [[es s']|]; [|done].
    destruct (run model tools rand n s') as [es' s''] eqn:E. simpl in Hf.
    rewrite IH; [by rewrite E|by rewrite E|lia].
Qed.

(** ** Results follow calls *)

Lemma model_turns_app es es' : model_turns (es ++ es') = model_turns es ++ model_turns es'.
Proof. apply omap_app. Qed.
Lemma tool_results_app es es' : tool_results (es ++ es') = tool_results es ++ tool_results es'.
Proof. apply omap_app. Qed.
Lemma calls_of_app es es' : calls_of (es ++ es') = calls_of es ++ calls_of es'.
Proof. unfold calls_of. by rewrite model_turns_app, map_app, concat_app. Qed.

(** Every result is the invocation of one call: the calls pending at the
    start and those the trace's turns issue are the calls answered by
    the trace's results, in order, followed by those still pending. *)
Lemma steps_results s es s' :
  steps model tools rand s es s' ->
  exists answered, pending_of s ++ calls_of es = answered ++ pending_of s' /\
    Forall2 (fun c r => exists k, r = invoke tools rand k c) answered (tool_results es).
Proof.
  induction 1 as [s|s es1 s1 es2 s2 Hs Hss (ans & Heq & HF)].
  - exists []. by rewrite app_nil_r.
  - rewrite calls_of_app, tool_results_app.
    destruct Hs as [conv E|conv c cs E|conv c cs rs|conv rs];
      unfold calls_of, tool_results, model_turns in *; simpl in *.
    + apply steps_finished in Hss as [-> ->]. exists []. by rewrite E.
    + exists ans. by rewrite E, app_nil_r.
    + exists (c :: ans). split; [by rewrite Heq|]. constructor; eauto.
    + by exists ans.
Qed.

(** ** The only terminal condition *)

Lemma step_not_finished s es s' :
  step model tools rand s es s' -> s' <> Finished -> turns_call es.
Proof. destruct 1 as [|conv c cs E| |]; intros Hn; try done; repeat constructor. by rewrite E. Qed.

Lemma steps_terminal s es :
  steps model tools rand s es Finished -> s <> Finished ->
  exists es0 t, es = es0 ++ [ModelTurnEv t] /\ turn_calls t = [] /\ turns_call es0.
Proof.
  remember Finished as f eqn:Ef. induction 1 as [|s es1 s1 es2 s2 Hs Hss IH]; [done|].
  intros _. subst s2. assert (Hd : s1 = Finished \/ s1 <> Finished) by (destruct s1; [right|right|left]; congruence).
  destruct Hd as [->|Hn].
  - apply steps_finished in Hss as [-> _].
    inversion Hs as [conv E| | |]; subst.
    exists [], (model conv). split_and!; [by rewrite app_nil_r|done|constructor].
  - destruct (IH eq_refl Hn) as (es0 & t & -> & Ht & Hc).
    exists (es1 ++ es0), t. rewrite app_assoc. split_and!; [done|done|].
    unfold turns_call. rewrite model_turns_app. apply Forall_app.
    split; [by eapply step_not_finished|done].
Qed.

(** ** Convergence and divergence *)

Lemma steps_results_forall (P : ToolResult -> Prop) s es s' :
  steps model tools rand s es s' -> pending_of s = [] ->
  Forall (fun c => forall k, P (invoke tools rand k c)) (calls_of es) ->
  Forall P (tool_results es).
Proof.
  intros Hs Hp Hc. destruct (steps_results s es s' Hs) as (ans & Heq & HF).
  rewrite Hp in Heq. simpl in Heq. rewrite Heq, Forall_app in Hc. destruct Hc as [Hc _].
  clear Heq. revert Hc. induction HF as [|c r ans rs [k ->] _ IH]; intros Hc; [constructor|].
  inversion Hc as [|? ? Hc1 Hc2]. constructor; [apply Hc1|exact (IH Hc2)].
Qed.

(** A model whose every turn asks for a tool never finishes: there is no
    bound on the number of turns. *)
Lemma steps_never_finished s es s' :
  (forall conv, turn_calls (model conv) <> []) ->
  steps model tools rand s es s' -> s <> Finished -> s' <> Finished.
Proof.
  intros Hm. induction 1 as [|s es1 s1 es2 s2 Hs _ IH]; [done|].
  intros _. apply IH. destruct Hs as [conv E| | |]; [by destruct (Hm conv)|done|done|done].
Qed.

(** Every model turn of a trace is the model's answer to some conversation. *)
Lemma steps_turns_model s es s' :
  steps model tools rand s es s' -> Forall (fun t => exists conv, t = model conv) (model_turns es).
Proof.
  induction 1 as [|s es1 s1 es2 s2 Hs _ IH]; [constructor|].
  rewrite model_turns_app. apply Forall_app. split; [|done].
  destruct Hs; repeat constructor; eauto.
Qed.

End LoopProofs.

Lemma resolve_single n m f : resolve_tool [(m, f)] n = if String.eqb n m then Some f else None.
Proof. simpl. by rewrite String.eqb_sym. Qed.

Lemma turns_in_app l1 l2 : turns_in (l1 ++ l2) = turns_in l1 + turns_in l2.
Proof. unfold turns_in. by rewrite List.filter_app, length_app. Qed.

(** The pinned model's loop, [n] turns before its last: three transitions
    per round (turn, tool, resume) and one for the final turn. *)
Lemma run_pinned k calls_at final tools rand n conv :
  turns_in conv + n = k ->
  let '(es, s) := run (pinned_model k calls_at final) tools rand (3 * n + 1) (AwaitingModel conv) in
  s = Finished /\
  model_turns es = map (fun i => mkTurn None [calls_at i]) (seq (turns_in conv) n)
                   ++ [mkTurn (Some final) []] /\
  calls_of es = map calls_at (seq (turns_in conv) n).
Proof.
  revert conv. induction n as [|n IH]; intros conv Hk.
  - assert (Ht : pinned_model k calls_at final conv = mkTurn (Some final) []).
    { unfold pinned_model. rewrite Nat.add_0_r in Hk. by rewrite Hk, Nat.ltb_irrefl. }
    simpl. rewrite Ht. simpl. by split_and!.
  - set (i := turns_in conv). set (t := mkTurn None [calls_at i]).
    assert (Ht : pinned_model k calls_at final conv = t).
    { unfold pinned_model. fold i. by rewrite (proj2 (Nat.ltb_lt i k)) by lia. }
    set (conv1 := conv ++ [CModel t]).
    set (r := invoke tools rand (results_in conv1 + 0) (calls_at i)).
    replace (3 * S n + 1) with (S (S (S (3 * n + 1)))) by lia.
    rewrite (run_step _ _ _ _ _ [ModelTurnEv t] (ExecutingTools conv1 [calls_at i] []))
      by (simpl; by rewrite Ht).
    rewrite (run_step _ _ _ _ _ [ToolResultEv r] (ExecutingTools conv1 [] [r])) by reflexivity.
    rewrite (run_step _ _ _ _ _ [] (AwaitingModel (conv1 ++ [CTool r]))) by reflexivity.
    assert (Hi : turns_in (conv1 ++ [CTool r]) = S i).
    { unfold conv1, i. rewrite !turns_in_app. change (turns_in [CModel t]) with 1.
      change (turns_in [CTool r]) with 0. lia. }
    specialize (IH (conv1 ++ [CTool r]) ltac:(rewrite Hi; lia)). rewrite Hi in IH.
    destruct (run _ _ _ (3 * n + 1) _) as [es s]. cbn [fst snd].
    destruct IH as (-> & Hm & Hc). split_and!; [done| |].
    + by rewrite !model_turns_app, Hm.
    + by rewrite !calls_of_app, Hc.
Qed.

(** ** The sample agents' loops *)

(** C21. Whatever its model does, the tool loop of [prime_agent] answers
    the calls of the model's turns one by one and in order: the results
    it yields are, call for call, what [checkPrimeTool.execute] returns,
    or a "tool not found" error payload for a name the agent does not
    have, followed by the calls still pending. *)
Theorem prime_agent_results_in_order model rand conv es s :
  steps model (toolset_of SequentialSample.primeAgent) rand (AwaitingModel conv) es s ->
  exists answered, calls_of es = answered ++ pending_of s /\
    tool_results es =
      map (fun c => mkResult (call_id c) (call_name c)
             (if String.eqb (call_name c) "check_prime" then checkPrimeTool 0%Q (call_args c)
              else Throw (tool_not_found (call_name c)))) answered.
Proof.
  intros Hs. destruct (steps_results _ _ _ _ _ _ Hs) as (ans & Heq & HF).
  exists ans. split; [done|]. clear Heq.
  induction HF as [|c r ans rs [k ->] _ IH]; [done|]. simpl. rewrite IH.
  unfold invoke. change (toolset_of SequentialSample.primeAgent) with [("check_prime", checkPrimeTool)].
  rewrite resolve_single. by destruct (String.eqb (call_name c) "check_prime").
Qed.

(** C22. Tool-loop convergence (spec §8) on [roll_agent]: when the model
    calls [roll_dice] until its pinned third turn answers with text, the
    loop stops after seven transitions with exactly three model turns and
    two tool results, each a roll between 1 and [sides]. *)
Theorem roll_agent_tool_loop_converges rand ids sides final conv :
  turns_in conv = 0 -> (1 <= sides)%Z -> (forall n, 0 <= rand n < 1)%Q ->
  let model := pinned_model 2 (fun i => mkCall (ids i) "roll_dice" [("sides", JInt sides)]) final in
  let '(es, s) := run model (toolset_of SequentialSample.rollAgent) rand 7 (AwaitingModel conv) in
  s = Finished /\ length (model_turns es) = 3 /\ length (tool_results es) = 2 /\
  Forall (fun r => exists k, res_payload r = Ok (JInt k) /\ (1 <= k <= sides)%Z) (tool_results es).
Proof.
  intros H0 Hs Hr model.
  pose proof (run_pinned 2 (fun i => mkCall (ids i) "roll_dice" [("sides", JInt sides)]) final
    (toolset_of SequentialSample.rollAgent) rand 2 conv ltac:(lia)) as Hp.
  pose proof (run_steps model (toolset_of SequentialSample.rollAgent) rand 7 (AwaitingModel conv)) as Hst.
  change (3 * 2 + 1) with 7 in Hp. fold model in Hp.
  destruct (run model _ rand 7 _) as [es s]. destruct Hp as (-> & Hm & Hc).
  rewrite H0 in Hm, Hc. cbn [fst snd] in Hst |- *. split_and!; [done|by rewrite Hm| |].
  - destruct (steps_results _ _ _ _ _ _ Hst) as (ans & Heq & HF). simpl in Heq.
    rewrite app_nil_r in Heq. by rewrite <- (Forall2_length _ _ _ HF), <- Heq, Hc.
  - eapply steps_results_forall; [exact Hst|done|]. rewrite Hc.
    repeat constructor; intros k; exists (roll_dice (rand k) sides);
      (split; [reflexivity|by apply roll_dice_range]).
Qed.

(** C23. There is no turn limit in the loop (spec §4.5, §9): a model
    that always asks [monitor_temperature_agent] for [get_temperature]
    keeps its loop running for any number of transitions, and every result
    it yields is a temperature in [[30, 40)]. *)
Theorem monitor_agent_tool_loop_unbounded model rand fuel conv :
  (forall conv, turn_calls (model conv) <> [] /\
     Forall (fun c => call_name c = "get_temperature") (turn_calls (model conv))) ->
  (forall n, 0 <= rand n < 1)%Q ->
  let '(es, s) := run model (toolset_of LoopSample.monitorTemperatureAgent) rand fuel (AwaitingModel conv) in
  s <> Finished /\
  Forall (fun r => exists q, res_payload r = Ok (JReal q) /\ (30 <= q < 40)%Q) (tool_results es).
Proof.
  intros Hm Hr.
  pose proof (run_steps model (toolset_of LoopSample.monitorTemperatureAgent) rand fuel (AwaitingModel conv)) as Hst.
  destruct (run _ _ _ _ _) as [es s]. cbn [fst snd] in Hst |- *. split.
  - eapply steps_never_finished; [|exact Hst|done]. intros c. apply Hm.
  - eapply steps_results_forall; [exact Hst|done|].
    apply Forall_concat, Forall_map. eapply Forall_impl; [exact (steps_turns_model _ _ _ _ _ _ Hst)|].
    intros t [c ->]. eapply Forall_impl; [apply Hm|]. intros call Hn k.
    exists (get_temperature (rand k)). split; [unfold invoke; by rewrite Hn|by apply get_temperature_range].
Qed.

(** C24. A failing tool call is data, not an error (spec §4.5, §7): when
    the model asks [prime_agent] for a tool it does not have, or for
    [check_prime] without its [numbers] argument, the loop yields the
    model's turn and an error result for the call, and asks the model
    again with both appended to the conversation. *)
Theorem prime_agent_tool_error_as_data model rand conv txt c :
  model conv = mkTurn txt [c] ->
  call_name c <> "check_prime" \/ arg "numbers" (call_args c) = None ->
  exists e,
    run model (toolset_of SequentialSample.primeAgent) rand 3 (AwaitingModel conv) =
    ([ModelTurnEv (mkTurn txt [c]); ToolResultEv (mkResult (call_id c) (call_name c) (Throw e))],
     AwaitingModel (conv ++ [CModel (mkTurn txt [c]); CTool (mkResult (call_id c) (call_name c) (Throw e))])).
Proof.
  intros Hm Hc. set (tools := toolset_of SequentialSample.primeAgent).
  set (conv1 := conv ++ [CModel (mkTurn txt [c])]).
  assert (Hr : exists e, invoke tools rand (results_in conv1 + 0) c = mkResult (call_id c) (call_name c) (Throw e)).
  { unfold invoke. change tools with [("check_prime", checkPrimeTool)]. rewrite resolve_single.
    destruct (String.eqb_spec (call_name c) "check_prime") as [E|E]; [|by eexists].
    destruct Hc as [Hc|Ha]; [done|]. unfold checkPrimeTool. rewrite Ha. by eexists. }
  destruct Hr as [e Hr]. exists e.
  rewrite (run_step _ _ _ _ _ [ModelTurnEv (mkTurn txt [c])] (ExecutingTools conv1 [c] []))
    by (simpl; by rewrite Hm).
  rewrite (run_step _ _ _ _ _ _ _) by reflexivity.
  rewrite (run_step _ _ _ _ _ _ _) by reflexivity. simpl. rewrite Hr. unfold conv1. by rewrite <- app_assoc.
Qed.

(** ** Witnesses *)

Lemma prime_agent_results_in_order_witness :
  let model := pinned_model 1 (fun _ => mkCall "c1" "check_prime" [("numbers", JArr [JInt 2; JInt 3; JInt 4])]) "done" in
  let tools := toolset_of SequentialSample.primeAgent in
  let rand := fun _ : nat => 0%Q in
  steps model tools rand (AwaitingModel []) (run model tools rand 4 (AwaitingModel [])).1
    (run model tools rand 4 (AwaitingModel [])).2 /\
  exists answered, calls_of (run model tools rand 4 (AwaitingModel [])).1 =
      answered ++ pending_of (run model tools rand 4 (AwaitingModel [])).2 /\
    tool_results (run model tools rand 4 (AwaitingModel [])).1 =
      map (fun c => mkResult (call_id c) (call_name c)
             (if String.eqb (call_name c) "check_prime" then checkPrimeTool 0%Q (call_args c)
              else Throw (tool_not_found (call_name c)))) answered.
Proof.
  intros model tools rand. split; [apply run_steps|].
  apply (prime_agent_results_in_order model rand []), run_steps.
Defined.

Lemma roll_agent_tool_loop_converges_witness :
  turns_in [] = 0 /\ (1 <= 6)%Z /\ (forall n : nat, 0 <= (fun _ => Qmake 1 2) n < 1)%Q /\
  let model := pinned_model 2 (fun i => mkCall "roll" "roll_dice" [("sides", JInt 6)]) "rolled" in
  let '(es, s) := run model (toolset_of SequentialSample.rollAgent) (fun _ => Qmake 1 2) 7 (AwaitingModel []) in
  s = Finished /\ length (model_turns es) = 3 /\ length (tool_results es) = 2 /\
  Forall (fun r => exists k, res_payload r = Ok (JInt k) /\ (1 <= k <= 6)%Z) (tool_results es).
Proof.
  assert (Hr : forall n : nat, (0 <= (fun _ => Qmake 1 2) n < 1)%Q) by (intros; unfold Qle, Qlt; simpl; lia).
  split; [reflexivity|]. split; [lia|]. split; [exact Hr|].
  exact (roll_agent_tool_loop_converges _ (fun _ => "roll") 6 "rolled" [] eq_refl ltac:(lia) Hr).
Defined.

Lemma monitor_agent_tool_loop_unbounded_witness :
  let model := fun _ : Conversation => mkTurn None [mkCall "t" "get_temperature" []] in
  (forall conv, turn_calls (model conv) <> [] /\
     Forall (fun c => call_name c = "get_temperature") (turn_calls (model conv))) /\
  (forall n : nat, 0 <= (fun _ => Qmake 1 3) n < 1)%Q /\
  let '(es, s) := run model (toolset_of LoopSample.monitorTemperatureAgent) (fun _ => Qmake 1 3) 10 (AwaitingModel []) in
  s <> Finished /\
  Forall (fun r => exists q, res_payload r = Ok (JReal q) /\ (30 <= q < 40)%Q) (tool_results es).
Proof.
  intros model.
  assert (Hm : forall conv, turn_calls (model conv) <> [] /\
     Forall (fun c => call_name c = "get_temperature") (turn_calls (model conv)))
    by (intros conv; split; [discriminate|repeat constructor]).
  assert (Hr : forall n : nat, (0 <= (fun _ => Qmake 1 3) n < 1)%Q) by (intros; unfold Qle, Qlt; simpl; lia).
  split; [exact Hm|]. split; [exact Hr|].
  exact (monitor_agent_tool_loop_unbounded model _ 10 [] Hm Hr).
Defined.

Lemma prime_agent_tool_error_as_data_witness :
  let c := mkCall "c1" "roll_dice" [("sides", JInt 6)] in
  let model := fun _ : Conversation => mkTurn None [c] in
  model [] = mkTurn None [c] /\
  (call_name c <> "check_prime" \/ arg "numbers" (call_args c) = None) /\
  exists e,
    run model (toolset_of SequentialSample.primeAgent) (fun _ => 0%Q) 3 (AwaitingModel []) =
    ([ModelTurnEv (mkTurn None [c]); ToolResultEv (mkResult (call_id c) (call_name c) (Throw e))],
     AwaitingModel ([] ++ [CModel (mkTurn None [c]); CTool (mkResult (call_id c) (call_name c) (Throw e))])).
Proof.
  intros c model. split; [reflexivity|]. split; [right; reflexivity|].
  exact (prime_agent_tool_error_as_data model _ [] None c eq_refl (or_intror eq_refl)).
Defined.

