(* ===== verification/JsString.v ===== *)
(** * JavaScript string splitting

    [String.prototype.split] with a string separator, as the test code of
    the repository uses it ([text.split('\n\n')], [t.split('data: ')]).
    [find_sep] finds the first occurrence of the separator; [js_split] cuts
    at every occurrence, left to right, by well-founded recursion on the
    length of the rest (Equations).  An empty separator splits into the
    characters, as in JavaScript. *)

From S2P Require Import Prelude.
From Equations Require Import Equations.
From Stdlib Require Import Lia.

(** [s] with its first [n] characters dropped. *)
Fixpoint str_drop (n : nat) (s : string) : string :=
  match n, s with
  | O, _ => s
  | S n', String _ s' => str_drop n' s'
  | S _, EmptyString => EmptyString
  end.

(** The text before the first occurrence of a non-empty [sep] in [s] and
    the text after it. *)
Fixpoint find_sep_aux (sep s : string) : option (string * string) :=
  if String.prefix sep s then Some (EmptyString, str_drop (String.length sep) s)
  else match s with
       | EmptyString => None
       | String c s' =>
           match find_sep_aux sep s' with
           | Some (pre, post) => Some (String c pre, post)
           | None => None
           end
       end.

Definition find_sep (sep s : string) : option (string * string) :=
  match sep with EmptyString => None | _ => find_sep_aux sep s end.

Fixpoint str_chars (s : string) : list string :=
  match s with
  | EmptyString => []
  | String c s' => String c EmptyString :: str_chars s'
  end.

Lemma str_drop_length n s : String.length (str_drop n s) = String.length s - n.
Proof. revert s. induction n as [|n IH]; intros [|c s]; simpl; rewrite ?IH; lia. Qed.

Lemma prefix_length sep s : String.prefix sep s = true -> String.length sep <= String.length s.
Proof.
  revert s. induction sep as [|c sep IH]; intros [|d s]; simpl; try (lia || discriminate).
  destruct (Ascii.ascii_dec c d); [|discriminate]. intros H. specialize (IH s H). lia.
Qed.

Lemma find_sep_aux_unfold sep s :
  find_sep_aux sep s =
  if String.prefix sep s then Some (EmptyString, str_drop (String.length sep) s)
  else match s with
       | EmptyString => None
       | String c s' =>
           match find_sep_aux sep s' with
           | Some (pre, post) => Some (String c pre, post)
           | None => None
           end
       end.
Proof. by destruct s. Qed.

Lemma find_sep_aux_length sep s pre post :
  sep <> EmptyString -> find_sep_aux sep s = Some (pre, post) ->
  String.length post < String.length s.
Proof.
  intros Hne. revert pre. induction s as [|c s IH]; intros pre; rewrite find_sep_aux_unfold.
  - destruct sep; [done|]. simpl. congruence.
  - destruct (String.prefix sep (String c s)) eqn:E.
    + intros Hs. injection Hs as _ <-. rewrite str_drop_length. apply prefix_length in E.
      destruct sep; [done|simpl in *; lia].
    + destruct (find_sep_aux sep s) as [[p q]|] eqn:F; [|congruence].
      intros Hs. injection Hs as _ <-. specialize (IH p eq_refl). simpl. lia.
Qed.

Lemma find_sep_length sep s pre post :
  find_sep sep s = Some (pre, post) -> String.length post < String.length s.
Proof.
  unfold find_sep. destruct sep as [|c sep]; [discriminate|].
  apply find_sep_aux_length. discriminate.
Qed.

(** [s.split(sep)] for a non-empty separator. *)
Equations? split_nonempty (sep s : string) : list string by wf (String.length s) lt :=
  split_nonempty sep s with Equations.Prop.Logic.inspect (find_sep sep s) => {
    | exist _ (Some (pre, post)) H := pre :: split_nonempty sep post;
    | exist _ None _ := [s] }.
Proof. exact (find_sep_length sep s pre post H). Qed.

(** [s.split(sep)] *)
Definition js_split (sep s : string) : list string :=
  match sep with EmptyString => str_chars s | _ => split_nonempty sep s end.

(** Whether the character [c] occurs in [s]. *)
Fixpoint str_mem (c : Ascii.ascii) (s : string) : bool :=
  match s with
  | EmptyString => false
  | String d s' => if Ascii.ascii_dec c d then true else str_mem c s'
  end.

(** [s.includes(sep)] *)
Definition contains (sep s : string) : Prop := exists x y, s = (x ++ sep ++ y)%string.

(** The first character of a non-empty separator. *)
Definition sep_head (sep : string) : Ascii.ascii :=
  match sep with String c _ => c | EmptyString => Ascii.zero end.

(** ** Lemmas *)

Lemma split_nonempty_eq sep s :
  split_nonempty sep s =
  match find_sep sep s with
  | Some (pre, post) => pre :: split_nonempty sep post
  | None => [s]
  end.
Proof.
  funelim (split_nonempty sep s); match goal with E : find_sep sep s = _ |- _ => by rewrite E end.
Qed.

Lemma prefix_app sep s : String.prefix sep (sep ++ s) = true.
Proof. induction sep as [|c sep IH]; simpl; [by destruct s|]. by destruct (Ascii.ascii_dec c c). Qed.

Lemma str_drop_app sep s : str_drop (String.length sep) (sep ++ s) = s.
Proof. by induction sep. Qed.

Lemma prefix_inv sep s : String.prefix sep s = true -> s = (sep ++ str_drop (String.length sep) s)%string.
Proof.
  revert s. induction sep as [|c sep IH]; intros [|d s]; simpl; try done.
  destruct (Ascii.ascii_dec c d) as [->|]; [|done]. intros H.
  rewrite string_app_cons. f_equal. by apply IH.
Qed.

(** [find_sep] cuts [s] around an occurrence of [sep]. *)
Lemma find_sep_sound sep s pre post :
  find_sep sep s = Some (pre, post) -> s = (pre ++ sep ++ post)%string.
Proof.
  unfold find_sep. destruct sep as [|c0 sep0]; [discriminate|]. set (sep := String c0 sep0).
  revert pre post. induction s as [|c s IH]; intros pre post; rewrite find_sep_aux_unfold.
  - destruct (String.prefix sep "") eqn:E; [|congruence].
    intros Hs. injection Hs as <- <-. exact (prefix_inv _ _ E).
  - destruct (String.prefix sep (String c s)) eqn:E.
    + intros Hs. injection Hs as <- <-. exact (prefix_inv _ _ E).
    + destruct (find_sep_aux sep s) as [[p q]|] eqn:F; [|congruence].
      intros Hs. injection Hs as <- <-. rewrite string_app_cons. by rewrite <- (IH p q eq_refl).
Qed.

Lemma find_sep_none sep s : ~ contains sep s -> sep <> EmptyString -> find_sep sep s = None.
Proof.
  intros Hc Hne. destruct (find_sep sep s) as [[pre post]|] eqn:E; [|done].
  exfalso. apply Hc. exists pre, post. by apply find_sep_sound.
Qed.

Lemma prefix_head sep c s :
  sep <> EmptyString -> c <> sep_head sep -> String.prefix sep (String c s) = false.
Proof.
  destruct sep as [|d sep]; [done|]. intros _ Hc. simpl.
  destruct (Ascii.ascii_dec d c); [subst; done|done].
Qed.

(** The first occurrence of [sep] in [a ++ sep ++ b] is after [a] when
    [a] does not hold the first character of [sep]. *)
Lemma find_sep_first sep a b :
  sep <> EmptyString -> str_mem (sep_head sep) a = false ->
  find_sep sep (a ++ sep ++ b) = Some (a, b).
Proof.
  intros Hne. unfold find_sep. destruct sep as [|c0 sep0]; [done|].
  set (sep := String c0 sep0). fold sep in Hne.
  induction a as [|c a IH]; intros Ha; rewrite find_sep_aux_unfold.
  - rewrite string_app_nil_l. by rewrite prefix_app, str_drop_app.
  - simpl in Ha. destruct (Ascii.ascii_dec c0 c) as [|Hc]; [discriminate|].
    rewrite string_app_cons, (prefix_head sep c); [|done|by intros ->].
    cbv beta iota. by rewrite IH.
Qed.

(** Splitting undoes joining: pieces that do not hold the separator's
    first character, each followed by the separator, then a last piece
    that does not contain it, split back into the pieces. *)
Lemma split_join sep ps last :
  sep <> EmptyString ->
  Forall (fun p => str_mem (sep_head sep) p = false) ps -> ~ contains sep last ->
  js_split sep (str_concat (map (fun p => p ++ sep) ps) ++ last)%string = ps ++ [last].
Proof.
  intros Hne Hps Hl. unfold js_split. destruct sep as [|c0 sep0] eqn:Es; [done|].
  rewrite <- Es in *. induction Hps as [|p ps Hp _ IH]; simpl.
  - rewrite split_nonempty_eq, find_sep_none; [done|done|done].
  - rewrite split_nonempty_eq, <- !string_app_assoc, find_sep_first by done.
    f_equal. exact IH.
Qed.

Lemma contains_empty sep : sep <> EmptyString -> ~ contains sep EmptyString.
Proof.
  intros Hne (x & y & H). symmetry in H.
  apply string_app_eq_empty in H as [_ H]. by apply string_app_eq_empty in H as [? _].
Qed.

(** [find_sep] finds every separator that occurs. *)
Lemma find_sep_complete sep s :
  sep <> EmptyString -> contains sep s -> exists pre post, find_sep sep s = Some (pre, post).
Proof.
  intros Hne (x & y & ->). unfold find_sep. destruct sep as [|c0 sep0]; [done|].
  set (sep := String c0 sep0). induction x as [|c x IH]; rewrite find_sep_aux_unfold.
  - rewrite string_app_nil_l, prefix_app. eauto.
  - rewrite string_app_cons. destruct (String.prefix sep (String c (x ++ sep ++ y))); [eauto|].
    cbv beta iota. destruct IH as (p & q & ->). eauto.
Qed.

Lemma find_sep_none_iff sep s :
  sep <> EmptyString -> find_sep sep s = None <-> ~ contains sep s.
Proof.
  intros Hne. split.
  - intros Hn Hc. destruct (find_sep_complete sep s Hne Hc) as (p & q & E). congruence.
  - intros Hc. by apply find_sep_none.
Qed.

Lemma str_mem_app c a b : str_mem c (a ++ b) = str_mem c a || str_mem c b.
Proof. induction a as [|d a IH]; [done|]. rewrite string_app_cons. simpl. by destruct (Ascii.ascii_dec c d). Qed.

Lemma string_app_length a b : String.length (a ++ b) = String.length a + String.length b.
Proof. induction a as [|d a IH]; [done|]. rewrite string_app_cons. simpl. by rewrite IH. Qed.

(** The first piece of a split is the whole string exactly when the
    separator does not occur in it. *)
Lemma split_head_whole sep s :
  sep <> EmptyString -> head (js_split sep s) = Some s <-> ~ contains sep s.
Proof.
  intros Hne. rewrite <- find_sep_none_iff by done. unfold js_split.
  destruct sep as [|c0 sep0]; [done|]. rewrite split_nonempty_eq.
  destruct (find_sep _ s) as [[pre post]|] eqn:E; simpl; [|done].
  split; [|done]. intros [= ->]. apply find_sep_sound in E.
  apply (f_equal String.length) in E. rewrite !string_app_length in E. simpl in E. lia.
Qed.

(** A string that starts with the separator splits into the empty string
    and the pieces of the rest. *)
Lemma split_leading sep s :
  sep <> EmptyString -> js_split sep (sep ++ s) = "" :: js_split sep s.
Proof.
  intros Hne. unfold js_split. destruct sep as [|c0 sep0]; [done|].
  rewrite split_nonempty_eq.
  rewrite <- (string_app_nil_l (String c0 sep0 ++ s)), find_sep_first; [done|done|done].
Qed.
