(* ===== verification/AgentTool.v ===== *)
(** * The agent-as-tool adapter and the [AgentTool] sample

    Modelled from [spec.md] §4.3 (the [AgentTool] class of
    [@paean-ai/adk] is not under [src/]): the adapter wraps an agent so
    that a Leaf's tool set can delegate to it.  Invoking it drains the
    wrapped agent's whole event sequence synchronously, concatenates the
    text of its events and returns that as the tool's result; with
    [skipSummarization] the sub-agent's own events are kept out of the
    outer stream.  The tool is named after the wrapped agent.

    The wrapped agent is a Leaf, run by the tool loop of [ToolLoop] on a
    conversation that holds the call's [request] argument, with a fuel
    bound on its transitions; a run that does not finish within the fuel
    fails the call ([drain_incomplete]), as a drain that never ends never
    answers it.  The sample of [src/unnamed/part_001] (lines 8-22) wraps
    [summary_agent], which has no tools, with [skipSummarization: true];
    the instruction of its [root_agent] names the tool ['summarize']. *)

From S2P Require Import Prelude AgentTree SampleTools Agents ToolLoop JsString.
From Stdlib Require Import QArith Lia.
From stdpp Require Import list.

(** The text of a drained event sequence: the texts of its model turns,
    concatenated. *)
Definition text_output (es : list LoopEvent) : string := str_concat (omap turn_text (model_turns es)).

(** The wrapped agent did not finish within the fuel. *)
Definition drain_incomplete (n : string) : JsError := Error ("Agent did not finish: " +:+ n).

Section Adapter.
(** The wrapped agent, its flag, and its Leaf: its model, its tools and
    their random draws; [fuel] bounds the transitions of one drain. *)
Variable agent : Agent.
Variable skipSummarization : bool.
Variable sub_model : Conversation -> Turn.
Variable sub_tools : Toolset.
Variable sub_rand : nat -> Q.
Variable fuel : nat.

(** [AgentTool.runAsync]: the tool's result, and the sub-agent's events
    forwarded to the outer stream. *)
Definition agent_tool_run (args : Args) : result Json * list LoopEvent :=
  match arg "request" args with
  | Some (JStr request) =>
      let '(es, s) := run sub_model sub_tools sub_rand fuel (AwaitingModel [CUser request]) in
      (match s with
       | Finished => Ok (JStr (text_output es))
       | _ => Throw (drain_incomplete (agent_name agent))
       end,
       if skipSummarization then [] else es)
  | _ => (Throw (invalid_args (agent_name agent)), [])
  end.

(** The adapter as a tool of the outer loop. *)
Definition agentToolImpl : ToolImpl := fun _ args => (agent_tool_run args).1.

(** The entry of the outer tool set: the tool is named after the agent. *)
Definition agent_tool : string * ToolImpl := (agent_name agent, agentToolImpl).

End Adapter.

(** ** The sample *)

(** [root_agent]'s instruction (part_001, lines 19-20). *)
Definition rootInstruction : string :=
  "You are a helpful assistant. When the user provides a text, use the 'summarize' tool to generate a summary. Always forward the user's message exactly as received to the 'summarize' tool, without modifying or summarizing it yourself. Present the response from the tool to the user.".

(** [tools: [new AgentTool({agent: summaryAgent, skipSummarization: true})]] *)
Definition summary_toolset (summary_model : Conversation -> Turn) (sub_rand : nat -> Q) (fuel : nat) : Toolset :=
  [agent_tool AgentToolSample.summaryAgent true summary_model
     (toolset_of AgentToolSample.summaryAgent) sub_rand fuel].

(** ** Lemmas *)

Lemma run_Finished model tools rand n : run model tools rand n Finished = ([], Finished).
Proof. by destruct n. Qed.

(** A Leaf whose model answers without tool calls finishes after its
    first turn, which is all it yields. *)
Lemma run_single_turn model tools rand n conv :
  turn_calls (model conv) = [] ->
  run model tools rand (S n) (AwaitingModel conv) = ([ModelTurnEv (model conv)], Finished).
Proof. intros E. simpl. rewrite E. by rewrite run_Finished. Qed.

Lemma text_output_single t s : turn_text t = Some s -> text_output [ModelTurnEv t] = s.
Proof. intros E. unfold text_output. simpl. rewrite E. simpl. apply string_app_nil_r. Qed.

(** ** The sample's tool calls *)

(** C25. Delegation through the sample's [AgentTool]: when the root agent's
    model calls [summary_agent] with a [request], and the summary model
    answers that request with text and no tool call, the root loop yields
    the model's turn and then one tool result carrying exactly the
    summary text, for every fuel that allows the summary agent's turn. *)
Theorem summary_agent_tool_result summary_model sub_rand fuel model rand conv id req s :
  turn_calls (model conv) = [mkCall id "summary_agent" [("request", JStr req)]] ->
  turn_calls (summary_model [CUser req]) = [] -> turn_text (summary_model [CUser req]) = Some s ->
  (run model (summary_toolset summary_model sub_rand (S fuel)) rand 2 (AwaitingModel conv)).1 =
    [ModelTurnEv (model conv); ToolResultEv (mkResult id "summary_agent" (Ok (JStr s)))].
Proof.
  intros Hc Hsc Hst. simpl. rewrite Hc. simpl. unfold invoke. simpl.
  unfold agentToolImpl, agent_tool_run. simpl. rewrite Hsc, run_Finished. simpl.
  by rewrite (text_output_single _ s Hst).
Qed.

(** ** Witnesses *)

Lemma summary_agent_tool_result_witness :
  let summary_model := fun _ : Conversation => mkTurn (Some "A short summary.") [] in
  let model := fun _ : Conversation =>
    mkTurn None [mkCall "c1" "summary_agent" [("request", JStr "A long text.")]] in
  turn_calls (model [CUser "A long text."]) = [mkCall "c1" "summary_agent" [("request", JStr "A long text.")]] /\
  turn_calls (summary_model [CUser "A long text."]) = [] /\
  turn_text (summary_model [CUser "A long text."]) = Some "A short summary." /\
  (run model (summary_toolset summary_model (fun _ => 0%Q) 1) (fun _ => 0%Q) 2
     (AwaitingModel [CUser "A long text."])).1 =
    [ModelTurnEv (model [CUser "A long text."]);
     ToolResultEv (mkResult "c1" "summary_agent" (Ok (JStr "A short summary.")))].
Proof.
  intros summary_model model. split_and!; [reflexivity|reflexivity|reflexivity|].
  exact (summary_agent_tool_result summary_model (fun _ => 0%Q) 0 model (fun _ => 0%Q)
           [CUser "A long text."] "c1" "A long text." "A short summary." eq_refl eq_refl eq_refl).
Defined.

