(* ===== verification/WebTest.v ===== *)
(** * The web-server test harness of [loop_agent.ts]

    After the loop sample, [src/dev/samples/loop_agent.ts] holds the test
    suite of [AdkWebServer] (lines 57-521).  The server is not under
    [src/]; the harness is, and this file models it:

    - [MockHttpClient] (lines 64-142).  [sendMockRequest] hands the
      application a mock response whose methods ([status], [send],
      [json], [write], [end], [setHeader], [flushHeaders]) update the
      locals [statusCode] and [streamText] and settle a promise through
      [sendRespose].  The application is a function from the request to
      the response calls it makes, in order, synchronously during
      [this.app(...)]; the promise settles at most once, and an error
      thrown by a call escapes the application and rejects the promise
      through the executor.
    - The shape of the error-status tests (lines 277-291, 308-314, 381-392):
      [try { await client.get(...) } catch (e) { expect(e.response.status)
      .toBe(n) }].
    - The parsing of the [run_sse] test (lines 483-519): the body is
      split at blank lines, the last (empty) piece popped, each piece
      split at ["data: "] and its second part parsed as JSON.

    JSON itself ([JSON.parse], and the server's [JSON.stringify] of an
    event) is a parameter of the theorems. *)

From S2P Require Import Prelude GeminiStream AgentTree Session Runner Agents JsString.
From stdpp Require Import gmap.
From Stdlib Require Import ZArith Ascii.

Inductive Method := GET | POST | PUT | DELETE.

Section MockHttp.
(** Request bodies and response data are of any type; [error_of] reads
    [(jsonData as {error: string}).error] of defined data. *)
Context {B D : Type}.
Variable error_of : D -> option string.

Record MockRequest := mkRequest { rq_method : Method; rq_url : string; rq_body : option B }.

(** The methods of [mockResponse] the application calls. *)
Inductive ResCall :=
| ResStatus (code : Z)
| ResSend (dataString : string)
| ResJson (data : option D)
| ResWrite (streamChunk : string)
| ResEnd
| ResSetHeader (name value : string)
| ResFlushHeaders.

(** The value the promise resolves with: [{status, data, text}]. *)
Record MockResponse := mkResponse { mr_status : Z; mr_data : option D; mr_text : option string }.

Inductive Settled :=
| Fulfilled (r : MockResponse)
(** [reject({response: {status}, message})] *)
| RejectedHttp (status : Z) (message : option string)
(** the executor rejecting with an error the application threw *)
| RejectedError (e : JsError).

(** The locals [statusCode] and [streamText] and the promise's state
    ([None] while pending). *)
Record MockState := mkState {
  ms_statusCode : Z;
  ms_streamText : string;
  ms_settled : option Settled
}.

Definition init_state : MockState := mkState 200 "" None.

(** [resolve] and [reject] settle a pending promise and do nothing to a
    settled one. *)
Definition settle (st : MockState) (v : Settled) : MockState :=
  match ms_settled st with
  | None => mkState (ms_statusCode st) (ms_streamText st) (Some v)
  | Some _ => st
  end.

Definition undefined_error : JsError :=
  TypeError "Cannot read properties of undefined (reading 'error')".

(** [sendRespose(statusCode, jsonData, text)]: reject on a status above
    399 (reading [jsonData.error] first), then resolve. *)
Definition sendRespose (st : MockState) (statusCode : Z) (jsonData : option D)
    (text : option string) : result MockState :=
  st1 <- (if Z.ltb 399 statusCode then
            match jsonData with
            | Some d => Ok (settle st (RejectedHttp statusCode (error_of d)))
            | None => Throw undefined_error
            end
          else Ok st) ;;
  Ok (settle st1 (Fulfilled (mkResponse statusCode jsonData text))).

Definition mock_call (st : MockState) (c : ResCall) : result MockState :=
  match c with
  | ResStatus code => Ok (mkState code (ms_streamText st) (ms_settled st))
  | ResSend s => sendRespose st (ms_statusCode st) None (Some s)
  | ResJson d => sendRespose st (ms_statusCode st) d None
  | ResWrite chunk => Ok (mkState (ms_statusCode st) (ms_streamText st ++ chunk) (ms_settled st))
  | ResEnd => sendRespose st (ms_statusCode st) None (Some (ms_streamText st))
  | ResSetHeader _ _ | ResFlushHeaders => Ok st
  end.

(** [this.app(mockRequest, mockResponse)]: the calls in order, until one
    throws. *)
Fixpoint run_calls (st : MockState) (cs : list ResCall) : MockState * option JsError :=
  match cs with
  | [] => (st, None)
  | c :: cs' =>
      match mock_call st c with
      | Ok st' => run_calls st' cs'
      | Throw e => (st, Some e)
      end
  end.

(** [sendMockRequest(url, {method, body})]: how the returned promise
    settles, [None] when it never does. *)
Definition sendMockRequest (app : MockRequest -> list ResCall) (url : string)
    (method : Method) (body : option B) : option Settled :=
  let '(st, err) := run_calls init_state (app (mkRequest method url body)) in
  match err with
  | Some e => ms_settled (settle st (RejectedError e))
  | None => ms_settled st
  end.

Definition client_get app url := sendMockRequest app url GET None.
Definition client_post app url body := sendMockRequest app url POST (Some body).
Definition client_put app url body := sendMockRequest app url PUT (Some body).
Definition client_delete app url := sendMockRequest app url DELETE None.

End MockHttp.

Arguments MockRequest : clear implicits.
Arguments ResCall : clear implicits.
Arguments MockResponse : clear implicits.
Arguments Settled : clear implicits.
Arguments MockState : clear implicits.

(** ** The tests *)

Inductive TestOutcome := Passed | Failed | TimedOut.

(** [try { await request; } catch (e) { expect(e.response.status).toBe(expected); }]:
    a fulfilled request runs no assertion; an error without [response]
    makes [e.response.status] throw. *)
Definition expect_status_in_catch {D} (expected : Z) (p : option (Settled D)) : TestOutcome :=
  match p with
  | None => TimedOut
  | Some (Fulfilled _) => Passed
  | Some (RejectedHttp s _) => if Z.eqb s expected then Passed else Failed
  | Some (RejectedError _) => Failed
  end.

Definition nl2 : string := String "010" (String "010" EmptyString).

(** [rawEvent = text.split('\n\n'); rawEvent.pop();
     rawEvent.map(eventText => eventText.split('data: ')[1])] *)
Definition sse_payloads (text : string) : list (option string) :=
  map (fun eventText => nth_error (js_split "data: " eventText) 1) (removelast (js_split nl2 text)).

(** [events[i]!.content?.parts?.[0].text] *)
Definition first_text (e : Event) : option string :=
  match ev_content e with
  | Some c => match c_parts c with Some (p :: _) => p_text p | _ => None end
  | None => None
  end.

Definition run_sse_texts : list string :=
  ["Hello user! I'm streaming you events now!"; "Event 1"; "Event 2"].

(** The [run_sse] test (lines 484-518) on the settled request, with
    [JSON.parse] as [parse]: a rejection, an undefined [text] or a
    [JSON.parse] error fails it, as does any failed expectation. *)
Definition run_sse_test {D} (parse : string -> option Event) (p : option (Settled D)) : TestOutcome :=
  match p with
  | None => TimedOut
  | Some (RejectedHttp _ _) | Some (RejectedError _) => Failed
  | Some (Fulfilled r) =>
      match mr_text r with
      | None => Failed
      | Some text =>
          match mapM (fun o => o ≫= parse) (sse_payloads text) with
          | None => Failed
          | Some events =>
              if Z.eqb (mr_status r) 200 && Nat.eqb (length events) 3 &&
                 bool_decide (map first_text events = map Some run_sse_texts)
              then Passed else Failed
          end
      end
  end.

(** ** Statement helpers *)

(** The frame of one event on the [run_sse] stream. *)
Definition sse_frame (json : string) : string := ("data: " ++ json ++ nl2)%string.

Definition is_header_call {D} (c : ResCall D) : Prop :=
  match c with ResSetHeader _ _ | ResFlushHeaders => True | _ => False end.

(** Calls that answer the request. *)
Definition responds {D} (c : ResCall D) : Prop :=
  match c with ResSend _ | ResJson _ | ResEnd => True | _ => False end.

(** The outcome of a try/catch status test against an answer with status
    [s] made by the call [c]. *)
Definition status_test_outcome {D} (expected s : Z) (c : ResCall D) : TestOutcome :=
  if Z.ltb 399 s then
    match c with
    | ResJson (Some _) => if Z.eqb s expected then Passed else Failed
    | _ => Failed
    end
  else Passed.

(** The reference semantics of the client's promise: the first value it
    is settled with, scanning the application's calls. *)
Fixpoint first_settled {D} (error_of : D -> option string) (st : MockState D) (cs : list (ResCall D))
    : option (Settled D) :=
  match ms_settled st with
  | Some v => Some v
  | None =>
      match cs with
      | [] => None
      | c :: cs' =>
          match mock_call error_of st c with
          | Ok st' => first_settled error_of st' cs'
          | Throw e => Some (RejectedError e)
          end
      end
  end.

(** What the executor makes of the application's run. *)
Definition outcome {D} (r : MockState D * option JsError) : option (Settled D) :=
  let '(st', err) := r in
  match err with
  | Some e => ms_settled (settle st' (RejectedError e))
  | None => ms_settled st'
  end.

(** ** The mock client *)

Section MockProofs.
Context {B D : Type}.
Variable error_of : D -> option string.

Lemma settle_settled (st : MockState D) v w : ms_settled st = Some v -> settle st w = st.
Proof. unfold settle. by intros ->. Qed.

Lemma sendRespose_settled (st st' : MockState D) v code data text :
  ms_settled st = Some v -> sendRespose error_of st code data text = Ok st' -> ms_settled st' = Some v.
Proof.
  intros Hs. unfold sendRespose, settle. rewrite Hs.
  destruct (Z.ltb 399 code); [destruct data|]; simpl; try discriminate; rewrite Hs; by intros [= <-].
Qed.

Lemma mock_call_settled (st st' : MockState D) v c :
  ms_settled st = Some v -> mock_call error_of st c = Ok st' -> ms_settled st' = Some v.
Proof.
  intros Hs. destruct c; simpl; try (by intros [= <-]); by apply sendRespose_settled.
Qed.

(** Once settled, the promise keeps its value whatever the application
    does next. *)
Lemma run_calls_settled (st : MockState D) v cs :
  ms_settled st = Some v -> ms_settled (run_calls error_of st cs).1 = Some v.
Proof.
  revert st. induction cs as [|c cs IH]; intros st Hs; simpl; [done|].
  destruct (mock_call error_of st c) as [st'|e] eqn:E; simpl; [|done].
  apply IH. by eapply mock_call_settled.
Qed.

Lemma run_calls_app (st : MockState D) cs1 cs2 :
  run_calls error_of st (cs1 ++ cs2) =
  match run_calls error_of st cs1 with
  | (st1, None) => run_calls error_of st1 cs2
  | r => r
  end.
Proof.
  revert st. induction cs1 as [|c cs IH]; intros st; simpl; [done|].
  destruct (mock_call error_of st c); [apply IH|done].
Qed.

Lemma first_settled_settled (st : MockState D) v cs :
  ms_settled st = Some v -> first_settled error_of st cs = Some v.
Proof. destruct cs; simpl; by intros ->. Qed.

Lemma outcome_settled (st : MockState D) v cs :
  ms_settled st = Some v -> outcome (run_calls error_of st cs) = Some v.
Proof.
  intros Hs. pose proof (run_calls_settled st v cs Hs) as H.
  destruct (run_calls error_of st cs) as [st' [e|]]; simpl in H; simpl; [|done].
  by rewrite settle_settled with (v := v).
Qed.

Lemma run_calls_first_settled (st : MockState D) cs :
  outcome (run_calls error_of st cs) = first_settled error_of st cs.
Proof.
  revert st. induction cs as [|c cs IH]; intros st;
    (destruct (ms_settled st) as [v|] eqn:Hs;
     [rewrite first_settled_settled with (v := v), outcome_settled with (v := v); done|]);
    simpl; rewrite Hs; [done|].
  destruct (mock_call error_of st c) as [st'|e] eqn:E; [apply IH|].
  simpl. unfold settle. by rewrite Hs.
Qed.

Lemma sendMockRequest_settled app url m (body : option B) st v e :
  run_calls error_of init_state (app (mkRequest m url body)) = (st, e) -> ms_settled st = Some v ->
  sendMockRequest error_of app url m body = Some v.
Proof.
  unfold sendMockRequest. intros -> Hs. destruct e; [by rewrite settle_settled with (v := v)|done].
Qed.

End MockProofs.

(** ** The parsing of the [run_sse] test *)

Lemma sse_frames_concat js :
  str_concat (map sse_frame js) =
  (str_concat (map (fun p => p ++ nl2) (map (fun j => "data: " ++ j) js)) ++ "")%string.
Proof.
  rewrite string_app_nil_r. induction js as [|j js IH]; [done|]. cbn [map].
  rewrite !str_concat_cons, IH. unfold sse_frame. by rewrite !string_app_assoc.
Qed.

Lemma nth_error_split_frame j :
  nth_error (js_split "data: " ("data: " ++ j)) 1 = head (js_split "data: " j).
Proof. rewrite split_leading by done. simpl. by destruct (js_split "data: " j). Qed.

Lemma map_eq_Forall {A C} (f g : A -> C) l : map f l = map g l <-> Forall (fun x => f x = g x) l.
Proof.
  induction l as [|x l IH]; simpl; [split; constructor|].
  rewrite Forall_cons, <- IH. split; [by intros [= -> ->]|intros [-> ->]; done].
Qed.

(** Each frame's payload comes back as its text before the first
    ["data: "]. *)
Lemma sse_payloads_head js :
  Forall (fun j => str_mem "010" j = false) js ->
  sse_payloads (str_concat (map sse_frame js)) = map (fun j => head (js_split "data: " j)) js.
Proof.
  intros Hj. unfold sse_payloads. rewrite sse_frames_concat, split_join; [|done| |by apply contains_empty].
  - rewrite removelast_last, map_map. apply map_ext. intros j. apply nth_error_split_frame.
  - apply Forall_map. eapply Forall_impl; [exact Hj|]. intros j H. simpl. by rewrite str_mem_app, H.
Qed.

Lemma run_calls_headers {D} error_of (st : MockState D) hdrs cs :
  Forall is_header_call hdrs -> run_calls error_of st (hdrs ++ cs) = run_calls error_of st cs.
Proof. induction 1 as [|[] hdrs Hc _ IH]; try contradiction; done. Qed.

Lemma run_calls_writes {D} error_of (st : MockState D) ws cs :
  run_calls error_of st (map ResWrite ws ++ cs) =
  run_calls error_of (mkState (ms_statusCode st) (ms_streamText st ++ str_concat ws) (ms_settled st)) cs.
Proof.
  revert st. induction ws as [|w ws IH]; intros st; simpl.
  - rewrite string_app_nil_r. by destruct st.
  - rewrite IH. simpl. by rewrite string_app_assoc.
Qed.

Lemma mapM_parse (parse : string -> option Event) stringify evs :
  Forall (fun e => parse (stringify e) = Some e) evs ->
  mapM (fun o => o ≫= parse) (map Some (map stringify evs)) = Some evs.
Proof. induction 1 as [|e evs He _ IH]; simpl; [done|]. by rewrite He, IH. Qed.

(** ** The harness's properties *)

(** C26. The try/catch status tests (e.g. "should return 400 if session
    with given id already exists") do not test the status: against an
    application that answers with status [s] through [send], [end] or
    [json], the test passes whenever [s] is below 400, and for an error
    status it passes only on [json] data with the expected status; an
    error sent as text ([send], [end]) or [json(undefined)] makes
    [sendRespose] read [undefined.error] and the test fail. *)
Theorem status_tests_outcome {B D} (error_of : D -> option string) app url m (body : option B)
    s c rest expected :
  app (mkRequest m url body) = ResStatus s :: c :: rest -> responds c ->
  expect_status_in_catch expected (sendMockRequest error_of app url m body) =
  status_test_outcome expected s c.
Proof.
  intros Happ Hc. change (sendMockRequest error_of app url m body)
    with (outcome (run_calls error_of init_state (app (mkRequest m url body)))).
  rewrite run_calls_first_settled, Happ. unfold status_test_outcome. simpl.
  destruct c as [|t|[d|]| | | |]; try contradiction; simpl; unfold sendRespose;
    destruct (Z.ltb 399 s) eqn:Hs; simpl;
    try (erewrite first_settled_settled by reflexivity); simpl; by try destruct (Z.eqb s expected).
Qed.

(** C27. The [run_sse] test's parsing undoes the stream framing
    ["data: " ++ json ++ "\n\n"] of events whose JSON holds no newline (as
    [JSON.stringify] makes it): every payload comes back as the text
    before its first ["data: "], so the test recovers exactly the
    payloads when, and only when, none of them contains ["data: "]. *)
Theorem sse_payloads_frames js :
  Forall (fun j => str_mem "010" j = false) js ->
  sse_payloads (str_concat (map sse_frame js)) = map (fun j => head (js_split "data: " j)) js /\
  (sse_payloads (str_concat (map sse_frame js)) = map Some js <->
   Forall (fun j => ~ contains "data: " j) js).
Proof.
  intros Hj. pose proof (sse_payloads_head js Hj) as Hp. split; [done|]. rewrite Hp, map_eq_Forall. split; intros H; eapply Forall_impl;
    try (apply H); intros j; by rewrite (split_head_whole "data: " j).
Qed.

(** C28. The [run_sse] test passes on the [TestAgent] run: when the
    server runs the test agent through the Runner on the stored session
    and streams each forwarded event as a frame of its JSON (JSON that
    [JSON.parse] reads back, with no newline and no ["data: "]), after
    headers only, the mock client resolves with status 200 and the test
    finds the agent's three messages in order. *)
Theorem run_sse_test_passes `{SessionServiceLaws Svc} {B D} (error_of : D -> option string)
    leaf unbounded sched svc s0 msg (stringify : Event -> string) (parse : string -> option Event)
    (app : MockRequest B -> list (ResCall D)) body hdrs :
  (forall ctx st, leaf TEST_AGENT ctx st = TestAgent_runAsyncImpl (agent_name TEST_AGENT) ctx) ->
  lookup_session svc ("testApp", "testUser", "sessionId") = Some s0 ->
  session_key s0 = ("testApp", "testUser", "sessionId") ->
  let evs := ro_events (spec_run (agent_runner leaf unbounded sched "testApp" TEST_AGENT)
                          svc "testUser" "sessionId" msg).2 in
  Forall (fun e => parse (stringify e) = Some e /\ str_mem "010" (stringify e) = false /\
                   find_sep "data: " (stringify e) = None) evs ->
  Forall is_header_call hdrs ->
  app (mkRequest POST "/run_sse" (Some body)) =
    hdrs ++ map (fun e => ResWrite (sse_frame (stringify e))) evs ++ [ResEnd] ->
  run_sse_test parse (client_post error_of app "/run_sse" body) = Passed.
Proof.
  intros Hleaf Hs Hk evs Hev Hh Happ.
  assert (Hevs : map first_text evs = map Some run_sse_texts /\ length evs = 3).
  { pose proof (spec_run_append_forward (agent_runner leaf unbounded sched "testApp" TEST_AGENT)
      svc "testUser" "sessionId" msg s0 Hs Hk) as Hr.
    unfold evs. destruct (spec_run _ _ _ _ _) as [svc' o]. cbn [snd]. destruct Hr as (_ & -> & _).
    unfold run_events. simpl. by rewrite Hleaf. }
  change (client_post error_of app "/run_sse" body)
    with (outcome (run_calls error_of init_state (app (mkRequest POST "/run_sse" (Some body))))).
  rewrite Happ, run_calls_headers by done.
  rewrite <- (map_map stringify (fun j => ResWrite (sse_frame j))), <- (map_map sse_frame ResWrite).
  rewrite run_calls_writes. simpl. rewrite string_app_nil_l, sse_payloads_head.
  2: { apply Forall_map. eapply Forall_impl; [exact Hev|]. intros e (_ & ? & _). done. }
  assert (Hh1 : map (fun j => head (js_split "data: " j)) (map stringify evs) = map Some (map stringify evs)).
  { rewrite map_eq_Forall. apply Forall_map. eapply Forall_impl; [exact Hev|].
    intros e (_ & _ & Hc). apply split_head_whole; [done|]. by apply find_sep_none_iff. }
  rewrite Hh1, mapM_parse by (eapply Forall_impl; [exact Hev|]; by intros e []).
  destruct Hevs as [-> ->]. reflexivity.
Qed.

(** ** Witnesses *)

Lemma status_tests_outcome_witness :
  let app := fun _ : MockRequest unit => [ResStatus 400; @ResSend string "Session already exists"] in
  app (mkRequest POST "/apps/testApp/users/testUser/sessions/sessionId" (Some tt)) =
    ResStatus 400 :: ResSend "Session already exists" :: [] /\
  responds (@ResSend string "Session already exists") /\
  expect_status_in_catch 400
    (sendMockRequest (fun d => Some d) app "/apps/testApp/users/testUser/sessions/sessionId" POST (Some tt)) =
  status_test_outcome 400 400 (@ResSend string "Session already exists").
Proof.
  intros app. split; [reflexivity|]. split; [exact I|].
  exact (status_tests_outcome (fun d => Some d) app _ POST (Some tt) 400 _ [] 400 eq_refl I).
Defined.

Lemma sse_payloads_frames_witness :
  Forall (fun j => str_mem "010" j = false) ["{text:Event 1}"; "{text:data: x}"] /\
  sse_payloads (str_concat (map sse_frame ["{text:Event 1}"; "{text:data: x}"])) =
    map (fun j => head (js_split "data: " j)) ["{text:Event 1}"; "{text:data: x}"] /\
  (sse_payloads (str_concat (map sse_frame ["{text:Event 1}"; "{text:data: x}"])) =
     map Some ["{text:Event 1}"; "{text:data: x}"] <->
   Forall (fun j => ~ contains "data: " j) ["{text:Event 1}"; "{text:data: x}"]).
Proof.
  assert (H : Forall (fun j => str_mem "010" j = false) ["{text:Event 1}"; "{text:data: x}"])
    by repeat constructor.
  split; [exact H|]. exact (sse_payloads_frames _ H).
Defined.

Lemma run_sse_test_passes_witness :
  let s0 := mkSession "sessionId" "testApp" "testUser" ∅ [] in
  let svc : InMemory.Store := <[("testApp", "testUser", "sessionId") := s0]> ∅ in
  let leaf := fun (a : Agent) (ctx : InvocationContext) (_ : State) => TestAgent_runAsyncImpl (agent_name a) ctx in
  let msg := mkContent (Some "user") (Some [text_part "Hello test agent!"]) in
  let stringify := fun e => default "" (first_text e) in
  let parse := fun t => Some (mkEvent "e-0" "testAgent" (Some "testAgent") (Some (model_text t)) ∅ false) in
  let evs := ro_events (spec_run (agent_runner leaf 0 (@List.concat Event) "testApp" TEST_AGENT)
                          svc "testUser" "sessionId" msg).2 in
  let hdrs := [ResSetHeader "Content-Type" "text/event-stream"; @ResFlushHeaders string] in
  let app := fun _ : MockRequest unit => hdrs ++ map (fun e => ResWrite (sse_frame (stringify e))) evs ++ [ResEnd] in
  (forall ctx st, leaf TEST_AGENT ctx st = TestAgent_runAsyncImpl (agent_name TEST_AGENT) ctx) /\
  lookup_session svc ("testApp", "testUser", "sessionId") = Some s0 /\
  session_key s0 = ("testApp", "testUser", "sessionId") /\
  Forall (fun e => parse (stringify e) = Some e /\ str_mem "010" (stringify e) = false /\
                   find_sep "data: " (stringify e) = None) evs /\
  Forall is_header_call hdrs /\
  run_sse_test parse (client_post (fun d => Some d) app "/run_sse" tt) = Passed.
Proof.
  intros s0 svc leaf msg stringify parse evs hdrs app.
  assert (Hl : forall ctx st, leaf TEST_AGENT ctx st = TestAgent_runAsyncImpl (agent_name TEST_AGENT) ctx)
    by reflexivity.
  assert (Hs : lookup_session svc ("testApp", "testUser", "sessionId") = Some s0) by (vm_compute; reflexivity).
  assert (He : Forall (fun e => parse (stringify e) = Some e /\ str_mem "010" (stringify e) = false /\
                   find_sep "data: " (stringify e) = None) evs) by (vm_compute; repeat constructor).
  assert (Hh : Forall is_header_call hdrs) by repeat constructor.
  do 5 (split; [assumption || reflexivity|]).
  exact (run_sse_test_passes (fun d => Some d) leaf 0 (@List.concat Event) svc s0 msg stringify parse
           app tt hdrs Hl Hs eq_refl He Hh eq_refl).
Defined.

(** The payload of a frame whose JSON quotes ["data: "] is cut before it. *)
Example sse_payload_cut :
  sse_payloads (sse_frame "{text:data: x}") = [Some "{text:"].
Proof. vm_compute. reflexivity. Qed.
