(* ===== verification/WebServer.v ===== *)
(** * The session and artifact routes of [AdkWebServer] and their tests

    [src/dev/samples/loop_agent.ts] (lines 209-481) tests [AdkWebServer]
    through the [MockHttpClient] of [WebTest]: a [beforeEach] builds
    fresh in-memory session and artifact services, hands them to a new
    server, and each test drives the services directly and the server
    through the client, then checks the response.

    The server ([src/server/adk_web_server.ts] of the dev package) is not
    in the repository.  Its routes are modelled from the URLs the tests
    request and from the service interfaces of [spec.md] §6, with §7's
    [NotFoundError] as a 404 answer: Express matches the request path
    against the route table in order ([match_path], segment by segment,
    a [:param] capturing a non-empty segment), and each handler calls
    the services and answers through the response methods.  The services
    are the classes [SessionService] and [ArtifactService]; the test and
    the server share the same service objects, so the server state
    [ServerState] is threaded through the test's direct calls and the
    requests alike.

    Each [it] block is a function from the state the [beforeEach] leaves
    to its [TestOutcome]; [web_suite] lists them.  The theorem
    [web_suite_passes] shows every test of the two [describe] blocks
    passes against any session and artifact service satisfying their
    laws, started empty. *)

From S2P Require Import Prelude GeminiStream Session Artifacts JsString WebTest.
From stdpp Require Import gmap.
From Stdlib Require Import ZArith Ascii.

#[global] Instance Method_eq_dec : EqDecision Method.
Proof. solve_decision. Defined.

#[global] Instance FunctionCall_eq_dec : EqDecision FunctionCall.
Proof. solve_decision. Defined.

#[global] Instance Blob_eq_dec : EqDecision Blob.
Proof. solve_decision. Defined.

#[global] Instance Part_eq_dec : EqDecision Part.
Proof. solve_decision. Defined.

(** ** Requests and responses *)

(** The body of a create request, [{state?}]. *)
Record CreateBody := mkCreateBody { cb_state : option State }.

(** The objects the routes pass to [res.json]. *)
Inductive Data :=
(** [ListSessionsResponse], [{sessions}] *)
| DSessions (sessions : list Session)
| DSession (s : Session)
(** arrays: artifact filenames and version numbers *)
| DKeys (names : list string)
| DVersions (versions : list nat)
| DPart (p : Part)
(** [{error}] *)
| DError (error : string).

(** [(jsonData as {error: string}).error] *)
Definition error_of (d : Data) : option string :=
  match d with DError e => Some e | _ => None end.

(** ** Express routing *)

(** A segment of a route path: a literal or a [:param]. *)
Inductive Seg := Lit (s : string) | Param.

(** The segments of a route path such as ["/apps/:appName/users"]. *)
Definition path_pattern (path : string) : list Seg :=
  map (fun s => match s with String ":"%char _ => Param | _ => Lit s end) (js_split "/" path).

(** Matching the request path's segments against a route; the captured
    parameters in order. *)
Fixpoint match_path (pat : list Seg) (segs : list string) : option (list string) :=
  match pat, segs with
  | [], [] => Some []
  | Lit l :: pat', s :: segs' => if String.eqb l s then match_path pat' segs' else None
  | Param :: pat', s :: segs' =>
      if String.eqb s "" then None else (fun ps => s :: ps) <$> match_path pat' segs'
  | _, _ => None
  end.

(** [Number.parseInt] of a version segment: its leading decimal digits,
    [None] (NaN) when there are none. *)
Fixpoint parse_digits (acc : option nat) (s : string) : option nat :=
  match s with
  | String c s' =>
      let d := Ascii.nat_of_ascii c - 48 in
      if (48 <=? Ascii.nat_of_ascii c) && (Ascii.nat_of_ascii c <=? 57)
      then parse_digits (Some (default 0 acc * 10 + d)) s'
      else acc
  | EmptyString => acc
  end.

Definition parseInt (s : string) : option nat := parse_digits None s.

(** The routes of the server, in the order Express tries them. *)
Inductive RouteId :=
| RListSessions | RCreateSession | RGetSession | RCreateSessionWithId | RDeleteSession
| RListArtifacts | RGetArtifact | RListVersions | RGetVersion | RDeleteArtifact.

Definition routes : list (Method * string * RouteId) := [
  (GET, "/apps/:appName/users/:userId/sessions", RListSessions);
  (POST, "/apps/:appName/users/:userId/sessions", RCreateSession);
  (GET, "/apps/:appName/users/:userId/sessions/:sessionId", RGetSession);
  (POST, "/apps/:appName/users/:userId/sessions/:sessionId", RCreateSessionWithId);
  (DELETE, "/apps/:appName/users/:userId/sessions/:sessionId", RDeleteSession);
  (GET, "/apps/:appName/users/:userId/sessions/:sessionId/artifacts", RListArtifacts);
  (GET, "/apps/:appName/users/:userId/sessions/:sessionId/artifacts/:artifactName", RGetArtifact);
  (GET, "/apps/:appName/users/:userId/sessions/:sessionId/artifacts/:artifactName/versions",
     RListVersions);
  (GET, "/apps/:appName/users/:userId/sessions/:sessionId/artifacts/:artifactName/versions/:versionId",
     RGetVersion);
  (DELETE, "/apps/:appName/users/:userId/sessions/:sessionId/artifacts/:artifactName",
     RDeleteArtifact)
].

(** The first route whose method and path match, with its parameters. *)
Fixpoint dispatch (rs : list (Method * string * RouteId)) (m : Method) (segs : list string)
    : option (list string * RouteId) :=
  match rs with
  | [] => None
  | (m', path, r) :: rs' =>
      if decide (m = m') then
        match match_path (path_pattern path) segs with
        | Some ps => Some (ps, r)
        | None => dispatch rs' m segs
        end
      else dispatch rs' m segs
  end.

(** ** The server *)

Section Server.
Context `{SessionService Svc} `{ArtifactService Art}.

(** The services the server and the test share. *)
Record ServerState := mkServerState { srv_sessions : Svc; srv_artifacts : Art }.

Definition Handler : Type :=
  list string -> option CreateBody -> ServerState -> list (ResCall Data) * ServerState.

Definition set_sessions (st : ServerState) (svc : Svc) : ServerState := mkServerState svc (srv_artifacts st).
Definition set_artifacts (st : ServerState) (a : Art) : ServerState := mkServerState (srv_sessions st) a.

(** [res.status(code).json({error})] *)
Definition answer_error (code : Z) (msg : string) : list (ResCall Data) :=
  [ResStatus code; ResJson (Some (DError msg))].

Definition answer (d : Data) : list (ResCall Data) := [ResJson (Some d)].

(** [res.status(204).end()] *)
Definition answer_no_content : list (ResCall Data) := [ResStatus 204; ResEnd].

Definition list_sessions_route : Handler := fun ps _ st =>
  match ps with
  | [app; user] => (answer (DSessions (listSessions (srv_sessions st) app user)), st)
  | _ => ([], st)
  end.

Definition create_session_route : Handler := fun ps body st =>
  match ps with
  | [app; user] =>
      let '(svc', s) := createSession (srv_sessions st) app user None
                          (default ∅ (body ≫= cb_state)) in
      (answer (DSession s), set_sessions st svc')
  | _ => ([], st)
  end.

Definition get_session_route : Handler := fun ps _ st =>
  match ps with
  | [app; user; id] =>
      match getSession (srv_sessions st) app user id with
      | Some s => (answer (DSession s), st)
      | None => (answer_error 404 "Session not found", st)
      end
  | _ => ([], st)
  end.

Definition create_session_with_id_route : Handler := fun ps body st =>
  match ps with
  | [app; user; id] =>
      match getSession (srv_sessions st) app user id with
      | Some _ => (answer_error 400 "Session already exists", st)
      | None =>
          let '(svc', s) := createSession (srv_sessions st) app user (Some id)
                              (default ∅ (body ≫= cb_state)) in
          (answer (DSession s), set_sessions st svc')
      end
  | _ => ([], st)
  end.

Definition delete_session_route : Handler := fun ps _ st =>
  match ps with
  | [app; user; id] => (answer_no_content, set_sessions st (deleteSession (srv_sessions st) app user id))
  | _ => ([], st)
  end.

Definition list_artifacts_route : Handler := fun ps _ st =>
  match ps with
  | [app; user; id] => (answer (DKeys (listArtifactKeys (srv_artifacts st) app user id)), st)
  | _ => ([], st)
  end.

(** A loaded artifact, or 404. *)
Definition answer_artifact (o : option Part) : list (ResCall Data) :=
  match o with
  | Some p => answer (DPart p)
  | None => answer_error 404 "Artifact not found"
  end.

Definition get_artifact_route : Handler := fun ps _ st =>
  match ps with
  | [app; user; id; name] =>
      (answer_artifact (loadArtifact (srv_artifacts st) (mkArtifactKey app user id name) None), st)
  | _ => ([], st)
  end.

Definition list_versions_route : Handler := fun ps _ st =>
  match ps with
  | [app; user; id; name] =>
      (answer (DVersions (listVersions (srv_artifacts st) (mkArtifactKey app user id name))), st)
  | _ => ([], st)
  end.

Definition get_version_route : Handler := fun ps _ st =>
  match ps with
  | [app; user; id; name; v] =>
      (answer_artifact (parseInt v ≫= fun n =>
         loadArtifact (srv_artifacts st) (mkArtifactKey app user id name) (Some n)), st)
  | _ => ([], st)
  end.

Definition delete_artifact_route : Handler := fun ps _ st =>
  match ps with
  | [app; user; id; name] =>
      (answer_no_content, set_artifacts st (deleteArtifact (srv_artifacts st) (mkArtifactKey app user id name)))
  | _ => ([], st)
  end.

(** The handler of each route. *)
Definition handler (r : RouteId) : Handler :=
  match r with
  | RListSessions => list_sessions_route
  | RCreateSession => create_session_route
  | RGetSession => get_session_route
  | RCreateSessionWithId => create_session_with_id_route
  | RDeleteSession => delete_session_route
  | RListArtifacts => list_artifacts_route
  | RGetArtifact => get_artifact_route
  | RListVersions => list_versions_route
  | RGetVersion => get_version_route
  | RDeleteArtifact => delete_artifact_route
  end.

(** [server.app(req, res)]: the response calls and the services after
    the request; an unmatched request gets a 404. *)
Definition serve (st : ServerState) (rq : MockRequest CreateBody) : list (ResCall Data) * ServerState :=
  match dispatch routes (rq_method rq) (js_split "/" (rq_url rq)) with
  | Some (ps, r) => handler r ps (rq_body rq) st
  | None => ([ResStatus 404; ResSend "Not Found"], st)
  end.

(** [client.get/post/delete(url, body)] on the shared services: how the
    promise settles, and the services after the handler ran. *)
Definition request (st : ServerState) (m : Method) (url : string) (body : option CreateBody)
    : option (Settled Data) * ServerState :=
  (sendMockRequest error_of (fun rq => (serve st rq).1) url m body,
   (serve st (mkRequest m url body)).2).

End Server.

Arguments ServerState : clear implicits.

(** ** Lemmas *)

Section ServerLemmas.
Context `{SessionService Svc} `{ArtifactService Art}.

(** A request the route table sends to [r] runs [r]'s handler; the
    client's promise settles as the mock client settles on its calls. *)
Lemma request_route (st : ServerState Svc Art) m url b ps r :
  dispatch routes m (js_split "/" url) = Some (ps, r) ->
  request st m url b = (outcome (run_calls error_of init_state (handler r ps b st).1), (handler r ps b st).2).
Proof.
  intros Hd. unfold request, sendMockRequest, serve. cbn [rq_method rq_url rq_body]. rewrite Hd.
  by destruct (run_calls _ _ _) as [? [?|]].
Qed.

End ServerLemmas.
