(* ===== verification/WebSuite.v ===== *)
(** * The [Sessions] and [Artifacts] tests of [AdkWebServer]

    [src/dev/samples/loop_agent.ts], lines 209-481.  The [beforeEach]
    (lines 217-240) gives every test fresh session and artifact services
    shared by the test and the server; an [it] block is a function from
    that [ServerState] to its [TestOutcome].  The test's own service calls
    ([sessionService.createSession], [artifactService.saveArtifact], ...)
    and its requests through the client are threaded in order; an
    awaited request that rejects outside a [try] fails the test, as does
    a failed [expect].  The server these tests run against is the
    reference server of [WebServer], not the real [AdkWebServer]. *)

From S2P Require Import Prelude GeminiStream Session Artifacts JsString WebTest WebServer.
From stdpp Require Import gmap.
From Stdlib Require Import ZArith.

Section Suite.
Context `{SessionService Svc} `{ArtifactService Art}.

Abbreviation St := (ServerState Svc Art).

(** [const response = await client...]: a rejection fails the test. *)
Definition await_response (p : option (Settled Data)) (k : MockResponse Data -> TestOutcome) : TestOutcome :=
  match p with
  | None => TimedOut
  | Some (Fulfilled r) => k r
  | Some _ => Failed
  end.

(** [expect(...)]: a failed expectation throws and fails the test. *)
Definition expect (b : bool) (k : TestOutcome) : TestOutcome := if b then k else Failed.

(** [expect(response.status).toBe(code)] *)
Definition expect_status (r : MockResponse Data) (code : Z) (k : TestOutcome) : TestOutcome :=
  expect (Z.eqb (mr_status r) code) k.

(** [response.data.sessions] *)
Definition data_sessions (d : option Data) : option (list Session) :=
  match d with Some (DSessions l) => Some l | _ => None end.

(** A field of the session in [response.data]: [.id], [.appName],
    [.userId]. *)
Definition data_session_field (f : Session -> string) (d : option Data) : option string :=
  match d with Some (DSession s) => Some (f s) | _ => None end.

(** [response.data.length] of an array. *)
Definition data_length (d : option Data) : option nat :=
  match d with Some (DKeys l) => Some (length l) | Some (DVersions l) => Some (length l) | _ => None end.

(** [response.data] as an artifact. *)
Definition data_part (d : option Data) : option Part :=
  match d with Some (DPart p) => Some p | _ => None end.

(** [await sessionService.createSession({appName: 'testApp', userId:
    'testUser', sessionId: 'sessionId'})] *)
Definition create_test_session (st : St) : St :=
  set_sessions st (createSession (srv_sessions st) "testApp" "testUser" (Some "sessionId") ∅).1.

Definition test_artifact : ArtifactKey := mkArtifactKey "testApp" "testUser" "sessionId" "artifact.txt".

(** [await artifactService.saveArtifact({..., filename: 'artifact.txt',
    artifact: {text}})] *)
Definition save_test_artifact (text : string) (st : St) : St :=
  set_artifacts st (saveArtifact (srv_artifacts st) test_artifact (text_part text)).1.

(** ** [describe('Sessions')] *)

(** [it('should return an empty list of sessions')] *)
Definition test_list_sessions_empty (st : St) : TestOutcome :=
  let '(p, _) := request st GET "/apps/testApp/users/testUser/sessions" None in
  await_response p (fun r =>
    expect_status r 200 (expect (bool_decide (length <$> data_sessions (mr_data r) = Some 0)) Passed)).

(** The three [expect]s on the created session. *)
Definition expect_created (r : MockResponse Data) (id_ok : option string -> bool) : TestOutcome :=
  expect_status r 200
    (expect (id_ok (data_session_field s_id (mr_data r)))
      (expect (bool_decide (data_session_field s_appName (mr_data r) = Some "testApp"))
        (expect (bool_decide (data_session_field s_userId (mr_data r) = Some "testUser")) Passed))).

(** [it('should create a session with a random id')]:
    [expect(response.data.id).toBeDefined()] *)
Definition test_create_session_random (st : St) : TestOutcome :=
  let '(p, _) := request st POST "/apps/testApp/users/testUser/sessions" (Some (mkCreateBody None)) in
  await_response p (fun r => expect_created r (fun o => bool_decide (is_Some o))).

(** [it('should create a session with a given id')] *)
Definition test_create_session_given (st : St) : TestOutcome :=
  let '(p, _) := request st POST "/apps/testApp/users/testUser/sessions/sessionId" (Some (mkCreateBody None)) in
  await_response p (fun r => expect_created r (fun o => bool_decide (o = Some "sessionId"))).

(** [it('should return 400 if session with given id already exists')] *)
Definition test_create_session_exists (st : St) : TestOutcome :=
  let st1 := create_test_session st in
  expect_status_in_catch 400
    (request st1 POST "/apps/testApp/users/testUser/sessions/sessionId" (Some (mkCreateBody None))).1.

(** [it('should return a session by id')] *)
Definition test_get_session (st : St) : TestOutcome :=
  let st1 := create_test_session st in
  let '(p, _) := request st1 GET "/apps/testApp/users/testUser/sessions/sessionId" None in
  await_response p (fun r =>
    expect_status r 200 (expect (bool_decide (data_session_field s_id (mr_data r) = Some "sessionId")) Passed)).

(** [it('should return 404 if session not found')] *)
Definition test_get_session_missing (st : St) : TestOutcome :=
  expect_status_in_catch 404 (request st GET "/apps/testApp/users/testUser/sessions/sessionId" None).1.

(** [it('should delete a session')]: the status, then the session is
    gone from the shared service. *)
Definition test_delete_session (st : St) : TestOutcome :=
  let st1 := create_test_session st in
  let '(p, st2) := request st1 DELETE "/apps/testApp/users/testUser/sessions/sessionId" None in
  await_response p (fun r =>
    expect_status r 204
      (expect (bool_decide (getSession (srv_sessions st2) "testApp" "testUser" "sessionId" = None)) Passed)).

(** ** [describe('Artifacts')] *)

(** [it('should return an empty list of artifacts')]:
    [expect(response.data).toEqual([])] *)
Definition test_list_artifacts_empty (st : St) : TestOutcome :=
  let st1 := create_test_session st in
  let '(p, _) := request st1 GET "/apps/testApp/users/testUser/sessions/sessionId/artifacts" None in
  await_response p (fun r =>
    expect_status r 200 (expect (bool_decide (data_length (mr_data r) = Some 0)) Passed)).

(** [expect(response.data).toEqual({text: 'content'})] after a 200. *)
Definition expect_content (r : MockResponse Data) : TestOutcome :=
  expect_status r 200 (expect (bool_decide (data_part (mr_data r) = Some (text_part "content"))) Passed).

(** [it('should return an artifact by name')] *)
Definition test_get_artifact (st : St) : TestOutcome :=
  let st1 := save_test_artifact "content" (create_test_session st) in
  let '(p, _) := request st1 GET "/apps/testApp/users/testUser/sessions/sessionId/artifacts/artifact.txt" None in
  await_response p expect_content.

(** [it('should return 404 if artifact not found')] *)
Definition test_get_artifact_missing (st : St) : TestOutcome :=
  let st1 := create_test_session st in
  expect_status_in_catch 404
    (request st1 GET "/apps/testApp/users/testUser/sessions/sessionId/artifacts/artifact.txt" None).1.

(** [it('should return an artifact by version')] *)
Definition test_get_artifact_version (st : St) : TestOutcome :=
  let st1 := save_test_artifact "content" (create_test_session st) in
  let '(p, _) := request st1 GET
    "/apps/testApp/users/testUser/sessions/sessionId/artifacts/artifact.txt/versions/0" None in
  await_response p expect_content.

(** [it('should return a list of artifact versions')]:
    [expect(response.data.length).toEqual(2)] *)
Definition test_list_versions (st : St) : TestOutcome :=
  let st1 := save_test_artifact "content2" (save_test_artifact "content" (create_test_session st)) in
  let '(p, _) := request st1 GET
    "/apps/testApp/users/testUser/sessions/sessionId/artifacts/artifact.txt/versions" None in
  await_response p (fun r =>
    expect_status r 200 (expect (bool_decide (data_length (mr_data r) = Some 2)) Passed)).

(** [it('should delete an artifact')]: the status, then the artifact is
    gone from the shared service. *)
Definition test_delete_artifact (st : St) : TestOutcome :=
  let st1 := save_test_artifact "content" (create_test_session st) in
  let '(p, st2) := request st1 DELETE
    "/apps/testApp/users/testUser/sessions/sessionId/artifacts/artifact.txt" None in
  await_response p (fun r =>
    expect_status r 204
      (expect (bool_decide (loadArtifact (srv_artifacts st2) test_artifact None = None)) Passed)).

(** The two [describe] blocks, in order. *)
Definition web_suite : list (string * (St -> TestOutcome)) := [
  ("should return an empty list of sessions", test_list_sessions_empty);
  ("should create a session with a random id", test_create_session_random);
  ("should create a session with a given id", test_create_session_given);
  ("should return 400 if session with given id already exists", test_create_session_exists);
  ("should return a session by id", test_get_session);
  ("should return 404 if session not found", test_get_session_missing);
  ("should delete a session", test_delete_session);
  ("should return an empty list of artifacts", test_list_artifacts_empty);
  ("should return an artifact by name", test_get_artifact);
  ("should return 404 if artifact not found", test_get_artifact_missing);
  ("should return an artifact by version", test_get_artifact_version);
  ("should return a list of artifact versions", test_list_versions);
  ("should delete an artifact", test_delete_artifact)
].

End Suite.

(** ** Every test passes against lawful services *)

Section Proofs.
Context `{SessionServiceLaws Svc} `{ArtifactServiceLaws Art}.
(** The services the [beforeEach] creates: no sessions, no artifacts. *)
Variables (svc0 : Svc) (art0 : Art).
Hypothesis svc0_empty : forall k, lookup_session svc0 k = None.
Hypothesis art0_empty : forall k, art_view art0 k = [].

Lemma svc0_get app user id : getSession svc0 app user id = None.
Proof. exact (svc0_empty (app, user, id)). Qed.

(** Dispatch a request to its handler and evaluate the client. *)
Ltac route := erewrite request_route by reflexivity; cbn.

(** The session [create_test_session] stores. *)
Ltac created :=
  let Hc := fresh "Hc" in
  pose proof (create_given_get svc0 "testApp" "testUser" "sessionId" ∅ eq_refl) as Hc;
  destruct (createSession svc0 "testApp" "testUser" (Some "sessionId") ∅) as [?svc ?s];
  destruct Hc as (Hget & Hid & Happ & Huser).

Lemma test_list_sessions_empty_passes : test_list_sessions_empty (mkServerState svc0 art0) = Passed.
Proof. unfold test_list_sessions_empty. route. by rewrite list_sessions_empty. Qed.

Lemma test_create_session_random_passes : test_create_session_random (mkServerState svc0 art0) = Passed.
Proof.
  unfold test_create_session_random. route.
  pose proof (create_spec svc0 "testApp" "testUser" None ∅) as Hc.
  destruct (createSession _ _ _ _ _) as [svc1 s]. destruct Hc as (Ha & Hu & _).
  cbn. by rewrite Ha, Hu.
Qed.

Lemma test_create_session_given_passes : test_create_session_given (mkServerState svc0 art0) = Passed.
Proof. unfold test_create_session_given. route. rewrite svc0_get. created. cbn. by rewrite Hid, Happ, Huser. Qed.

Lemma test_create_session_exists_passes : test_create_session_exists (mkServerState svc0 art0) = Passed.
Proof. unfold test_create_session_exists, create_test_session. cbn [srv_sessions set_sessions]. created. route. by rewrite Hget. Qed.

Lemma test_get_session_passes : test_get_session (mkServerState svc0 art0) = Passed.
Proof. unfold test_get_session, create_test_session. cbn [srv_sessions set_sessions]. created. route. rewrite Hget. cbn. by rewrite Hid. Qed.

Lemma test_get_session_missing_passes : test_get_session_missing (mkServerState svc0 art0) = Passed.
Proof. unfold test_get_session_missing. route. by rewrite svc0_get. Qed.

Lemma test_delete_session_passes : test_delete_session (mkServerState svc0 art0) = Passed.
Proof. unfold test_delete_session. route. by rewrite delete_get. Qed.

Lemma test_list_artifacts_empty_passes : test_list_artifacts_empty (mkServerState svc0 art0) = Passed.
Proof. unfold test_list_artifacts_empty. route. by rewrite list_keys_empty. Qed.

Lemma test_get_artifact_passes : test_get_artifact (mkServerState svc0 art0) = Passed.
Proof.
  unfold test_get_artifact. route. change {| ak_app := "testApp" |} with test_artifact.
  by rewrite art_load_latest, save_view, art0_empty.
Qed.

Lemma test_get_artifact_missing_passes : test_get_artifact_missing (mkServerState svc0 art0) = Passed.
Proof. unfold test_get_artifact_missing. route. change {| ak_app := "testApp" |} with test_artifact. by rewrite art_load_latest, art0_empty. Qed.

Lemma test_get_artifact_version_passes : test_get_artifact_version (mkServerState svc0 art0) = Passed.
Proof.
  unfold test_get_artifact_version. erewrite request_route by reflexivity. cbn -[parseInt].
  change (parseInt "0") with (Some 0). cbn. change {| ak_app := "testApp" |} with test_artifact.
  by rewrite art_load_version, save_view, art0_empty.
Qed.

Lemma test_list_versions_passes : test_list_versions (mkServerState svc0 art0) = Passed.
Proof.
  unfold test_list_versions. route. change {| ak_app := "testApp" |} with test_artifact.
  by rewrite art_versions_spec, !save_view, art0_empty.
Qed.

Lemma test_delete_artifact_passes : test_delete_artifact (mkServerState svc0 art0) = Passed.
Proof.
  unfold test_delete_artifact. route. change {| ak_app := "testApp" |} with test_artifact.
  by rewrite art_load_latest, (proj1 (art_delete_spec _ _)).
Qed.
(** The [Sessions] and [Artifacts] tests of the web-server suite all
    pass against the reference server of [WebServer], over any session
    and artifact services that satisfy their laws and start empty, as the
    [beforeEach] builds them.  The server is chosen to fit the tests, so
    this checks the consistency of the tests with the service laws, not
    the real [AdkWebServer]. *)
Theorem web_suite_passes :
  Forall (fun t => t.2 (mkServerState svc0 art0) = Passed) web_suite.
Proof.
  repeat constructor; cbn [snd].
  - exact test_list_sessions_empty_passes.
  - exact test_create_session_random_passes.
  - exact test_create_session_given_passes.
  - exact test_create_session_exists_passes.
  - exact test_get_session_passes.
  - exact test_get_session_missing_passes.
  - exact test_delete_session_passes.
  - exact test_list_artifacts_empty_passes.
  - exact test_get_artifact_passes.
  - exact test_get_artifact_missing_passes.
  - exact test_get_artifact_version_passes.
  - exact test_list_versions_passes.
  - exact test_delete_artifact_passes.
Qed.

End Proofs.

Lemma web_suite_passes_witness :
  (forall k, lookup_session (∅ : InMemory.Store) k = None) /\
  (forall k, art_view (∅ : InMemoryArtifacts.Store) k = []) /\
  Forall (fun t => t.2 (mkServerState (∅ : InMemory.Store) (∅ : InMemoryArtifacts.Store)) = Passed) web_suite.
Proof.
  assert (Hs : forall k, lookup_session (∅ : InMemory.Store) k = None) by (intros k; apply lookup_empty).
  assert (Ha : forall k, art_view (∅ : InMemoryArtifacts.Store) k = []) by (intros k; reflexivity).
  split; [exact Hs|split; [exact Ha|]].
  exact (web_suite_passes ∅ ∅ Hs Ha).
Defined.
